(** * Grove: the plant-leaf upload pipeline of the two React components

    A shallow embedding of [components/image-upload-analyzer.tsx]: the
    stand-alone analyzer widget ([ImageUploadAnalyzer]) and the landing page
    ([Grove]).  Both components validate a file, resize it on a canvas,
    re-encode it as JPEG, post it to an inference endpoint and turn the
    response into a [result] or an [error].

    Conventions of the embedding.
    - Image sizes, file sizes, mouse positions and HTTP statuses are
      rationals ([Q]), computed exactly.  A number of a response body is a
      [double]: a finite one is the rational it stands for, and the product
      [data.confidence * 100] is rounded to the nearest double as the
      language does.  The sign of zero is not kept.
    - A string the code only compares or displays (MIME types, messages,
      URLs) is a [string]; a string that comes out of the JSON body is a
      list of UTF-16 code units, so that [trim] sees every white-space
      character of the language.
    - [useState] setters are recorded as commands; a handler is a script of
      commands with its [await] points, and a state is obtained by running
      the commands.  No handler of the pipeline reads the state it writes.
    - What the browser decides (whether the image decodes, what the server
      answers) is an [Env] the handlers are run in.
    - Each component is a transition system: the JSX decides which handlers
      an event can reach in a state.  [step] runs a handler to its end;
      [async_step] lets it yield at every [await], as the event loop does.
    - [console.error], [window.print], scrolling and the reset of the file
      input leave the state alone and are left out. *)

From Stdlib Require Import ZArith QArith Qround Qabs Qpower Lqa Lia List Bool.
From Stdlib Require Import String Ascii DecimalString DecimalPos DecimalZ.
From Equations Require Import Equations.
Import ListNotations.

Set Implicit Arguments.
Set Warnings "-register-all".

(** ** JavaScript values *)

Module Js.

Definition number := Q.

(** [a > b] on numbers. *)
Definition gt (a b : number) : bool := negb (Qle_bool a b).

(** [a >= b] and [a < b] on numbers. *)
Definition ge (a b : number) : bool := Qle_bool b a.
Definition lt (a b : number) : bool := negb (Qle_bool b a).

(** *** Double-precision numbers

    The numbers of a parsed body and what the code computes from them.  A
    finite double is the rational it stands for. *)
Inductive double : Type :=
| Finite (q : Q)
| Infinite (negative : bool)
| NaN.

(** The integer nearest to [y]; of two nearest ones, the even one. *)
Definition round_half_even (y : Q) : Z :=
  let f := Qfloor y in
  match Qcompare (y - inject_Z f) (1 # 2) with
  | Lt => f
  | Gt => (f + 1)%Z
  | Eq => if Z.even f then f else (f + 1)%Z
  end.

(** The exponent [e] with [2 ^ e <= a < 2 ^ (e + 1)], for a positive [a]. *)
Definition binade (a : Q) : Z :=
  let e := (Z.log2 (Qnum a) - Z.log2 (Zpos (Qden a)))%Z in
  if Qle_bool (2 ^ e) a then e else (e - 1)%Z.

(** The double nearest to the real number [x] (round to nearest, ties to
    even): 53 significant bits, the smallest quantum [2 ^ -1074], and
    infinity from [2 ^ 1024 - 2 ^ 970] on. *)
Definition round64 (x : Q) : double :=
  if Qeq_bool x 0 then Finite 0 else
  let a := Qabs x in
  let quantum := 2 ^ (Z.max (binade a - 52) (-1074)) in
  let r := inject_Z (round_half_even (a / quantum)) * quantum in
  if Qle_bool (2 ^ 1024) r then Infinite (negb (Qle_bool 0 x))
  else Finite (Qred (if Qle_bool 0 x then r else - r)).

(** [a * b] on doubles. *)
Definition mul (a b : double) : double :=
  match a, b with
  | NaN, _ | _, NaN => NaN
  | Finite x, Finite y => round64 (x * y)
  | Infinite s, Finite y | Finite y, Infinite s =>
      if Qeq_bool y 0 then NaN else Infinite (xorb s (negb (Qle_bool 0 y)))
  | Infinite s, Infinite t => Infinite (xorb s t)
  end.

(** A string of UTF-16 code units. *)
Definition jstring := list N.

Definition code_units (s : string) : jstring :=
  List.map N_of_ascii (list_ascii_of_string s).

(** The values a parsed JSON body is made of, and [undefined], which a
    property access yields for a missing property. *)
Inductive value : Type :=
| VUndefined
| VNull
| VBool (b : bool)
| VNum (n : double)
| VStr (s : jstring)
| VArr (items : list value)
| VObj (props : list (jstring * value)).

(** ToBoolean. *)
Definition truthy (v : value) : bool :=
  match v with
  | VUndefined | VNull => false
  | VBool b => b
  | VNum (Finite q) => negb (Qeq_bool q 0)
  | VNum (Infinite _) => true
  | VNum NaN => false
  | VStr s => match s with [] => false | _ :: _ => true end
  | VArr _ | VObj _ => true
  end.

(** ToBoolean of a state that holds a string or [null]: [null] and the
    empty string are falsy. *)
Definition truthy_text (o : option string) : bool :=
  match o with
  | Some (String _ _) => true
  | Some EmptyString | None => false
  end.

(** [typeof v === "number"]. *)
Definition is_number (v : value) : bool :=
  match v with VNum _ => true | _ => false end.

Definition jstring_eqb (a b : jstring) : bool :=
  if list_eq_dec N.eq_dec a b then true else false.

Fixpoint own_property (props : list (jstring * value)) (key : jstring) : value :=
  match props with
  | [] => VUndefined
  | (k, v) :: rest => if jstring_eqb k key then v else own_property rest key
  end.

(** What the code throws and catches. *)
Inductive thrown : Type :=
| TypeError (message : string)
| Error (message : string)
| NotAnError.

(** [err instanceof Error]: a [TypeError] is an [Error]. *)
Definition instanceof_Error (t : thrown) : option string :=
  match t with
  | TypeError m | Error m => Some m
  | NotAnError => None
  end.

Definition instanceof_TypeError (t : thrown) : option string :=
  match t with
  | TypeError m => Some m
  | _ => None
  end.

(** *** [String.prototype.replace] with the global pattern [/_+/g] *)

Definition underscore : N := 95.
Definition space : N := 32.

(** Length of the greedy match of [c+] at the head of [s]; [0] when the
    pattern does not match there. *)
Fixpoint match_plus (c : N) (s : jstring) : nat :=
  match s with
  | x :: s' => if N.eqb x c then S (match_plus c s') else 0
  | [] => 0
  end.

(** The scan of a global replace: at each position either the pattern
    matches, the replacement is emitted and the scan resumes after the
    match, or the code unit is copied. *)
Equations? replace_plus (c : N) (replacement : jstring) (s : jstring) : jstring
  by wf (List.length s) Nat.lt :=
replace_plus c r [] := [];
replace_plus c r (x :: s') with match_plus c (x :: s') => {
  | O := x :: replace_plus c r s';
  | S n := r ++ replace_plus c r (skipn n s') }.
Proof.
  all: simpl; try lia.
  rewrite length_skipn. lia.
Qed.

(** *** [String.prototype.trim] *)

(** WhiteSpace and LineTerminator of ECMAScript. *)
Definition is_white_space (c : N) : bool :=
  ((9 <=? c) && (c <=? 13) || (c =? 32) || (c =? 160) || (c =? 5760)
   || (8192 <=? c) && (c <=? 8202) || (c =? 8232) || (c =? 8233)
   || (c =? 8239) || (c =? 8287) || (c =? 12288) || (c =? 65279))%N.

Fixpoint trimStart (s : jstring) : jstring :=
  match s with
  | c :: s' => if is_white_space c then trimStart s' else s
  | [] => []
  end.

Definition trimEnd (s : jstring) : jstring := rev (trimStart (rev s)).

Definition trim (s : jstring) : jstring := trimEnd (trimStart s).

(** The template literal [`${n}`] for an integer [n]. *)
Definition to_string (n : Z) : string := NilZero.string_of_int (Z.to_int n).

End Js.

(** ** The browser: files, blobs, requests and what the environment answers *)

Module Dom.
Import Js.

Record File := { name : string; type : string; size : Z }.

(** A [Blob] is a file as it was chosen, or what [canvas.toBlob] encoded:
    the canvas was given [width] and [height] and the image [source] was
    drawn on it at that size. *)
Inductive Blob : Type :=
| FileBlob (f : File)
| CanvasBlob (source : File) (width height : number)
    (mime : string) (quality : number).

(** [URL.createObjectURL(blob)], and the data URL of a [FileReader]. *)
Inductive Url : Type :=
| ObjectUrl (b : Blob)
| DataUrl (f : File)
| Src (path : string).

(** One entry of a [FormData]: [append(name, blob, filename)]. *)
Record FormEntry := { field : string; content : Blob; filename : string }.

Record Request := {
  url : string;
  method : string;
  body : list FormEntry }.

(** A response as the code reads it: [ok] and [status] are taken as the
    response gives them, whatever the relation between the two. *)
Record Response := {
  ok : bool;
  status : Z;
  json : thrown + value;     (* the promise of [response.json()] *)
  blob : thrown + Z }.       (* the promise of [response.blob()]: its size *)

(** The answers of the environment to one run of a handler. *)
Record Env := {
  getContext : bool;                        (* [canvas.getContext("2d")] is not null *)
  decode : File -> option (Z * Z);          (* [img.onload] with the image size, or [img.onerror] *)
  toBlob : number -> number -> bool;        (* [canvas.toBlob] hands over a blob, not null *)
  fetch : Request -> thrown + Response;
  reader_loads : File -> bool;              (* [reader.onload] fires for the file *)
  read_null : string;                       (* message of the TypeError of a property read on null *)
  not_a_function : string }.                (* message of the TypeError of calling a non-function *)

(** The canvas keeps whole pixels: [canvas.width = w] stores the integer
    part of a non-negative [w]. *)
Definition pixels (w : number) : Z := Qfloor w.

(** [data.key] for a value [data] of a parsed body. *)
Definition property (env : Env) (data : value) (key : string) : thrown + value :=
  match data with
  | VUndefined | VNull => inl (TypeError (read_null env))
  | VObj props => inr (own_property props (code_units key))
  | VBool _ | VNum _ | VStr _ | VArr _ => inr VUndefined
  end.

End Dom.

(** ** Scripts: setter calls, await points, exceptions *)

Module Script.
Import Js Dom.

Inductive await_point : Type :=
| AwaitResize (file : File)
| AwaitFetch (req : Request)
| AwaitJson
| AwaitBlob
| AwaitReader (file : File).

Section Commands.
Variable action : Type.

Inductive cmd : Type :=
| Do (a : action)
| Await (p : await_point).

(** A computation has issued commands and then returned or thrown. *)
Definition M (A : Type) : Type := (list cmd * (thrown + A))%type.

Definition ret {A} (a : A) : M A := ([], inr a).
Definition throw {A} (t : thrown) : M A := ([], inl t).
Definition set (a : action) : M unit := ([Do a], inr tt).

(** [await p], where the promise settles with [outcome]. *)
Definition await {A} (p : await_point) (outcome : thrown + A) : M A :=
  ([Await p], outcome).

Definition bind {A B} (m : M A) (k : A -> M B) : M B :=
  match m with
  | (cs, inl t) => (cs, inl t)
  | (cs, inr a) => let (cs', r) := k a in (cs ++ cs', r)
  end.

(** [try { m } catch (err) { handler err }]. *)
Definition try_catch {A} (m : M A) (handler : thrown -> M A) : M A :=
  match m with
  | (cs, inl t) => let (cs', r) := handler t in (cs ++ cs', r)
  | (cs, inr a) => (cs, inr a)
  end.

(** [try { m } finally { f }], for an [f] that returns. *)
Definition try_finally {A} (m : M A) (f : M unit) : M A :=
  match m, f with
  | (cs, r), (cs', inr _) => (cs ++ cs', r)
  | (cs, _), (cs', inl t) => (cs ++ cs', inl t)
  end.

Definition commands {A} (m : M A) : list cmd := fst m.

(** The setter calls of a script, in order. *)
Fixpoint actions (cs : list cmd) : list action :=
  match cs with
  | [] => []
  | Do a :: cs' => a :: actions cs'
  | Await _ :: cs' => actions cs'
  end.

(** The requests a script sends, in order. *)
Fixpoint requests (cs : list cmd) : list Request :=
  match cs with
  | [] => []
  | Await (AwaitFetch req) :: cs' => req :: requests cs'
  | _ :: cs' => requests cs'
  end.

(** The part of a script that runs before its first [await], and the rest. *)
Fixpoint until_await (cs : list cmd) : list action * list cmd :=
  match cs with
  | [] => ([], [])
  | Do a :: cs' => let (now, later) := until_await cs' in (a :: now, later)
  | Await _ :: cs' => ([], cs')
  end.

End Commands.

Arguments Await {action} p.
Arguments ret {action A} a.
Arguments throw {action A} t.
Arguments await {action A} p outcome.

Declare Scope script_scope.
Delimit Scope script_scope with script.
Notation "x <- m ;; k" := (bind m (fun x => k))
  (at level 61, m at next level, right associativity) : script_scope.
Notation "m ;; k" := (bind m (fun _ => k))
  (at level 61, right associativity) : script_scope.

End Script.

(** ** The analyzer widget: [ImageUploadAnalyzer] *)

Module Analyzer.
Import Js Dom Script.
Local Open Scope string_scope.
Local Open Scope list_scope.
Local Open Scope script_scope.

Record AnalysisResult := {
  disease : jstring;
  confidence : double;
  description : value }.

Record State := {
  selectedFile : option File;
  previewUrl : option Url;
  resizedImageUrl : option Url;
  isAnalyzing : bool;
  result : option AnalysisResult;
  error : option string;
  isDragActive : bool }.

(** The [useState] initial values. *)
Definition initial : State := {|
  selectedFile := None; previewUrl := None; resizedImageUrl := None;
  isAnalyzing := false; result := None; error := None; isDragActive := false |}.

Inductive action : Type :=
| SetSelectedFile (v : option File)
| SetPreviewUrl (v : option Url)
| SetResizedImageUrl (v : option Url)
| SetIsAnalyzing (v : bool)
| SetResult (v : option AnalysisResult)
| SetError (v : option string)
| SetIsDragActive (v : bool).

Definition apply (a : action) (st : State) : State :=
  match a with
  | SetSelectedFile v =>
      {| selectedFile := v; previewUrl := previewUrl st;
         resizedImageUrl := resizedImageUrl st; isAnalyzing := isAnalyzing st;
         result := result st; error := error st; isDragActive := isDragActive st |}
  | SetPreviewUrl v =>
      {| selectedFile := selectedFile st; previewUrl := v;
         resizedImageUrl := resizedImageUrl st; isAnalyzing := isAnalyzing st;
         result := result st; error := error st; isDragActive := isDragActive st |}
  | SetResizedImageUrl v =>
      {| selectedFile := selectedFile st; previewUrl := previewUrl st;
         resizedImageUrl := v; isAnalyzing := isAnalyzing st;
         result := result st; error := error st; isDragActive := isDragActive st |}
  | SetIsAnalyzing v =>
      {| selectedFile := selectedFile st; previewUrl := previewUrl st;
         resizedImageUrl := resizedImageUrl st; isAnalyzing := v;
         result := result st; error := error st; isDragActive := isDragActive st |}
  | SetResult v =>
      {| selectedFile := selectedFile st; previewUrl := previewUrl st;
         resizedImageUrl := resizedImageUrl st; isAnalyzing := isAnalyzing st;
         result := v; error := error st; isDragActive := isDragActive st |}
  | SetError v =>
      {| selectedFile := selectedFile st; previewUrl := previewUrl st;
         resizedImageUrl := resizedImageUrl st; isAnalyzing := isAnalyzing st;
         result := result st; error := v; isDragActive := isDragActive st |}
  | SetIsDragActive v =>
      {| selectedFile := selectedFile st; previewUrl := previewUrl st;
         resizedImageUrl := resizedImageUrl st; isAnalyzing := isAnalyzing st;
         result := result st; error := error st; isDragActive := v |}
  end.

Definition run (acts : list action) (st : State) : State :=
  fold_left (fun s a => apply a s) acts st.

(** The state after a script has run to its end. *)
Definition exec {A} (m : M action A) (st : State) : State :=
  run (actions (commands m)) st.

(** *** [resizeImage] *)

(** The body of [img.onload] up to the two canvas assignments. *)
Definition resizeImage_dimensions (img_width img_height : Z) (maxDimension : number)
  : number * number :=
  let width := inject_Z img_width in
  let height := inject_Z img_height in
  if gt width height then
    if gt width maxDimension then
      let height := (height * maxDimension) / width in
      let width := maxDimension in
      (width, height)
    else (width, height)
  else
    if gt height maxDimension then
      let width := (width * maxDimension) / height in
      let height := maxDimension in
      (width, height)
    else (width, height).

Definition jpeg_quality : number := 9 # 10.

(** How the promise of [resizeImage(file, maxDimension)] settles. *)
Definition resizeImage (env : Env) (file : File) (maxDimension : number)
  : thrown + Blob :=
  if negb (getContext env) then inl (Error "Could not get canvas context")
  else
    match decode env file with
    | Some (img_width, img_height) =>
        let (width, height) :=
          resizeImage_dimensions img_width img_height maxDimension in
        if toBlob env width height
        then inr (CanvasBlob file width height "image/jpeg" jpeg_quality)
        else inl (Error "Failed to create blob from canvas")
    | None => inl (Error "Failed to load image")
    end.

(** *** [validateFile] *)

Definition validTypes : list string :=
  ["image/jpeg"; "image/jpg"; "image/png"; "image/webp"].

Definition maxSize : Z := 10 * 1024 * 1024.

Definition includes (l : list string) (s : string) : bool :=
  existsb (String.eqb s) l.

Definition type_error : string :=
  "Please upload a valid image file (JPEG, PNG, or WebP)".

Definition size_error : string :=
  "Image file is too large. Please upload an image smaller than 10MB".

Definition validateFile (file : File) : M action bool :=
  if negb (includes validTypes (type file)) then
    set (SetError (Some type_error)) ;;
    ret false
  else if (size file >? maxSize)%Z then
    set (SetError (Some size_error)) ;;
    ret false
  else ret true.

(** *** [analyzeImage] *)

Definition endpoint : string := "https://grove-ai-5.onrender.com/predict".

Definition predict_request (imageBlob : Blob) : Request := {|
  url := endpoint;
  method := "POST";
  body := [ {| field := "file"; content := imageBlob; filename := "image.jpg" |} ] |}.

(** The [if (!response.ok)] block. *)
Definition check_status (response : Response) : M action unit :=
  if negb (ok response) then
    if (status response =? 404)%Z then
      throw (Error "The analysis service is temporarily unavailable.")
    else if (status response =? 500)%Z then
      throw (Error "Server error occurred. Please try again in a few moments.")
    else if ((status response >=? 400) && (status response <? 500))%Z then
      throw (Error "Invalid request. Please check your image and try again.")
    else
      throw (Error ("Request failed with status " ++ to_string (status response)))
  else ret tt.

(** [data.disease.replace(/_+/g, " ")]: only a string has the method. *)
Definition call_replace (env : Env) (v : value) : M action jstring :=
  match v with
  | VStr s => ret (replace_plus underscore [space] s)
  | VUndefined | VNull => throw (TypeError (read_null env))
  | _ => throw (TypeError (not_a_function env))
  end.

(** The operand of [* 100], applied to a value whose [typeof] is number. *)
Definition as_number (v : value) : double :=
  match v with VNum n => n | _ => NaN end.

(** [v || ""]. *)
Definition or_empty (v : value) : value :=
  if truthy v then v else VStr [].

Definition lift {A} (r : thrown + A) : M action A := ([], r).

(** The block after [const data = await response.json()]. *)
Definition read_result (env : Env) (data : value) : M action unit :=
  disease_field <- lift (property env data "disease") ;;
  accepted <- (if truthy disease_field
               then confidence_field <- lift (property env data "confidence") ;;
                    ret (is_number confidence_field)
               else ret false) ;;
  if (accepted : bool) then
    disease_field <- lift (property env data "disease") ;;
    replaced <- call_replace env disease_field ;;
    confidence_field <- lift (property env data "confidence") ;;
    description_field <- lift (property env data "description") ;;
    set (SetResult (Some {|
      disease := trim replaced;
      confidence := mul (as_number confidence_field) (Finite 100);
      description := or_empty description_field |}))
  else throw (Error "Invalid response format from API").

Definition connect_error : string :=
  "Unable to connect to the analysis service. Please check your internet connection and try again.".

(** The [catch (err)] block. *)
Definition on_error (err : thrown) : M action unit :=
  if match instanceof_TypeError err with
     | Some message => String.eqb message "Failed to fetch"
     | None => false
     end
  then set (SetError (Some connect_error))
  else
    match instanceof_Error err with
    | Some message => set (SetError (Some message))
    | None => set (SetError (Some "Analysis failed. Please try again with a different image."))
    end.

Definition analyzeImage (env : Env) (imageBlob : Blob) : M action unit :=
  set (SetIsAnalyzing true) ;;
  set (SetError None) ;;
  set (SetResult None) ;;
  try_finally
    (try_catch
       (let request := predict_request imageBlob in
        response <- await (AwaitFetch request) (fetch env request) ;;
        check_status response ;;
        data <- await AwaitJson (json response) ;;
        read_result env data)
       on_error)
    (set (SetIsAnalyzing false)).

(** *** [processFile] and the event handlers *)

Definition processFile (env : Env) (file : File) : M action unit :=
  set (SetError None) ;;
  valid <- validateFile file ;;
  if negb valid then ret tt
  else
    set (SetSelectedFile (Some file)) ;;
    set (SetPreviewUrl (Some (ObjectUrl (FileBlob file)))) ;;
    try_catch
      (resizedBlob <- await (AwaitResize file) (resizeImage env file 512) ;;
       set (SetResizedImageUrl (Some (ObjectUrl resizedBlob))) ;;
       analyzeImage env resizedBlob)
      (fun err =>
         set (SetError (Some match instanceof_Error err with
                             | Some message => message
                             | None => "Failed to process image"
                             end))).

(** [event.target.files?.[0]]. *)
Definition handleFileChange (env : Env) (files : list File) : M action unit :=
  match files with
  | file :: _ => processFile env file
  | [] => ret tt
  end.

Definition handleDragEnter (types : list string) : M action unit :=
  if includes types "Files" then set (SetIsDragActive true) else ret tt.

Definition handleDragLeave (x y left right top bottom : number) : M action unit :=
  if lt x left || ge x right || lt y top || ge y bottom
  then set (SetIsDragActive false)
  else ret tt.

Definition handleDragOver : M action unit := ret tt.

Definition handleDrop (env : Env) (files : list File) : M action unit :=
  set (SetIsDragActive false) ;;
  match files with
  | file :: _ =>
      if prefix "image/" (type file) then processFile env file else ret tt
  | [] => ret tt
  end.

Definition reset : M action unit :=
  set (SetSelectedFile None) ;;
  set (SetPreviewUrl None) ;;
  set (SetResizedImageUrl None) ;;
  set (SetResult None) ;;
  set (SetError None) ;;
  set (SetIsAnalyzing false).

(** The close button of the error card: [onClick={() => setError(null)}]. *)
Definition dismissError : M action unit := set (SetError None).

(** *** The component as a transition system *)

Inductive event : Type :=
| FileChange (env : Env) (files : list File)
| DragEnter (types : list string)
| DragLeave (x y left right top bottom : number)
| DragOver
| Drop (env : Env) (files : list File)
| DismissError
| Reset.

Definition handler (e : event) : M action unit :=
  match e with
  | FileChange env files => handleFileChange env files
  | DragEnter types => handleDragEnter types
  | DragLeave x y l r t b => handleDragLeave x y l r t b
  | DragOver => handleDragOver
  | Drop env files => handleDrop env files
  | DismissError => dismissError
  | Reset => reset
  end.

Definition is_some {A} (o : option A) : bool :=
  match o with Some _ => true | None => false end.

(** What the JSX renders decides which handlers can be reached: the upload
    area under [!selectedFile], the error card under [error], which is
    falsy for [null] and for the empty string, the action buttons under
    [selectedFile]. *)
Definition enabled (st : State) (e : event) : bool :=
  match e with
  | FileChange _ _ | DragEnter _ | DragLeave _ _ _ _ _ _ | DragOver | Drop _ _ =>
      negb (is_some (selectedFile st))
  | DismissError => truthy_text (error st)
  | Reset => is_some (selectedFile st)
  end.

(** Handlers run one at a time, each to its end. *)
Inductive step : State -> State -> Prop :=
| step_event st e :
    enabled st e = true -> step st (exec (handler e) st).

Inductive reachable : State -> Prop :=
| reachable_initial : reachable initial
| reachable_step st st' : reachable st -> step st st' -> reachable st'.

(** Handlers yield at their [await]s: a configuration is the state and the
    scripts that wait to be resumed. *)
Definition config : Type := (State * list (list (cmd action)))%type.

Inductive async_step : config -> config -> Prop :=
| async_start st waiting e :
    enabled st e = true ->
    async_step (st, waiting)
      (run (fst (until_await (commands (handler e)))) st,
       snd (until_await (commands (handler e))) :: waiting)
| async_resume st before script after :
    async_step (st, before ++ script :: after)
      (run (fst (until_await script)) st,
       before ++ snd (until_await script) :: after).

Inductive async_reachable : config -> Prop :=
| async_reachable_initial : async_reachable (initial, [])
| async_reachable_step c c' :
    async_reachable c -> async_step c c' -> async_reachable c'.

(** The two moves as functions, to run a schedule: start the handler of an
    event, or resume the waiting script at a position. *)
Definition start (e : event) (c : config) : config :=
  (run (fst (until_await (commands (handler e)))) (fst c),
   snd (until_await (commands (handler e))) :: snd c).

Definition resume (position : nat) (c : config) : config :=
  match nth_error (snd c) position with
  | Some script =>
      (run (fst (until_await script)) (fst c),
       firstn position (snd c) ++ snd (until_await script)
         :: skipn (S position) (snd c))
  | None => c
  end.

End Analyzer.

(** ** The landing page: [Grove] *)

Module Landing.
Import Js Dom Script.
Local Open Scope string_scope.
Local Open Scope list_scope.
Local Open Scope script_scope.

Record AnalysisResult := {
  disease : jstring;
  confidence : double;
  description : value }.

Inductive View : Type := home | analysis.

Record State := {
  uploadedImage : option Url;
  isAnalyzing : bool;
  result : option AnalysisResult;
  isDemoMode : bool;
  expandedFaq : option nat;
  mobileMenuOpen : bool;
  currentView : View;
  error : option string }.

Definition initial : State := {|
  uploadedImage := None; isAnalyzing := false; result := None;
  isDemoMode := false; expandedFaq := None; mobileMenuOpen := false;
  currentView := home; error := None |}.

Inductive action : Type :=
| SetUploadedImage (v : option Url)
| SetIsAnalyzing (v : bool)
| SetResult (v : option AnalysisResult)
| SetIsDemoMode (v : bool)
| SetExpandedFaq (v : option nat)
| SetMobileMenuOpen (v : bool)
| SetCurrentView (v : View)
| SetError (v : option string).

Definition apply (a : action) (st : State) : State :=
  match a with
  | SetUploadedImage v =>
      {| uploadedImage := v; isAnalyzing := isAnalyzing st; result := result st;
         isDemoMode := isDemoMode st; expandedFaq := expandedFaq st;
         mobileMenuOpen := mobileMenuOpen st; currentView := currentView st;
         error := error st |}
  | SetIsAnalyzing v =>
      {| uploadedImage := uploadedImage st; isAnalyzing := v; result := result st;
         isDemoMode := isDemoMode st; expandedFaq := expandedFaq st;
         mobileMenuOpen := mobileMenuOpen st; currentView := currentView st;
         error := error st |}
  | SetResult v =>
      {| uploadedImage := uploadedImage st; isAnalyzing := isAnalyzing st; result := v;
         isDemoMode := isDemoMode st; expandedFaq := expandedFaq st;
         mobileMenuOpen := mobileMenuOpen st; currentView := currentView st;
         error := error st |}
  | SetIsDemoMode v =>
      {| uploadedImage := uploadedImage st; isAnalyzing := isAnalyzing st;
         result := result st; isDemoMode := v; expandedFaq := expandedFaq st;
         mobileMenuOpen := mobileMenuOpen st; currentView := currentView st;
         error := error st |}
  | SetExpandedFaq v =>
      {| uploadedImage := uploadedImage st; isAnalyzing := isAnalyzing st;
         result := result st; isDemoMode := isDemoMode st; expandedFaq := v;
         mobileMenuOpen := mobileMenuOpen st; currentView := currentView st;
         error := error st |}
  | SetMobileMenuOpen v =>
      {| uploadedImage := uploadedImage st; isAnalyzing := isAnalyzing st;
         result := result st; isDemoMode := isDemoMode st; expandedFaq := expandedFaq st;
         mobileMenuOpen := v; currentView := currentView st; error := error st |}
  | SetCurrentView v =>
      {| uploadedImage := uploadedImage st; isAnalyzing := isAnalyzing st;
         result := result st; isDemoMode := isDemoMode st; expandedFaq := expandedFaq st;
         mobileMenuOpen := mobileMenuOpen st; currentView := v; error := error st |}
  | SetError v =>
      {| uploadedImage := uploadedImage st; isAnalyzing := isAnalyzing st;
         result := result st; isDemoMode := isDemoMode st; expandedFaq := expandedFaq st;
         mobileMenuOpen := mobileMenuOpen st; currentView := currentView st;
         error := v |}
  end.

Definition run (acts : list action) (st : State) : State :=
  fold_left (fun s a => apply a s) acts st.

Definition exec {A} (m : M action A) (st : State) : State :=
  run (actions (commands m)) st.

(** *** [validateImage] *)

Definition validTypes : list string :=
  ["image/jpeg"; "image/jpg"; "image/png"; "image/webp"].

Definition maxSize : Z := 10 * 1024 * 1024.

Definition includes (l : list string) (s : string) : bool :=
  existsb (String.eqb s) l.

Definition type_error : string :=
  "Please upload a valid image file (JPEG, PNG, or WebP)".

Definition size_error : string :=
  "Image file is too large. Please upload an image smaller than 10MB".

Definition validateImage (file : File) : M action bool :=
  if negb (includes validTypes (type file)) then
    set (SetError (Some type_error)) ;;
    ret false
  else if (size file >? maxSize)%Z then
    set (SetError (Some size_error)) ;;
    ret false
  else ret true.

(** *** [resizeAndCompressImage] *)

(** The body of [img.onload] up to the two canvas assignments. *)
Definition resizeAndCompressImage_dimensions (img_width img_height : Z)
  : number * number :=
  let width := inject_Z img_width in
  let height := inject_Z img_height in
  let maxWidth : number := 512 in
  if gt width maxWidth then
    let height := (height * maxWidth) / width in
    let width := maxWidth in
    (width, height)
  else (width, height).

Definition jpeg_quality : number := 8 # 10.

Definition resizeAndCompressImage (env : Env) (file : File) : thrown + Blob :=
  if negb (getContext env) then inl (Error "Could not get canvas context")
  else
    match decode env file with
    | Some (img_width, img_height) =>
        let (width, height) :=
          resizeAndCompressImage_dimensions img_width img_height in
        if toBlob env width height
        then inr (CanvasBlob file width height "image/jpeg" jpeg_quality)
        else inl (Error "Failed to create compressed image")
    | None => inl (Error "Failed to load image")
    end.

(** *** [analyzeImageWithAPI] *)

Definition endpoint : string := "https://grove-ai-6.onrender.com/predict".

Definition predict_request (compressedBlob : Blob) : Request := {|
  url := endpoint;
  method := "POST";
  body := [ {| field := "file"; content := compressedBlob; filename := "image.jpg" |} ] |}.

(** The [if (!response.ok)] block. *)
Definition check_status (response : Response) : M action unit :=
  if negb (ok response) then
    if (status response =? 404)%Z then
      throw (Error "The service may be temporarily unavailable.")
    else if (status response =? 500)%Z then
      throw (Error "Server error occurred. Please try again in a few moments.")
    else if ((status response >=? 400) && (status response <? 500))%Z then
      throw (Error "Invalid request. Please check your image format and try again.")
    else
      throw (Error ("API request failed with status " ++ to_string (status response)))
  else ret tt.

(** [data.disease.replace(/_+/g, " ")]: only a string has the method. *)
Definition call_replace (env : Env) (v : value) : M action jstring :=
  match v with
  | VStr s => ret (replace_plus underscore [space] s)
  | VUndefined | VNull => throw (TypeError (read_null env))
  | _ => throw (TypeError (not_a_function env))
  end.

(** The operand of [* 100], applied to a value whose [typeof] is number. *)
Definition as_number (v : value) : double :=
  match v with VNum n => n | _ => NaN end.

Definition lift {A} (r : thrown + A) : M action A := ([], r).

(** The block after [const data = await response.json()]. *)
Definition read_result (env : Env) (data : value) : M action unit :=
  disease_field <- lift (property env data "disease") ;;
  accepted <- (if truthy disease_field
               then confidence_field <- lift (property env data "confidence") ;;
                    if is_number confidence_field
                    then description_field <- lift (property env data "description") ;;
                         ret (truthy description_field)
                    else ret false
               else ret false) ;;
  if (accepted : bool) then
    disease_field <- lift (property env data "disease") ;;
    replaced <- call_replace env disease_field ;;
    confidence_field <- lift (property env data "confidence") ;;
    description_field <- lift (property env data "description") ;;
    set (SetResult (Some {|
      disease := trim replaced;
      confidence := mul (as_number confidence_field) (Finite 100);
      description := description_field |}))
  else throw (Error "Invalid response format from API").

Definition connect_error : string :=
  "Unable to connect to the analysis service. Please check your internet connection and try again.".

(** The [catch (err)] block. *)
Definition on_error (err : thrown) : M action unit :=
  (if match instanceof_TypeError err with
      | Some message => String.eqb message "Failed to fetch"
      | None => false
      end
   then set (SetError (Some connect_error))
   else
     match instanceof_Error err with
     | Some message => set (SetError (Some message))
     | None => set (SetError (Some "Analysis failed. Please try again with a different image."))
     end) ;;
  set (SetCurrentView home).

Definition analyzeImageWithAPI (env : Env) (file : File) : M action unit :=
  set (SetIsAnalyzing true) ;;
  set (SetResult None) ;;
  set (SetError None) ;;
  set (SetCurrentView analysis) ;;
  try_finally
    (try_catch
       (compressedBlob <- await (AwaitResize file) (resizeAndCompressImage env file) ;;
        let request := predict_request compressedBlob in
        response <- await (AwaitFetch request) (fetch env request) ;;
        check_status response ;;
        data <- await AwaitJson (json response) ;;
        read_result env data)
       on_error)
    (set (SetIsAnalyzing false)).

(** *** The event handlers *)

(** The [reader.onload] callback, when the reader gets there. *)
Definition read_then_analyze (env : Env) (file : File) : M action unit :=
  loaded <- await (AwaitReader file) (inr (reader_loads env file)) ;;
  if (loaded : bool) then
    set (SetUploadedImage (Some (DataUrl file))) ;;
    analyzeImageWithAPI env file
  else ret tt.

Definition handleDragDrop (env : Env) (file : File) : M action unit :=
  set (SetError None) ;;
  valid <- validateImage file ;;
  if negb valid then ret tt
  else read_then_analyze env file.

(** [event.target.files?.[0]], then the same steps. *)
Definition handleImageUpload (env : Env) (files : list File) : M action unit :=
  match files with
  | file :: _ =>
      set (SetError None) ;;
      valid <- validateImage file ;;
      if negb valid then ret tt
      else read_then_analyze env file
  | [] => ret tt
  end.

(** The [onDrop] of the upload area. *)
Definition onDrop (env : Env) (files : list File) : M action unit :=
  match files with
  | file :: _ =>
      if prefix "image/" (type file) then handleDragDrop env file else ret tt
  | [] => ret tt
  end.

Definition demoImages : list (string * string) :=
  [ ("/images/healthy-tomato-leaf.jpg", "Garden Leaf Sample");
    ("/images/potato-early-blight.jpg", "Crop Leaf Sample");
    ("/images/apple-scab.jpg", "Fruit Tree Leaf Sample") ].

Definition handleDemoImage (env : Env) (imageName imageSrc : string) : M action unit :=
  set (SetError None) ;;
  set (SetUploadedImage (Some (Src imageSrc))) ;;
  set (SetIsDemoMode true) ;;
  try_catch
    (let request := {| url := imageSrc; method := "GET"; body := [] |} in
     response <- await (AwaitFetch request) (fetch env request) ;;
     blob_size <- await AwaitBlob (blob response) ;;
     let file := {| name := imageName ++ ".jpg"; type := "image/jpeg"; size := blob_size |} in
     analyzeImageWithAPI env file)
    (fun _ => set (SetError (Some "Demo analysis failed. Please try uploading your own image."))).

Definition resetAnalysis : M action unit :=
  set (SetUploadedImage None) ;;
  set (SetResult None) ;;
  set (SetIsDemoMode false) ;;
  set (SetCurrentView home) ;;
  set (SetError None).

(** *** The component as a transition system *)

Inductive event : Type :=
| ImageUpload (env : Env) (files : list File)
| DropFiles (env : Env) (files : list File)
| DemoImage (env : Env) (index : nat)
| ToggleMobileMenu
| CloseMobileMenu
| ToggleFaq (index : nat)
| ResetAnalysis.

(** The handlers of the menu and of the FAQ read the rendered state. *)
Definition handler (st : State) (e : event) : M action unit :=
  match e with
  | ImageUpload env files => handleImageUpload env files
  | DropFiles env files => onDrop env files
  | DemoImage env index =>
      match nth_error demoImages index with
      | Some (src, name) => handleDemoImage env name src
      | None => ret tt
      end
  | ToggleMobileMenu => set (SetMobileMenuOpen (negb (mobileMenuOpen st)))
  | CloseMobileMenu => set (SetMobileMenuOpen false)
  | ToggleFaq index =>
      set (SetExpandedFaq
             match expandedFaq st with
             | Some open => if Nat.eqb open index then None else Some index
             | None => Some index
             end)
  | ResetAnalysis => resetAnalysis
  end.

(** The component returns the analysis screen under
    [currentView === "analysis"] and the home page otherwise. *)
Definition enabled (st : State) (e : event) : bool :=
  match e, currentView st with
  | ResetAnalysis, analysis => true
  | ResetAnalysis, home => false
  | CloseMobileMenu, home => mobileMenuOpen st
  | _, home => true
  | _, analysis => false
  end.

Inductive step : State -> State -> Prop :=
| step_event st e :
    enabled st e = true -> step st (exec (handler st e) st).

Inductive reachable : State -> Prop :=
| reachable_initial : reachable initial
| reachable_step st st' : reachable st -> step st st' -> reachable st'.

Definition config : Type := (State * list (list (cmd action)))%type.

Inductive async_step : config -> config -> Prop :=
| async_start st waiting e :
    enabled st e = true ->
    async_step (st, waiting)
      (run (fst (until_await (commands (handler st e)))) st,
       snd (until_await (commands (handler st e))) :: waiting)
| async_resume st before script after :
    async_step (st, before ++ script :: after)
      (run (fst (until_await script)) st,
       before ++ snd (until_await script) :: after).

Inductive async_reachable : config -> Prop :=
| async_reachable_initial : async_reachable (initial, [])
| async_reachable_step c c' :
    async_reachable c -> async_step c c' -> async_reachable c'.

Definition start (e : event) (c : config) : config :=
  (run (fst (until_await (commands (handler (fst c) e)))) (fst c),
   snd (until_await (commands (handler (fst c) e))) :: snd c).

Definition resume (position : nat) (c : config) : config :=
  match nth_error (snd c) position with
  | Some script =>
      (run (fst (until_await script)) (fst c),
       firstn position (snd c) ++ snd (until_await script)
         :: skipn (S position) (snd c))
  | None => c
  end.

End Landing.

(** ** Sample inputs *)

Module Samples.
Import Js Dom.
Local Open Scope string_scope.

Definition leaf : File :=
  {| name := "leaf.jpg"; type := "image/jpeg"; size := 204800 |}.

Definition animation : File :=
  {| name := "leaf.gif"; type := "image/gif"; size := 4096 |}.

Definition notes : File :=
  {| name := "notes.txt"; type := "text/plain"; size := 12 |}.

Definition prediction : value :=
  VObj [ (code_units "disease", VStr (code_units "Apple___Apple_scab"));
         (code_units "confidence", VNum (Finite (3 # 4))) ].

Definition described_prediction : value :=
  VObj [ (code_units "disease", VStr (code_units "Apple___Apple_scab"));
         (code_units "confidence", VNum (Finite (3 # 4)));
         (code_units "description", VStr (code_units "Olive-green spots")) ].

Definition respond (code : Z) (data : value) : Response :=
  {| ok := ((200 <=? code) && (code <=? 299))%Z; status := code;
     json := inr data; blob := inr 0%Z |}.

(** A browser in which the canvas works, every image decodes to
    [width] x [height], and the server answers every request with [code]
    and the body [data]. *)
Definition browser (width height : Z) (code : Z) (data : value) : Env :=
  {| getContext := true;
     decode := fun _ => Some (width, height);
     toBlob := fun _ _ => true;
     fetch := fun _ => inr (respond code data);
     reader_loads := fun _ => true;
     read_null := "Cannot read properties of null";
     not_a_function := "data.disease.replace is not a function" |}.

(** A browser that reaches no server. *)
Definition offline (width height : Z) : Env :=
  {| getContext := true;
     decode := fun _ => Some (width, height);
     toBlob := fun _ _ => true;
     fetch := fun _ => inl (TypeError "Failed to fetch");
     reader_loads := fun _ => true;
     read_null := "Cannot read properties of null";
     not_a_function := "data.disease.replace is not a function" |}.

(** An upload to the analyzer widget that is answered late: the file is
    chosen and its request leaves; "Upload Another Image" is clicked; a GIF
    is dropped and refused; then the answer to the first request arrives. *)
Definition late_answer : Analyzer.config :=
  Analyzer.resume 2
    (Analyzer.resume 2
       (Analyzer.start (Analyzer.Drop (browser 1024 768 200 prediction) [animation])
          (Analyzer.start Analyzer.Reset
             (Analyzer.resume 0
                (Analyzer.start
                   (Analyzer.FileChange (browser 1024 768 200 prediction) [leaf])
                   (Analyzer.initial, [])))))).

(** The same on the landing page: the file is chosen and the page shows the
    analysis screen; "Back to Home" is clicked; the answer arrives; then a
    GIF is dropped and refused. *)
Definition late_answer_landing : Landing.config :=
  Landing.start (Landing.DropFiles (browser 1024 768 200 described_prediction) [animation])
    (Landing.resume 1
       (Landing.resume 1
          (Landing.resume 1
             (Landing.start Landing.ResetAnalysis
                (Landing.resume 0
                   (Landing.start
                      (Landing.ImageUpload
                         (browser 1024 768 200 described_prediction) [leaf])
                      (Landing.initial, []))))))).

End Samples.

(** The MIME types both components list. *)
Definition accepted_types : list string :=
  ["image/jpeg"; "image/jpg"; "image/png"; "image/webp"]%string.

(** ** Vocabulary of the statements *)

Import Js Dom Script.

(** The value of [data.key] for a body that is not null: a property of an
    object, [undefined] on anything else. *)
Definition field_of (data : value) (key : string) : value :=
  match data with
  | VObj props => own_property props (code_units key)
  | _ => VUndefined
  end.

(** The bodies the analyzer widget turns into a result: [disease] is a
    string that is not empty and [confidence] is a number. *)
Definition analyzer_accepts (data : value) : Prop :=
  exists d c,
    field_of data "disease" = VStr d /\ d <> [] /\
    field_of data "confidence" = VNum c.

(** The bodies the landing page turns into a result: as above, and
    [description] is truthy. *)
Definition landing_accepts (data : value) : Prop :=
  exists d c,
    field_of data "disease" = VStr d /\ d <> [] /\
    field_of data "confidence" = VNum c /\
    truthy (field_of data "description") = true.

(** The maximal runs of a string: it is cut wherever an underscore meets a
    code unit that is not one. *)
Definition is_underscore (c : N) : bool := N.eqb c underscore.

Fixpoint runs (s : jstring) : list jstring :=
  match s with
  | [] => []
  | x :: s' =>
      match runs s' with
      | (y :: r) :: rest =>
          if Bool.eqb (is_underscore x) (is_underscore y)
          then (x :: y :: r) :: rest
          else [x] :: (y :: r) :: rest
      | [] :: rest => [x] :: rest
      | [] => [[x]]
      end
  end.

(** Neighbouring runs are of different kinds: that makes them maximal. *)
Fixpoint alternate (rs : list jstring) : Prop :=
  match rs with
  | (x :: _) :: (((y :: _) :: _) as rest) =>
      is_underscore x <> is_underscore y /\ alternate rest
  | _ => True
  end.

(** "Every maximal run of underscores replaced by a single space". *)
Definition replace_run (r : jstring) : jstring :=
  match r with
  | x :: _ => if is_underscore x then [space] else r
  | [] => []
  end.

Definition replace_runs (s : jstring) : jstring :=
  List.concat (List.map replace_run (runs s)).

(** "Trimmed of leading and trailing white space": [t] is [s] without a
    prefix and a suffix of white space, and [t] neither starts nor ends with
    white space. *)
Definition white (s : jstring) : Prop :=
  Forall (fun c => is_white_space c = true) s.

Definition starts_clean (t : jstring) : Prop :=
  match t with c :: _ => is_white_space c = false | [] => True end.

Definition trimmed_of (s t : jstring) : Prop :=
  exists pre suf,
    s = pre ++ t ++ suf /\ white pre /\ white suf /\
    starts_clean t /\ starts_clean (rev t).

(** What holds of the states the components reach when every handler runs
    to its end before the next event: a result is only held without an
    error, and only while the file is selected (analyzer widget) or the
    analysis screen is shown (landing page). *)
Definition analyzer_invariant (st : Analyzer.State) : Prop :=
  Analyzer.result st = None \/
  (Analyzer.error st = None /\ Analyzer.selectedFile st <> None).

Definition landing_invariant (st : Landing.State) : Prop :=
  Landing.result st = None \/
  (Landing.error st = None /\ Landing.currentView st = Landing.analysis).

(** The finite doubles: an integer of at most 53 bits times a power of two
    no smaller than [2 ^ -1074], below [2 ^ 1024] in absolute value. *)
Definition is_double (r : Q) : Prop :=
  (exists m e, r == inject_Z m * 2 ^ e /\ (Z.abs m <= 2 ^ 53)%Z /\ (-1074 <= e)%Z)
  /\ Qabs r < 2 ^ 1024.

(** [y] is the real number [x] as a double holds it.  A finite [y] is a
    double, no double is nearer to [x], and it is within a relative error
    of [2 ^ -53] of [x], or within [2 ^ -1075] of it.  An infinite [y] has
    the sign of [x], which is [2 ^ 1024 - 2 ^ 970] or more away from
    zero. *)
Definition rounded (x : Q) (y : double) : Prop :=
  match y with
  | Finite p =>
      is_double p /\
      (forall d, is_double d -> Qabs (p - x) <= Qabs (d - x)) /\
      (Qabs (p - x) <= Qabs x * 2 ^ (-53) \/ Qabs (p - x) <= 2 ^ (-1075))
  | Infinite negative => 2 ^ 1024 - 2 ^ 970 <= (if negative then - x else x)
  | NaN => False
  end.

(** ** What the components render *)

Module Render.
Import Js.

(** A state that holds an object or [null] is truthy when it holds the
    object; one that holds a string or [null] is tested with
    [truthy_text]. *)
Definition is_some {A} (o : option A) : bool :=
  match o with Some _ => true | None => false end.

(** The blocks of the JSX of the analyzer widget, each under its condition. *)
Inductive card : Type :=
| UploadArea          (* [!selectedFile] *)
| ErrorCard           (* [error] *)
| Previews            (* [selectedFile] *)
| AnalysisStatus      (* [isAnalyzing] *)
| ResultsCard         (* [result && !isAnalyzing] *)
| ActionButtons       (* [selectedFile] *)
| SaveResults.        (* [result], inside the action buttons *)

Definition analyzer_cards (st : Analyzer.State) : list card :=
  (if is_some (Analyzer.selectedFile st) then [] else [UploadArea])
  ++ (if truthy_text (Analyzer.error st) then [ErrorCard] else [])
  ++ (if is_some (Analyzer.selectedFile st) then [Previews] else [])
  ++ (if Analyzer.isAnalyzing st then [AnalysisStatus] else [])
  ++ (if is_some (Analyzer.result st) && negb (Analyzer.isAnalyzing st)
      then [ResultsCard] else [])
  ++ (if is_some (Analyzer.selectedFile st)
      then ActionButtons
             :: (if is_some (Analyzer.result st) then [SaveResults] else [])
      else []).

(** A value React accepts as a child: text, a number, nothing for [null],
    [undefined] and the booleans, an array of such; a plain object is
    refused with an exception. *)
Fixpoint valid_child (v : value) : bool :=
  match v with
  | VObj _ => false
  | VArr items =>
      (fix all (l : list value) : bool :=
         match l with
         | [] => true
         | item :: rest => valid_child item && all rest
         end) items
  | VUndefined | VNull | VBool _ | VNum _ | VStr _ => true
  end.

(** The results card holds [{result.description && <p>{result.description}</p>}]:
    a truthy description is a child of the paragraph. *)
Definition results_card_renders (r : Analyzer.AnalysisResult) : bool :=
  if truthy (Analyzer.description r) then valid_child (Analyzer.description r)
  else true.

(** What the widget returns for a state: its cards, or [None] when the
    render throws. *)
Definition analyzer_page (st : Analyzer.State) : option (list card) :=
  match Analyzer.result st with
  | Some r =>
      if negb (Analyzer.isAnalyzing st) && negb (results_card_renders r)
      then None
      else Some (analyzer_cards st)
  | None => Some (analyzer_cards st)
  end.

(** What the landing page returns: the analysis screen under
    [currentView === "analysis"], with
    [isAnalyzing ? spinner : result ? results : null], and the home page
    otherwise, with the error card under [error]. *)
Inductive screen : Type :=
| HomePage (error_card : bool)
| AnalysisSpinner
| AnalysisResults
| AnalysisBlank.

Definition landing_screen (st : Landing.State) : screen :=
  match Landing.currentView st with
  | Landing.analysis =>
      if Landing.isAnalyzing st then AnalysisSpinner
      else if is_some (Landing.result st) then AnalysisResults
      else AnalysisBlank
  | Landing.home => HomePage (truthy_text (Landing.error st))
  end.

End Render.

(** ** Further browsers *)

Module Cases.
Import Js Dom.
Local Open Scope string_scope.

(** A browser whose canvas has no 2d context. *)
Definition no_canvas : Env :=
  {| getContext := false;
     decode := fun _ => Some (1024, 768)%Z;
     toBlob := fun _ _ => true;
     fetch := fun _ => inr (Samples.respond 200 Samples.described_prediction);
     reader_loads := fun _ => true;
     read_null := "Cannot read properties of null";
     not_a_function := "data.disease.replace is not a function" |}.

(** A browser in which the image does not decode. *)
Definition undecodable : Env :=
  {| getContext := true;
     decode := fun _ => None;
     toBlob := fun _ _ => true;
     fetch := fun _ => inr (Samples.respond 200 Samples.described_prediction);
     reader_loads := fun _ => true;
     read_null := "Cannot read properties of null";
     not_a_function := "data.disease.replace is not a function" |}.

(** A browser whose canvas hands over no blob. *)
Definition no_blob : Env :=
  {| getContext := true;
     decode := fun _ => Some (1024, 768)%Z;
     toBlob := fun _ _ => false;
     fetch := fun _ => inr (Samples.respond 200 Samples.described_prediction);
     reader_loads := fun _ => true;
     read_null := "Cannot read properties of null";
     not_a_function := "data.disease.replace is not a function" |}.

(** A server that answers 200 with a body that is not JSON. *)
Definition garbled : Env :=
  {| getContext := true;
     decode := fun _ => Some (1024, 768)%Z;
     toBlob := fun _ _ => true;
     fetch := fun _ =>
       inr {| ok := true; status := 200;
              json := inl (Error "Unexpected token < in JSON at position 0");
              blob := inr 0%Z |};
     reader_loads := fun _ => true;
     read_null := "Cannot read properties of null";
     not_a_function := "data.disease.replace is not a function" |}.

(** A server whose demo images cannot be fetched. *)
Definition no_demo : Env :=
  {| getContext := true;
     decode := fun _ => Some (1024, 768)%Z;
     toBlob := fun _ _ => true;
     fetch := fun req =>
       if String.eqb (method req) "GET" then inl (TypeError "Failed to fetch")
       else inr (Samples.respond 200 Samples.described_prediction);
     reader_loads := fun _ => true;
     read_null := "Cannot read properties of null";
     not_a_function := "data.disease.replace is not a function" |}.

(** A server that serves a demo image of [bytes] bytes and answers the
    prediction request. *)
Definition demo_server (bytes : Z) : Env :=
  {| getContext := true;
     decode := fun _ => Some (1024, 768)%Z;
     toBlob := fun _ _ => true;
     fetch := fun req =>
       if String.eqb (method req) "GET"
       then inr {| ok := true; status := 200; json := inl (Error "not JSON");
                   blob := inr bytes |}
       else inr (Samples.respond 200 Samples.described_prediction);
     reader_loads := fun _ => true;
     read_null := "Cannot read properties of null";
     not_a_function := "data.disease.replace is not a function" |}.

(** A browser whose [fetch] rejects with an [Error] that has no message. *)
Definition silent : Env :=
  {| getContext := true;
     decode := fun _ => Some (1024, 768)%Z;
     toBlob := fun _ _ => true;
     fetch := fun _ => inl (Error EmptyString);
     reader_loads := fun _ => true;
     read_null := "Cannot read properties of null";
     not_a_function := "data.disease.replace is not a function" |}.

(** A body whose [description] is an object. *)
Definition described_by_object : value :=
  VObj [ (code_units "disease", VStr (code_units "Tomato___Late_blight"));
         (code_units "confidence", VNum (Finite (3 # 4)));
         (code_units "description",
          VObj [ (code_units "text", VStr (code_units "Dark spots")) ]) ].

(** The double written [0.57] in a body. *)
Definition fifty_seven_hundredths : Q :=
  5134103575202365 # 9007199254740992.

(** A body with a label and the confidence [c]. *)
Definition scored (c : double) : value :=
  VObj [ (code_units "disease", VStr (code_units "Tomato___Late_blight"));
         (code_units "confidence", VNum c) ].

(** A body whose [disease] is a number. *)
Definition numbered : value :=
  VObj [ (code_units "disease", VNum (Finite 7));
         (code_units "confidence", VNum (Finite (3 # 4))) ].

End Cases.

(** ** Events fired on a state *)

(** The state after the handler of an event has run to its end. *)
Definition analyzer_fire (e : Analyzer.event) (st : Analyzer.State) : Analyzer.State :=
  Analyzer.exec (Analyzer.handler e) st.

Definition landing_fire (e : Landing.event) (st : Landing.State) : Landing.State :=
  Landing.exec (Landing.handler st e) st.

(** ** The shape of the states reached without overlap *)

(** Analyzer widget: the flag is off; the preview is that of the selected
    file; without a selected file there is no resized preview and no
    result; a result comes with a resized preview and without an error. *)
Definition analyzer_shape (st : Analyzer.State) : Prop :=
  Analyzer.isAnalyzing st = false /\
  Analyzer.previewUrl st
    = option_map (fun f => ObjectUrl (FileBlob f)) (Analyzer.selectedFile st) /\
  (Analyzer.selectedFile st = None ->
   Analyzer.resizedImageUrl st = None /\ Analyzer.result st = None) /\
  (Analyzer.result st <> None ->
   Analyzer.resizedImageUrl st <> None /\ Analyzer.error st = None).

(** Landing page: the flag is off; the analysis screen is shown exactly
    when a result is held; a result comes with an image and without an
    error. *)
Definition landing_shape (st : Landing.State) : Prop :=
  Landing.isAnalyzing st = false /\
  (Landing.currentView st = Landing.analysis <-> Landing.result st <> None) /\
  (Landing.result st <> None ->
   Landing.uploadedImage st <> None /\ Landing.error st = None).

(** ** Tactics *)

(** The cases of the status test of [check_status]. *)
Ltac case_status response :=
  destruct (status response =? 404)%Z eqn:E404;
  [ apply Z.eqb_eq in E404
  | apply Z.eqb_neq in E404;
    destruct (status response =? 500)%Z eqn:E500;
    [ apply Z.eqb_eq in E500
    | apply Z.eqb_neq in E500;
      destruct (status response >=? 400)%Z eqn:E400;
      [ rewrite Z.geb_leb in E400; apply Z.leb_le in E400;
        destruct (status response <? 500)%Z eqn:E499;
        [ apply Z.ltb_lt in E499 | apply Z.ltb_ge in E499 ]
      | rewrite Z.geb_leb in E400; apply Z.leb_gt in E400 ] ] ].

(** Closes the goals that describe the shape of a script. *)
Ltac script_shape :=
  split; [reflexivity|];
  split; [auto|];
  solve [left; eexists; reflexivity | right; eexists; reflexivity].

(** * Properties *)

(** ** Numbers *)

Lemma gt_true (a b : Q) : gt a b = true <-> b < a.
Proof.
  unfold gt. rewrite negb_true_iff.
  split; intro H.
  - apply Qnot_le_lt. intro Hle. apply Qle_bool_iff in Hle. congruence.
  - destruct (Qle_bool a b) eqn:E; [|reflexivity].
    apply Qle_bool_iff in E. exfalso. apply (Qlt_not_le _ _ H E).
Qed.

Lemma gt_false (a b : Q) : gt a b = false <-> a <= b.
Proof.
  unfold gt. rewrite negb_false_iff. apply Qle_bool_iff.
Qed.

Lemma scaled_le (a b m : Q) : 0 < b -> a <= b -> 0 <= m -> a * m / b <= m.
Proof.
  intros Hb Hab Hm. apply Qle_shift_div_r; [assumption|]. nra.
Qed.



(** *** Rounding to a double *)

Lemma round_half_even_close (y : Q) :
  Qabs (inject_Z (round_half_even y) - y) <= 1 # 2.
Proof.
  unfold round_half_even.
  pose proof (Qfloor_le y) as Hlo. pose proof (Qlt_floor y) as Hhi.
  rewrite inject_Z_plus in Hhi. change (inject_Z 1) with 1 in Hhi.
  apply Qabs_Qle_condition.
  destruct (Qcompare (y - inject_Z (Qfloor y)) (1 # 2)) eqn:Hc.
  - apply Qeq_alt in Hc. destruct (Z.even (Qfloor y)).
    + split; lra.
    + rewrite inject_Z_plus. change (inject_Z 1) with 1. split; lra.
  - apply Qlt_alt in Hc. split; lra.
  - apply Qgt_alt in Hc. rewrite inject_Z_plus. change (inject_Z 1) with 1.
    split; lra.
Qed.

Lemma two_power (n : Z) : (0 <= n)%Z -> 2 ^ n == inject_Z (2 ^ n).
Proof.
  intros H. rewrite Zpower_Qpower by exact H. reflexivity.
Qed.

Lemma binade_le (a : Q) : 0 < a -> 2 ^ binade a <= a.
Proof.
  intros Ha. unfold binade.
  destruct (Qle_bool _ a) eqn:Hb.
  - apply Qle_bool_iff in Hb. exact Hb.
  - destruct a as [n d]. simpl Qnum. simpl Qden.
    assert (Hn : (0 < n)%Z).
    { unfold Qlt in Ha. simpl in Ha. lia. }
    pose proof (Z.log2_spec n Hn) as [Hlo _].
    pose proof (Z.log2_spec (Zpos d) (Pos2Z.is_pos d)) as [_ Hhi].
    pose proof (Z.log2_nonneg n) as Hln.
    pose proof (Z.log2_nonneg (Zpos d)) as Hld.
    replace (Z.log2 n - Z.log2 (Z.pos d) - 1)%Z
      with (Z.log2 n - Z.succ (Z.log2 (Z.pos d)))%Z by lia.
    rewrite Qpower_minus by (intros H; discriminate H).
    rewrite !two_power by lia.
    apply Qle_shift_div_r.
    + rewrite <- (Zlt_Qlt 0). lia.
    + set (p := (2 ^ Z.log2 n)%Z) in *.
      set (q := (2 ^ Z.succ (Z.log2 (Z.pos d)))%Z) in *.
      unfold Qle, Qmult, inject_Z. cbn [Qnum Qden].
      rewrite ?Z.mul_1_r, ?Pos.mul_1_r.
      apply Z.le_trans with (n * Z.pos d)%Z.
      * apply Z.mul_le_mono_nonneg_r; lia.
      * apply Z.mul_le_mono_nonneg_l; lia.
Qed.

Lemma round64_close (x r : Q) :
  round64 x = Finite r ->
  Qabs (r - x) <= Qabs x * 2 ^ (-53) \/ Qabs (r - x) <= 2 ^ (-1075).
Proof.
  unfold round64.
  destruct (Qeq_bool x 0) eqn:Hz.
  - intros H. injection H as <-. apply Qeq_bool_iff in Hz.
    left. rewrite Hz. vm_compute. discriminate.
  - assert (Hx : ~ x == 0).
    { intros H. apply Qeq_bool_iff in H. congruence. }
    assert (Ha : 0 < Qabs x).
    { destruct (Qlt_le_dec 0 (Qabs x)) as [H|H]; [exact H|].
      exfalso. apply Hx. apply Qabs_Qle_condition in H. lra. }
    set (e := Z.max (binade (Qabs x) - 52) (-1074)).
    set (quantum := 2 ^ e).
    set (m := round_half_even (Qabs x / quantum)).
    destruct (Qle_bool (2 ^ 1024) _); [discriminate|].
    intros H. injection H as <-.
    assert (Hq : 0 < quantum) by (apply Qpower_0_lt; reflexivity).
    assert (Hm : Qabs (inject_Z m * quantum - Qabs x) <= quantum * (1 # 2)).
    { pose proof (round_half_even_close (Qabs x / quantum)) as Hc.
      fold m in Hc.
      assert (Heq : inject_Z m * quantum - Qabs x
                    == (inject_Z m - Qabs x / quantum) * quantum).
      { field. lra. }
      rewrite Heq, Qabs_Qmult, (Qabs_pos quantum) by lra.
      rewrite (Qmult_comm quantum).
      apply Qmult_le_compat_r; lra. }
    assert (Hr : Qabs (Qred (if Qle_bool 0 x then inject_Z m * quantum
                             else - (inject_Z m * quantum)) - x)
                 == Qabs (inject_Z m * quantum - Qabs x)).
    { rewrite Qred_correct. destruct (Qle_bool 0 x) eqn:Hs.
      - apply Qle_bool_iff in Hs. rewrite (Qabs_pos x) by exact Hs. reflexivity.
      - assert (Hneg : x <= 0).
        { destruct (Qlt_le_dec 0 x) as [H|H]; [|exact H].
          apply Qlt_le_weak, Qle_bool_iff in H. congruence. }
        rewrite (Qabs_neg x) by exact Hneg.
        rewrite <- (Qabs_opp (inject_Z m * quantum - - x)).
        apply Qabs_wd. ring. }
    rewrite Hr.
    destruct (Z.max_spec (binade (Qabs x) - 52) (-1074)) as [[_ He]|[_ He]].
    + right. fold e in He.
      eapply Qle_trans; [exact Hm|].
      unfold quantum. rewrite He. vm_compute. discriminate.
    + left. fold e in He.
      eapply Qle_trans; [exact Hm|].
      unfold quantum. rewrite He.
      replace (binade (Qabs x) - 52)%Z with (binade (Qabs x) + (-52))%Z by lia.
      rewrite Qpower_plus by (intros H; discriminate H).
      pose proof (@binade_le _ Ha) as Hb.
      assert (H52 : 2 ^ (-52) * (1 # 2) == 2 ^ (-53)) by reflexivity.
      rewrite <- Qmult_assoc, H52.
      apply Qmult_le_compat_r; [exact Hb|].
      vm_compute. discriminate.
Qed.

Lemma binade_lt (a : Q) : 0 < a -> a < 2 ^ (binade a + 1).
Proof.
  intros Ha. unfold binade.
  destruct (Qle_bool _ a) eqn:Hb.
  - destruct a as [n d]. simpl Qnum. simpl Qden.
    assert (Hn : (0 < n)%Z).
    { unfold Qlt in Ha. simpl in Ha. lia. }
    pose proof (Z.log2_spec n Hn) as [_ Hhi].
    pose proof (Z.log2_spec (Zpos d) (Pos2Z.is_pos d)) as [Hlo _].
    pose proof (Z.log2_nonneg n) as Hln.
    pose proof (Z.log2_nonneg (Zpos d)) as Hld.
    replace (Z.log2 n - Z.log2 (Z.pos d) + 1)%Z
      with (Z.succ (Z.log2 n) - Z.log2 (Z.pos d))%Z by lia.
    rewrite Qpower_minus by (intros H; discriminate H).
    rewrite !two_power by lia.
    apply Qlt_shift_div_l.
    + rewrite <- (Zlt_Qlt 0). lia.
    + set (p := (2 ^ Z.succ (Z.log2 n))%Z) in *.
      set (q := (2 ^ Z.log2 (Z.pos d))%Z) in *.
      unfold Qlt, Qmult, inject_Z. cbn [Qnum Qden].
      rewrite ?Z.mul_1_r, ?Pos.mul_1_r.
      apply Z.le_lt_trans with (n * Z.pos d)%Z.
      * apply Z.mul_le_mono_nonneg_l; lia.
      * apply Z.mul_lt_mono_pos_r; lia.
  - replace (Z.log2 (Qnum a) - Z.log2 (Z.pos (Qden a)) - 1 + 1)%Z
      with (Z.log2 (Qnum a) - Z.log2 (Z.pos (Qden a)))%Z by lia.
    destruct (Qlt_le_dec a (2 ^ (Z.log2 (Qnum a) - Z.log2 (Z.pos (Qden a)))))
      as [H|H]; [exact H|].
    apply Qle_bool_iff in H. congruence.
Qed.

Lemma round_half_even_nearest (y : Q) (k : Z) :
  Qabs (inject_Z (round_half_even y) - y) <= Qabs (inject_Z k - y).
Proof.
  pose proof (round_half_even_close y) as Hm.
  set (m := round_half_even y) in *.
  destruct (Z.eq_dec k m) as [->|Hne]; [apply Qle_refl|].
  eapply Qle_trans; [exact Hm|].
  apply Qabs_Qle_condition in Hm.
  destruct (Z_lt_le_dec k m) as [Hlt|Hge].
  - assert (H1 : inject_Z k + 1 <= inject_Z m).
    { change 1 with (inject_Z 1). rewrite <- inject_Z_plus, <- Zle_Qle. lia. }
    rewrite Qabs_neg by lra. lra.
  - assert (H1 : inject_Z m + 1 <= inject_Z k).
    { change 1 with (inject_Z 1). rewrite <- inject_Z_plus, <- Zle_Qle. lia. }
    rewrite Qabs_pos by lra. lra.
Qed.

Lemma scaled_distance (k : Z) (a q : Q) :
  0 < q -> Qabs (inject_Z k * q - a) == Qabs (inject_Z k - a / q) * q.
Proof.
  intros Hq.
  assert (Heq : inject_Z k * q - a == (inject_Z k - a / q) * q).
  { field. lra. }
  rewrite Heq, Qabs_Qmult, (Qabs_pos q) by lra. reflexivity.
Qed.

Lemma nearest_multiple (k : Z) (a q : Q) :
  0 < q ->
  Qabs (inject_Z (round_half_even (a / q)) * q - a) <= Qabs (inject_Z k * q - a).
Proof.
  intros Hq. rewrite !scaled_distance by exact Hq.
  apply Qmult_le_compat_r; [apply round_half_even_nearest | lra].
Qed.

Lemma nearest_among_doubles (a : Q) (m' e' : Z) :
  0 < a -> (Z.abs m' <= 2 ^ 53)%Z -> (-1074 <= e')%Z ->
  let q := 2 ^ (Z.max (binade a - 52) (-1074)) in
  Qabs (inject_Z (round_half_even (a / q)) * q - a)
  <= Qabs (inject_Z m' * 2 ^ e' - a).
Proof.
  intros Ha Hm He q.
  assert (Hq : 0 < q) by (apply Qpower_0_lt; reflexivity).
  set (qe := Z.max (binade a - 52) (-1074)) in *.
  destruct (Z_le_gt_dec qe e') as [Hge|Hlt].
  - (* a multiple of the quantum *)
    assert (Hd : inject_Z m' * 2 ^ e' == inject_Z (m' * 2 ^ (e' - qe)) * q).
    { rewrite inject_Z_mult, <- two_power by lia.
      unfold q. rewrite <- Qmult_assoc, <- Qpower_plus by (intros H; discriminate H).
      replace (e' - qe + qe)%Z with e' by lia. reflexivity. }
    rewrite Hd. apply nearest_multiple. exact Hq.
  - (* a double below the binade of [a] *)
    assert (Hqe : qe = (binade a - 52)%Z) by lia.
    pose proof (@binade_le a Ha) as Hb.
    assert (Hbq : 2 ^ binade a == inject_Z (2 ^ 52) * q).
    { rewrite <- two_power by lia. unfold q.
      rewrite <- Qpower_plus by (intros H; discriminate H).
      rewrite Hqe. replace (52 + (binade a - 52))%Z with (binade a) by lia.
      reflexivity. }
    assert (Hd : inject_Z m' * 2 ^ e' <= 2 ^ binade a).
    { apply Qle_trans with (2 ^ 53 * 2 ^ e').
      - apply Qmult_le_compat_r.
        + rewrite two_power by lia. rewrite <- Zle_Qle. lia.
        + apply Qpower_0_le. discriminate.
      - rewrite <- Qpower_plus by (intros H; discriminate H).
        apply Qpower_le_compat_l; [lia | discriminate]. }
    eapply Qle_trans; [apply (@nearest_multiple (2 ^ 52) a q Hq)|].
    rewrite <- Hbq.
    rewrite (Qabs_neg (2 ^ binade a - a)) by lra.
    rewrite (Qabs_neg (inject_Z m' * 2 ^ e' - a)) by lra.
    lra.
Qed.

Lemma round64_is_double (x r : Q) : round64 x = Finite r -> is_double r.
Proof.
  unfold round64.
  destruct (Qeq_bool x 0) eqn:Hz.
  - intros H. injection H as <-. split; [|reflexivity].
    exists 0%Z, 0%Z. split; [reflexivity|]. split; [discriminate | lia].
  - assert (Hx : ~ x == 0).
    { intros H. apply Qeq_bool_iff in H. congruence. }
    assert (Ha : 0 < Qabs x).
    { destruct (Qlt_le_dec 0 (Qabs x)) as [H|H]; [exact H|].
      exfalso. apply Hx. apply Qabs_Qle_condition in H. lra. }
    set (qe := Z.max (binade (Qabs x) - 52) (-1074)).
    set (q := 2 ^ qe).
    set (m := round_half_even (Qabs x / q)).
    destruct (Qle_bool (2 ^ 1024) _) eqn:Hover; [discriminate|].
    intros H. injection H as <-.
    assert (Hq : 0 < q) by (apply Qpower_0_lt; reflexivity).
    assert (Hsmall : inject_Z m * q < 2 ^ 1024).
    { destruct (Qlt_le_dec (inject_Z m * q) (2 ^ 1024)) as [H|H]; [exact H|].
      apply Qle_bool_iff in H. congruence. }
    (* the mantissa *)
    assert (Hy : 0 <= Qabs x / q /\ Qabs x / q < 2 ^ 53).
    { split.
      - apply Qle_shift_div_l; lra.
      - apply Qlt_shift_div_r; [exact Hq|].
        eapply Qlt_le_trans; [apply (@binade_lt _ Ha)|].
        unfold q. rewrite <- Qpower_plus by (intros H; discriminate H).
        apply Qpower_le_compat_l; [unfold qe; lia | discriminate]. }
    assert (Hm : (0 <= m <= 2 ^ 53)%Z).
    { unfold m, round_half_even.
      destruct Hy as [Hlo Hhi].
      assert (Hf : (0 <= Qfloor (Qabs x / q) < 2 ^ 53)%Z).
      { split.
        - change 0%Z with (Qfloor 0). apply Qfloor_resp_le. exact Hlo.
        - apply Z.lt_le_trans with (Qfloor (Qabs x / q) + 1 - 1 + 1)%Z; [lia|].
          assert (Hfl : inject_Z (Qfloor (Qabs x / q)) < inject_Z (2 ^ 53)).
          { eapply Qle_lt_trans; [apply Qfloor_le|].
            rewrite <- two_power by lia. exact Hhi. }
          rewrite <- Zlt_Qlt in Hfl. lia. }
      destruct (Qcompare _ _); [destruct (Z.even _)| |]; lia. }
    split.
    + destruct (Qle_bool 0 x).
      * exists m, qe. split; [apply Qred_correct|].
        split; [lia | unfold qe; lia].
      * exists (- m)%Z, qe. split.
        -- rewrite Qred_correct, inject_Z_opp. fold q. ring.
        -- split; [lia | unfold qe; lia].
    + rewrite Qred_correct.
      assert (Hnn : 0 <= inject_Z m * q).
      { apply Qmult_le_0_compat; [|lra]. rewrite <- (Zle_Qle 0). lia. }
      destruct (Qle_bool 0 x).
      * rewrite Qabs_pos by exact Hnn. exact Hsmall.
      * rewrite Qabs_opp, Qabs_pos by exact Hnn. exact Hsmall.
Qed.

Lemma round64_nearest (x r d : Q) :
  round64 x = Finite r -> is_double d -> Qabs (r - x) <= Qabs (d - x).
Proof.
  intros Hr [(m' & e' & Hd & Hm' & He') _].
  revert Hr. unfold round64.
  destruct (Qeq_bool x 0) eqn:Hz.
  - intros H. injection H as <-. apply Qeq_bool_iff in Hz.
    rewrite Hz. apply Qabs_nonneg.
  - assert (Hx : ~ x == 0).
    { intros H. apply Qeq_bool_iff in H. congruence. }
    assert (Ha : 0 < Qabs x).
    { destruct (Qlt_le_dec 0 (Qabs x)) as [H|H]; [exact H|].
      exfalso. apply Hx. apply Qabs_Qle_condition in H. lra. }
    destruct (Qle_bool (2 ^ 1024) _); [discriminate|].
    intros H. injection H as <-. rewrite Qred_correct.
    destruct (Qle_bool 0 x) eqn:Hs.
    + apply Qle_bool_iff in Hs.
      pose proof (@nearest_among_doubles (Qabs x) m' e' Ha Hm' He') as Hn.
      cbv zeta in Hn. rewrite <- Hd in Hn.
      set (p := inject_Z (round_half_even _) * _) in *.
      assert (H1 : Qabs (p - x) == Qabs (p - Qabs x)).
      { rewrite (Qabs_pos x) by exact Hs. reflexivity. }
      assert (H2 : Qabs (d - x) == Qabs (d - Qabs x)).
      { rewrite (Qabs_pos x) by exact Hs. reflexivity. }
      rewrite H1, H2. exact Hn.
    + assert (Hneg : x <= 0).
      { destruct (Qlt_le_dec 0 x) as [H|H]; [|exact H].
        apply Qlt_le_weak, Qle_bool_iff in H. congruence. }
      assert (Hm'' : (Z.abs (- m') <= 2 ^ 53)%Z) by lia.
      pose proof (@nearest_among_doubles (Qabs x) (- m')%Z e' Ha Hm'' He') as Hn.
      cbv zeta in Hn.
      assert (Hd' : inject_Z (- m') * 2 ^ e' == - d).
      { rewrite inject_Z_opp, Hd. ring. }
      rewrite Hd' in Hn.
      set (p := inject_Z (round_half_even _) * _) in *.
      assert (H1 : Qabs (- p - x) == Qabs (p - Qabs x)).
      { rewrite (Qabs_neg x) by exact Hneg.
        rewrite <- (Qabs_opp (p - - x)). apply Qabs_wd. ring. }
      assert (H2 : Qabs (d - x) == Qabs (- d - Qabs x)).
      { rewrite (Qabs_neg x) by exact Hneg.
        rewrite <- (Qabs_opp (- d - - x)). apply Qabs_wd. ring. }
      rewrite H1, H2. exact Hn.
Qed.

Lemma round64_finite_range (x : Q) (negative : bool) :
  round64 x = Infinite negative ->
  2 ^ 1024 - 2 ^ 970 <= Qabs x /\ negative = negb (Qle_bool 0 x).
Proof.
  unfold round64.
  destruct (Qeq_bool x 0) eqn:Hz; [discriminate|].
  assert (Hx : ~ x == 0).
  { intros H. apply Qeq_bool_iff in H. congruence. }
  assert (Ha : 0 < Qabs x).
  { destruct (Qlt_le_dec 0 (Qabs x)) as [H|H]; [exact H|].
    exfalso. apply Hx. apply Qabs_Qle_condition in H. lra. }
  set (e := Z.max (binade (Qabs x) - 52) (-1074)).
  set (quantum := 2 ^ e).
  set (m := round_half_even (Qabs x / quantum)).
  destruct (Qle_bool (2 ^ 1024) _) eqn:Hover; [|discriminate].
  intros H. injection H as <-. split; [|reflexivity].
  apply Qle_bool_iff in Hover.
  destruct (Qlt_le_dec (Qabs x) (2 ^ 1024)) as [Hsmall|Hbig].
  - assert (Hq : 0 < quantum) by (apply Qpower_0_lt; reflexivity).
    assert (Hm : Qabs (inject_Z m * quantum - Qabs x) <= quantum * (1 # 2)).
    { pose proof (round_half_even_close (Qabs x / quantum)) as Hc.
      fold m in Hc.
      assert (Heq : inject_Z m * quantum - Qabs x
                    == (inject_Z m - Qabs x / quantum) * quantum).
      { field. lra. }
      rewrite Heq, Qabs_Qmult, (Qabs_pos quantum) by lra.
      rewrite (Qmult_comm quantum).
      apply Qmult_le_compat_r; lra. }
    assert (Hb : (binade (Qabs x) < 1024)%Z).
    { apply Qpower_lt_compat_l_inv with (q := 2); [|reflexivity].
      eapply Qle_lt_trans; [apply binade_le; exact Ha | exact Hsmall]. }
    assert (He : quantum <= 2 ^ 971).
    { unfold quantum. apply Qpower_le_compat_l; [unfold e; lia | discriminate]. }
    apply Qabs_Qle_condition in Hm.
    assert (H970 : 2 ^ 971 * (1 # 2) == 2 ^ 970) by reflexivity.
    lra.
  - eapply Qle_trans; [|exact Hbig]. vm_compute. discriminate.
Qed.

Lemma round64_rounded (x : Q) : rounded x (round64 x).
Proof.
  destruct (round64 x) as [p|negative|] eqn:Hr; simpl.
  - split; [exact (round64_is_double x Hr)|]. split.
    + intros d Hd. exact (round64_nearest x Hr Hd).
    + apply round64_close. exact Hr.
  - apply round64_finite_range in Hr. destruct Hr as [Hbig ->].
    destruct (Qle_bool 0 x) eqn:Hs; simpl.
    + apply Qle_bool_iff in Hs. rewrite Qabs_pos in Hbig by exact Hs. exact Hbig.
    + assert (Hneg : x <= 0).
      { destruct (Qlt_le_dec 0 x) as [H|H]; [|exact H].
        apply Qlt_le_weak, Qle_bool_iff in H. congruence. }
      rewrite Qabs_neg in Hbig by exact Hneg. exact Hbig.
  - unfold round64 in Hr.
    destruct (Qeq_bool x 0); [discriminate|].
    destruct (Qle_bool (2 ^ 1024) _); discriminate.
Qed.

(** ** The resize step *)

Lemma analyzer_dimensions_cases (w h : Z) :
  Analyzer.resizeImage_dimensions w h 512 =
    (if gt (inject_Z w) (inject_Z h)
     then if gt (inject_Z w) 512
          then (512 : Q, inject_Z h * 512 / inject_Z w)
          else (inject_Z w, inject_Z h)
     else if gt (inject_Z h) 512
          then (inject_Z w * 512 / inject_Z h, 512 : Q)
          else (inject_Z w, inject_Z h)).
Proof. reflexivity. Qed.

Lemma landing_dimensions_cases (w h : Z) :
  Landing.resizeAndCompressImage_dimensions w h =
    (if gt (inject_Z w) 512
     then (512 : Q, inject_Z h * 512 / inject_Z w)
     else (inject_Z w, inject_Z h)).
Proof. reflexivity. Qed.

Lemma analyzer_dimensions_within (w h : Z) :
  fst (Analyzer.resizeImage_dimensions w h 512) <= 512 /\
  snd (Analyzer.resizeImage_dimensions w h 512) <= 512.
Proof.
  rewrite analyzer_dimensions_cases.
  set (W := inject_Z w). set (H := inject_Z h).
  destruct (gt W H) eqn:E1.
  - apply gt_true in E1. destruct (gt W 512) eqn:E2; simpl.
    + apply gt_true in E2. split; [lra|].
      apply scaled_le; lra.
    + apply gt_false in E2. split; lra.
  - apply gt_false in E1. destruct (gt H 512) eqn:E2; simpl.
    + apply gt_true in E2. split; [|lra].
      apply scaled_le; lra.
    + apply gt_false in E2. split; lra.
Qed.







Lemma analyzer_resize_resolved (env : Env) (file : File) (m : Q) (b : Blob) :
  Analyzer.resizeImage env file m = inr b ->
  exists w h, decode env file = Some (w, h) /\
    b = CanvasBlob file (fst (Analyzer.resizeImage_dimensions w h m))
          (snd (Analyzer.resizeImage_dimensions w h m))
          "image/jpeg" Analyzer.jpeg_quality.
Proof.
  unfold Analyzer.resizeImage.
  destruct (getContext env); simpl; [|discriminate].
  destruct (decode env file) as [[w h]|]; [|discriminate].
  destruct (Analyzer.resizeImage_dimensions w h m) as [w' h'] eqn:E.
  destruct (toBlob env w' h'); [|discriminate].
  intros [= <-]. exists w, h. rewrite E. split; reflexivity.
Qed.

Lemma landing_resize_resolved (env : Env) (file : File) (b : Blob) :
  Landing.resizeAndCompressImage env file = inr b ->
  exists w h, decode env file = Some (w, h) /\
    b = CanvasBlob file (fst (Landing.resizeAndCompressImage_dimensions w h))
          (snd (Landing.resizeAndCompressImage_dimensions w h))
          "image/jpeg" Landing.jpeg_quality.
Proof.
  unfold Landing.resizeAndCompressImage.
  destruct (getContext env); simpl; [|discriminate].
  destruct (decode env file) as [[w h]|]; [|discriminate].
  destruct (Landing.resizeAndCompressImage_dimensions w h) as [w' h'] eqn:E.
  destruct (toBlob env w' h'); [|discriminate].
  intros [= <-]. exists w, h. rewrite E. split; reflexivity.
Qed.

(** Both promises resolve when the canvas has a context, the image decodes
    and the canvas hands over a blob. *)
Lemma resize_resolves (env : Env) (file : File) (w h : Z) :
  getContext env = true ->
  decode env file = Some (w, h) ->
  (forall a b, toBlob env a b = true) ->
  (exists b, Analyzer.resizeImage env file 512 = inr b) /\
  (exists b, Landing.resizeAndCompressImage env file = inr b).
Proof.
  intros Hctx Hdec Hblob.
  unfold Analyzer.resizeImage, Landing.resizeAndCompressImage.
  rewrite Hctx, Hdec. simpl.
  destruct (Analyzer.resizeImage_dimensions w h 512) as [wa ha].
  destruct (Landing.resizeAndCompressImage_dimensions w h) as [wl hl].
  rewrite !Hblob. split; eexists; reflexivity.
Qed.

Lemma resize_resolves_witness :
  (exists b, Analyzer.resizeImage
               (Samples.browser 1024 768 200 Samples.prediction) Samples.leaf 512 = inr b) /\
  (exists b, Landing.resizeAndCompressImage
               (Samples.browser 1024 768 200 Samples.prediction) Samples.leaf = inr b).
Proof.
  apply (@resize_resolves _ _ 1024 768); reflexivity.
Defined.




(** The canvas keeps whole pixels, and those stay within 512 too; the ratio
    of the pixel sizes is then only close to the original's. *)
Lemma analyzer_pixels_within (w h : Z) :
  (pixels (fst (Analyzer.resizeImage_dimensions w h 512%Q)) <= 512)%Z /\
  (pixels (snd (Analyzer.resizeImage_dimensions w h 512%Q)) <= 512)%Z.
Proof.
  destruct (analyzer_dimensions_within w h) as [H1 H2].
  unfold pixels. split.
  - apply Qfloor_resp_le in H1. exact H1.
  - apply Qfloor_resp_le in H2. exact H2.
Qed.

Example analyzer_pixels_1000_333 :
  let d := Analyzer.resizeImage_dimensions 1000 333 512 in
  pixels (fst d) = 512%Z /\ pixels (snd d) = 170%Z /\
  ~ inject_Z (pixels (fst d)) / inject_Z (pixels (snd d)) == 1000 / 333.
Proof.
  split; [reflexivity|]. split; [reflexivity|].
  intro Heq. apply Qeq_bool_iff in Heq. discriminate.
Qed.

(** The two resize functions agree on the size exactly for the images that
    are no taller than wide or no taller than 512. *)
Lemma dimensions_agree (w h : Z) :
  fst (Analyzer.resizeImage_dimensions w h 512)
    == fst (Landing.resizeAndCompressImage_dimensions w h) /\
  snd (Analyzer.resizeImage_dimensions w h 512)
    == snd (Landing.resizeAndCompressImage_dimensions w h)
  <-> inject_Z h <= inject_Z w \/ inject_Z h <= 512.
Proof.
  rewrite analyzer_dimensions_cases, landing_dimensions_cases.
  set (W := inject_Z w). set (H := inject_Z h).
  destruct (gt W H) eqn:E1; [apply gt_true in E1 | apply gt_false in E1].
  - assert (R : H <= W \/ H <= 512) by (left; lra).
    destruct (gt W 512); simpl; split; intros _;
      try exact R; split; reflexivity.
  - destruct (gt H 512) eqn:E2; [apply gt_true in E2 | apply gt_false in E2].
    + destruct (gt W 512) eqn:E3; [apply gt_true in E3 | apply gt_false in E3];
        simpl.
      * split.
        -- intros [Hw _]. left.
           remember (W * 512 / H) as X eqn:EX.
           assert (Heq : W * 512 == X * H) by (subst X; field; lra).
           rewrite Hw in Heq. lra.
        -- intros [Hle|Hle]; [|lra].
           assert (Heq : W == H) by lra.
           split; [rewrite Heq | rewrite <- Heq]; field; lra.
      * split.
        -- intros [_ Hh]. lra.
        -- intros [Hle|Hle]; lra.
    + assert (E3 : gt W 512 = false) by (apply gt_false; lra).
      rewrite E3. simpl. split; [intros _; right; exact E2|].
      intros _. split; reflexivity.
Qed.

(** C2 (as the code has it).  Whenever both resize functions resolve for the
    same decoded image, both blobs are JPEG encodings; the analyzer encodes
    at quality 0.9 and the landing page at quality 0.8; and the two sizes
    are equal exactly when the image is no taller than wide or no taller
    than 512. *)
Theorem resize_functions_compared (env : Env) (file : File) (w h : Z) (b1 b2 : Blob) :
  decode env file = Some (w, h) ->
  Analyzer.resizeImage env file 512 = inr b1 ->
  Landing.resizeAndCompressImage env file = inr b2 ->
  exists w1 h1 w2 h2,
    b1 = CanvasBlob file w1 h1 "image/jpeg" (9 # 10) /\
    b2 = CanvasBlob file w2 h2 "image/jpeg" (8 # 10) /\
    (w1 == w2 /\ h1 == h2 <-> (h <= w)%Z \/ (h <= 512)%Z).
Proof.
  intros Hdec H1 H2.
  apply analyzer_resize_resolved in H1 as (w0 & h0 & Hdec1 & ->).
  rewrite Hdec in Hdec1. injection Hdec1 as <- <-.
  apply landing_resize_resolved in H2 as (w0 & h0 & Hdec2 & ->).
  rewrite Hdec in Hdec2. injection Hdec2 as <- <-.
  eexists _, _, _, _. split; [reflexivity|]. split; [reflexivity|].
  rewrite dimensions_agree, (Zle_Qle h w), (Zle_Qle h 512). reflexivity.
Qed.

Lemma resize_functions_compared_witness :
  exists w1 h1 w2 h2,
    Analyzer.resizeImage (Samples.browser 1024 768 200 Samples.prediction)
      Samples.leaf 512
    = inr (CanvasBlob Samples.leaf w1 h1 "image/jpeg" (9 # 10)) /\
    Landing.resizeAndCompressImage (Samples.browser 1024 768 200 Samples.prediction)
      Samples.leaf
    = inr (CanvasBlob Samples.leaf w2 h2 "image/jpeg" (8 # 10)) /\
    w1 == w2 /\ h1 == h2.
Proof.
  destruct (@resize_functions_compared
              (Samples.browser 1024 768 200 Samples.prediction) Samples.leaf
              1024 768 _ _ eq_refl eq_refl eq_refl)
    as (w1 & h1 & w2 & h2 & Hb1 & Hb2 & Hiff).
  exists w1, h1, w2, h2. rewrite <- Hb1, <- Hb2.
  split; [reflexivity|]. split; [reflexivity|].
  apply Hiff. left. discriminate.
Defined.

(** C2 as stated fails: for an image 600 wide and 1000 tall the analyzer
    draws 307.2 x 512 and the landing page 512 x 853.33, and the two JPEG
    qualities differ for every image. *)
Lemma resize_functions_differ :
  exists w1 h1 q1 w2 h2 q2,
    Analyzer.resizeImage (Samples.browser 600 1000 200 Samples.prediction)
      Samples.leaf 512
    = inr (CanvasBlob Samples.leaf w1 h1 "image/jpeg" q1) /\
    Landing.resizeAndCompressImage (Samples.browser 600 1000 200 Samples.prediction)
      Samples.leaf
    = inr (CanvasBlob Samples.leaf w2 h2 "image/jpeg" q2) /\
    w1 == 3072 # 10 /\ h1 == 512 /\ w2 == 512 /\ h2 == 2560 # 3 /\
    ~ w1 == w2 /\ ~ h1 == h2 /\ ~ q1 == q2.
Proof.
  eexists _, _, _, _, _, _.
  split; [reflexivity|]. split; [reflexivity|].
  repeat split; try reflexivity;
    intro Heq; apply Qeq_bool_iff in Heq; discriminate.
Qed.

(** ** File validation *)

Lemma existsb_eqb_In (l : list string) (s : string) :
  existsb (String.eqb s) l = true <-> In s l.
Proof.
  rewrite existsb_exists. split.
  - intros (x & Hin & Heq). apply String.eqb_eq in Heq. now subst.
  - intros Hin. exists s. split; [assumption | apply String.eqb_refl].
Qed.

Lemma existsb_eqb_not_In (l : list string) (s : string) :
  existsb (String.eqb s) l = false <-> ~ In s l.
Proof.
  rewrite <- existsb_eqb_In. destruct (existsb (String.eqb s) l); split;
    congruence.
Qed.

Lemma analyzer_validateFile_cases (file : File) :
  Analyzer.validateFile file =
    if existsb (String.eqb (type file)) accepted_types
    then if (size file >? 10485760)%Z
         then ([Do (Analyzer.SetError (Some Analyzer.size_error))], inr false)
         else ([], inr true)
    else ([Do (Analyzer.SetError (Some Analyzer.type_error))], inr false).
Proof.
  unfold Analyzer.validateFile, Analyzer.includes, Analyzer.validTypes,
    Analyzer.maxSize, accepted_types.
  destruct (existsb _ _); simpl; [|reflexivity].
  change (10 * 1024 * 1024)%Z with 10485760%Z.
  destruct (size file >? 10485760)%Z; reflexivity.
Qed.

Lemma landing_validateImage_cases (file : File) :
  Landing.validateImage file =
    if existsb (String.eqb (type file)) accepted_types
    then if (size file >? 10485760)%Z
         then ([Do (Landing.SetError (Some Landing.size_error))], inr false)
         else ([], inr true)
    else ([Do (Landing.SetError (Some Landing.type_error))], inr false).
Proof.
  unfold Landing.validateImage, Landing.includes, Landing.validTypes,
    Landing.maxSize, accepted_types.
  destruct (existsb _ _); simpl; [|reflexivity].
  change (10 * 1024 * 1024)%Z with 10485760%Z.
  destruct (size file >? 10485760)%Z; reflexivity.
Qed.

(** C3.  [validateFile] and [validateImage] return true if and only if the
    MIME type is one of image/jpeg, image/jpg, image/png, image/webp and the
    size is at most 10*1024*1024 bytes.  With a type outside the list they
    return false and set the type message, whatever the size; with a listed
    type and a larger size they return false and set the size message; a
    file they accept sets nothing, and a listed file of exactly 10*1024*1024
    bytes is accepted. *)
Theorem validation_accepts (file : File) :
  let listed :=
    In (type file) ["image/jpeg"; "image/jpg"; "image/png"; "image/webp"]%string in
  let type_message := "Please upload a valid image file (JPEG, PNG, or WebP)"%string in
  let size_message :=
    "Image file is too large. Please upload an image smaller than 10MB"%string in
  (* the analyzer widget *)
  (snd (Analyzer.validateFile file) = inr true
     <-> listed /\ (size file <= 10 * 1024 * 1024)%Z) /\
  (~ listed ->
     Analyzer.validateFile file
     = ([Do (Analyzer.SetError (Some type_message))], inr false)) /\
  (listed -> (size file > 10 * 1024 * 1024)%Z ->
     Analyzer.validateFile file
     = ([Do (Analyzer.SetError (Some size_message))], inr false)) /\
  (listed -> (size file <= 10 * 1024 * 1024)%Z ->
     Analyzer.validateFile file = ([], inr true)) /\
  (listed -> size file = (10 * 1024 * 1024)%Z ->
     snd (Analyzer.validateFile file) = inr true) /\
  (* the landing page *)
  (snd (Landing.validateImage file) = inr true
     <-> listed /\ (size file <= 10 * 1024 * 1024)%Z) /\
  (~ listed ->
     Landing.validateImage file
     = ([Do (Landing.SetError (Some type_message))], inr false)) /\
  (listed -> (size file > 10 * 1024 * 1024)%Z ->
     Landing.validateImage file
     = ([Do (Landing.SetError (Some size_message))], inr false)) /\
  (listed -> (size file <= 10 * 1024 * 1024)%Z ->
     Landing.validateImage file = ([], inr true)) /\
  (listed -> size file = (10 * 1024 * 1024)%Z ->
     snd (Landing.validateImage file) = inr true).
Proof.
  intros listed type_message size_message.
  assert (Hyes : existsb (String.eqb (type file)) accepted_types = true <-> listed)
    by apply existsb_eqb_In.
  assert (Hno : existsb (String.eqb (type file)) accepted_types = false <-> ~ listed)
    by apply existsb_eqb_not_In.
  clearbody listed.
  change (10 * 1024 * 1024)%Z with 10485760%Z.
  rewrite analyzer_validateFile_cases, landing_validateImage_cases.
  destruct (existsb (String.eqb (type file)) accepted_types);
    [assert (Hl : listed) by now apply Hyes
    |assert (Hl : ~ listed) by now apply Hno];
    clear Hyes Hno;
    (destruct (size file >? 10485760)%Z eqn:S;
     [apply Z.gtb_lt in S | rewrite Z.gtb_ltb in S; apply Z.ltb_ge in S]);
    simpl; repeat split; intros;
    try reflexivity; try discriminate; try tauto; try lia.
Qed.

Lemma validation_accepts_witness :
  snd (Analyzer.validateFile
         {| name := "leaf.png"; type := "image/png"; size := 10 * 1024 * 1024 |})
    = inr true /\
  snd (Landing.validateImage
         {| name := "leaf.png"; type := "image/png"; size := 10 * 1024 * 1024 |})
    = inr true /\
  Analyzer.validateFile Samples.animation
    = ([Do (Analyzer.SetError
              (Some "Please upload a valid image file (JPEG, PNG, or WebP)"%string))],
       inr false) /\
  Landing.validateImage
    {| name := "big.webp"; type := "image/webp"; size := 10 * 1024 * 1024 + 1 |}
    = ([Do (Landing.SetError
              (Some "Image file is too large. Please upload an image smaller than 10MB"%string))],
       inr false).
Proof.
  split; [|split; [|split]].
  - apply (validation_accepts
             {| name := "leaf.png"; type := "image/png"; size := 10 * 1024 * 1024 |}).
    + simpl. tauto.
    + reflexivity.
  - apply (validation_accepts
             {| name := "leaf.png"; type := "image/png"; size := 10 * 1024 * 1024 |}).
    + simpl. tauto.
    + reflexivity.
  - apply (validation_accepts Samples.animation).
    simpl. intros [H|[H|[H|[H|[]]]]]; discriminate.
  - apply (validation_accepts
             {| name := "big.webp"; type := "image/webp"; size := 10 * 1024 * 1024 + 1 |}).
    + simpl. tauto.
    + reflexivity.
Defined.

(** ** The analyze operation *)

(** What [check_status] throws for a response that is not OK. *)
Lemma analyzer_check_status_not_ok (response : Response) :
  ok response = false ->
  exists message,
    Analyzer.check_status response = ([], inl (Error message)) /\
    (status response = 404%Z ->
       message = "The analysis service is temporarily unavailable."%string) /\
    (status response = 500%Z ->
       message = "Server error occurred. Please try again in a few moments."%string) /\
    ((400 <= status response < 500)%Z -> status response <> 404%Z ->
       message = "Invalid request. Please check your image and try again."%string) /\
    (~ (400 <= status response < 500)%Z -> status response <> 500%Z ->
       message = ("Request failed with status " ++ to_string (status response))%string).
Proof.
  intros Hok. unfold Analyzer.check_status. rewrite Hok. simpl.
  case_status response; simpl; eexists; (split; [reflexivity|]);
    repeat split; intros; try reflexivity; try lia.
Qed.

Lemma landing_check_status_not_ok (response : Response) :
  ok response = false ->
  exists message,
    Landing.check_status response = ([], inl (Error message)) /\
    (status response = 404%Z ->
       message = "The service may be temporarily unavailable."%string) /\
    (status response = 500%Z ->
       message = "Server error occurred. Please try again in a few moments."%string) /\
    ((400 <= status response < 500)%Z -> status response <> 404%Z ->
       message = "Invalid request. Please check your image format and try again."%string) /\
    (~ (400 <= status response < 500)%Z -> status response <> 500%Z ->
       message = ("API request failed with status " ++ to_string (status response))%string).
Proof.
  intros Hok. unfold Landing.check_status. rewrite Hok. simpl.
  case_status response; simpl; eexists; (split; [reflexivity|]);
    repeat split; intros; try reflexivity; try lia.
Qed.

(** A thrown [Error] that is not a [TypeError] is shown with its message. *)
Lemma analyzer_on_error_Error (message : string) :
  Analyzer.on_error (Error message)
  = ([Do (Analyzer.SetError (Some message))], inr tt).
Proof. reflexivity. Qed.

Lemma landing_on_error_Error (message : string) :
  Landing.on_error (Error message)
  = ([Do (Landing.SetError (Some message)); Do (Landing.SetCurrentView Landing.home)],
     inr tt).
Proof. reflexivity. Qed.

(** The whole script of [analyzeImage] when the request is answered and the
    status check throws. *)
Lemma analyzer_script_not_ok (env : Env) (imageBlob : Blob) (response : Response)
  (message : string) :
  fetch env (Analyzer.predict_request imageBlob) = inr response ->
  Analyzer.check_status response = ([], inl (Error message)) ->
  Analyzer.analyzeImage env imageBlob =
    ([Do (Analyzer.SetIsAnalyzing true); Do (Analyzer.SetError None);
      Do (Analyzer.SetResult None);
      Await (AwaitFetch (Analyzer.predict_request imageBlob));
      Do (Analyzer.SetError (Some message));
      Do (Analyzer.SetIsAnalyzing false)], inr tt).
Proof.
  intros Hfetch Hcheck. unfold Analyzer.analyzeImage. simpl.
  rewrite Hfetch. simpl. rewrite Hcheck. reflexivity.
Qed.

Lemma landing_script_not_ok (env : Env) (file : File) (compressedBlob : Blob)
  (response : Response) (message : string) :
  Landing.resizeAndCompressImage env file = inr compressedBlob ->
  fetch env (Landing.predict_request compressedBlob) = inr response ->
  Landing.check_status response = ([], inl (Error message)) ->
  Landing.analyzeImageWithAPI env file =
    ([Do (Landing.SetIsAnalyzing true); Do (Landing.SetResult None);
      Do (Landing.SetError None); Do (Landing.SetCurrentView Landing.analysis);
      Await (AwaitResize file);
      Await (AwaitFetch (Landing.predict_request compressedBlob));
      Do (Landing.SetError (Some message));
      Do (Landing.SetCurrentView Landing.home);
      Do (Landing.SetIsAnalyzing false)], inr tt).
Proof.
  intros Hresize Hfetch Hcheck. unfold Landing.analyzeImageWithAPI. simpl.
  rewrite Hresize. simpl. rewrite Hfetch. simpl. rewrite Hcheck. reflexivity.
Qed.

(** C4 (as the code has it).  When the endpoint answers with a response that
    is not OK, the analyze operation leaves [result] null and sets [error]:
    to the service-unavailable message for status 404, to the server-error
    message for status 500, to the invalid-request message for any other
    status in [400, 500), and for every other status to a message that ends
    in the status code, "Request failed with status <code>" in the analyzer
    and "API request failed with status <code>" on the landing page. *)
Theorem status_errors (env : Env) (response : Response) :
  ok response = false ->
  (forall imageBlob st,
     fetch env (Analyzer.predict_request imageBlob) = inr response ->
     let st' := Analyzer.exec (Analyzer.analyzeImage env imageBlob) st in
     Analyzer.result st' = None /\
     (status response = 404%Z ->
        Analyzer.error st'
        = Some "The analysis service is temporarily unavailable."%string) /\
     (status response = 500%Z ->
        Analyzer.error st'
        = Some "Server error occurred. Please try again in a few moments."%string) /\
     ((400 <= status response < 500)%Z -> status response <> 404%Z ->
        Analyzer.error st'
        = Some "Invalid request. Please check your image and try again."%string) /\
     (~ (400 <= status response < 500)%Z -> status response <> 500%Z ->
        Analyzer.error st'
        = Some ("Request failed with status " ++ to_string (status response))%string)) /\
  (forall file compressedBlob st,
     Landing.resizeAndCompressImage env file = inr compressedBlob ->
     fetch env (Landing.predict_request compressedBlob) = inr response ->
     let st' := Landing.exec (Landing.analyzeImageWithAPI env file) st in
     Landing.result st' = None /\
     (status response = 404%Z ->
        Landing.error st'
        = Some "The service may be temporarily unavailable."%string) /\
     (status response = 500%Z ->
        Landing.error st'
        = Some "Server error occurred. Please try again in a few moments."%string) /\
     ((400 <= status response < 500)%Z -> status response <> 404%Z ->
        Landing.error st'
        = Some "Invalid request. Please check your image format and try again."%string) /\
     (~ (400 <= status response < 500)%Z -> status response <> 500%Z ->
        Landing.error st'
        = Some ("API request failed with status " ++ to_string (status response))%string)).
Proof.
  intros Hok. split.
  - intros imageBlob st Hfetch st'.
    destruct (analyzer_check_status_not_ok response Hok)
      as (message & Hcheck & H404 & H500 & H4xx & Hother).
    assert (Hst : st' = Analyzer.run
              [Analyzer.SetIsAnalyzing true; Analyzer.SetError None;
               Analyzer.SetResult None; Analyzer.SetError (Some message);
               Analyzer.SetIsAnalyzing false] st).
    { subst st'. unfold Analyzer.exec.
      rewrite (analyzer_script_not_ok env imageBlob Hfetch Hcheck). reflexivity. }
    rewrite Hst. simpl.
    split; [reflexivity|].
    repeat split; intros; f_equal; auto.
  - intros file compressedBlob st Hresize Hfetch st'.
    destruct (landing_check_status_not_ok response Hok)
      as (message & Hcheck & H404 & H500 & H4xx & Hother).
    assert (Hst : st' = Landing.run
              [Landing.SetIsAnalyzing true; Landing.SetResult None;
               Landing.SetError None; Landing.SetCurrentView Landing.analysis;
               Landing.SetError (Some message);
               Landing.SetCurrentView Landing.home;
               Landing.SetIsAnalyzing false] st).
    { subst st'. unfold Landing.exec.
      rewrite (landing_script_not_ok env file Hresize Hfetch Hcheck). reflexivity. }
    rewrite Hst. simpl.
    split; [reflexivity|].
    repeat split; intros; f_equal; auto.
Qed.

Lemma status_errors_witness :
  Analyzer.error
    (Analyzer.exec
       (Analyzer.analyzeImage (Samples.browser 1024 768 404 Samples.prediction)
          (FileBlob Samples.leaf))
       Analyzer.initial)
  = Some "The analysis service is temporarily unavailable."%string /\
  Landing.error
    (Landing.exec
       (Landing.analyzeImageWithAPI (Samples.browser 1024 768 503 Samples.prediction)
          Samples.leaf)
       Landing.initial)
  = Some "API request failed with status 503"%string.
Proof.
  split.
  - apply (@status_errors (Samples.browser 1024 768 404 Samples.prediction)
             (Samples.respond 404 Samples.prediction) eq_refl).
    + reflexivity.
    + reflexivity.
  - refine (proj2 (proj2 (proj2 (proj2
      (proj2 (@status_errors (Samples.browser 1024 768 503 Samples.prediction)
                (Samples.respond 503 Samples.prediction) eq_refl)
         Samples.leaf _ Landing.initial eq_refl eq_refl)))) _ _).
    + simpl. lia.
    + discriminate.
Defined.

(** C4 as stated fails: the message for the remaining statuses is not one
    fixed string, it names the status. *)
Lemma status_message_not_fixed :
  let run_with code :=
    Analyzer.exec
      (Analyzer.analyzeImage (Samples.browser 1024 768 code Samples.prediction)
         (FileBlob Samples.leaf))
      Analyzer.initial in
  Analyzer.error (run_with 502%Z) = Some "Request failed with status 502"%string /\
  Analyzer.error (run_with 503%Z) = Some "Request failed with status 503"%string /\
  ~ (exists fixed, Analyzer.error (run_with 502%Z) = Some fixed /\
                   Analyzer.error (run_with 503%Z) = Some fixed).
Proof.
  split; [reflexivity|]. split; [reflexivity|].
  intros (fixed & H1 & H2). vm_compute in H1, H2. congruence.
Qed.

(** *** Reading the body *)

Lemma property_field_of (env : Env) (data : value) (key : string) :
  property env data key =
    match data with
    | VUndefined | VNull => inl (TypeError (read_null env))
    | _ => inr (field_of data key)
    end.
Proof. destruct data; reflexivity. Qed.

Lemma truthy_string (v : value) :
  (exists s, v = VStr s /\ s <> []) \/
  (truthy v = true /\ forall s, v <> VStr s) \/
  truthy v = false.
Proof.
  destruct v as [| |b|n|s|items|props]; simpl; auto.
  - destruct b; [right; left; split; [reflexivity | discriminate] | auto].
  - destruct n as [q|negative|]; [destruct (Qeq_bool q 0)| |]; simpl; auto;
      right; left; split; solve [reflexivity | discriminate].
  - destruct s as [|c s]; [auto|]. left. exists (c :: s). split; [reflexivity | discriminate].
  - right; left; split; [reflexivity | discriminate].
  - right; left; split; [reflexivity | discriminate].
Qed.

Lemma analyzer_read_result_null (env : Env) (data : value) :
  data = VNull \/ data = VUndefined ->
  Analyzer.read_result env data = ([], inl (TypeError (read_null env))).
Proof. intros [-> | ->]; reflexivity. Qed.

Lemma analyzer_read_result_rejected (env : Env) (data : value) :
  data <> VNull -> data <> VUndefined ->
  truthy (field_of data "disease") = false \/
  is_number (field_of data "confidence") = false ->
  Analyzer.read_result env data
  = ([], inl (Error "Invalid response format from API")).
Proof.
  intros Hn Hu Hcheck. unfold Analyzer.read_result.
  rewrite !property_field_of.
  destruct data; try congruence; simpl;
    try reflexivity.
  simpl in Hcheck.
  destruct (truthy (own_property props (code_units "disease"))); simpl;
    [|reflexivity].
  destruct Hcheck as [Hcheck|Hcheck]; [discriminate|].
  rewrite Hcheck. reflexivity.
Qed.

Lemma analyzer_read_result_accepted (env : Env) (data : value) (d : jstring)
  (c : double) :
  field_of data "disease" = VStr d -> d <> [] ->
  field_of data "confidence" = VNum c ->
  Analyzer.read_result env data
  = ([Do (Analyzer.SetResult (Some {|
        Analyzer.disease := trim (replace_plus underscore [space] d);
        Analyzer.confidence := mul c (Finite 100);
        Analyzer.description := Analyzer.or_empty (field_of data "description") |}))],
     inr tt).
Proof.
  intros Hd Hne Hc. unfold Analyzer.read_result.
  rewrite !property_field_of.
  destruct data; try discriminate.
  simpl in *. rewrite Hd, Hc. simpl.
  destruct d; [congruence|]. reflexivity.
Qed.

Lemma analyzer_read_result_not_string (env : Env) (data : value) (c : double) :
  truthy (field_of data "disease") = true ->
  (forall s, field_of data "disease" <> VStr s) ->
  field_of data "confidence" = VNum c ->
  Analyzer.read_result env data = ([], inl (TypeError (not_a_function env))).
Proof.
  intros Ht Hs Hc. unfold Analyzer.read_result.
  rewrite !property_field_of.
  destruct data; try discriminate.
  simpl in *. rewrite Ht, Hc. simpl.
  destruct (own_property props (code_units "disease")); simpl in *;
    try discriminate; try reflexivity.
  exfalso. eapply Hs. reflexivity.
Qed.

Lemma landing_read_result_null (env : Env) (data : value) :
  data = VNull \/ data = VUndefined ->
  Landing.read_result env data = ([], inl (TypeError (read_null env))).
Proof. intros [-> | ->]; reflexivity. Qed.

Lemma landing_read_result_rejected (env : Env) (data : value) :
  data <> VNull -> data <> VUndefined ->
  truthy (field_of data "disease") = false \/
  is_number (field_of data "confidence") = false \/
  truthy (field_of data "description") = false ->
  Landing.read_result env data
  = ([], inl (Error "Invalid response format from API")).
Proof.
  intros Hn Hu Hcheck. unfold Landing.read_result.
  rewrite !property_field_of.
  destruct data; try congruence; simpl;
    try reflexivity.
  simpl in Hcheck.
  destruct (truthy (own_property props (code_units "disease"))); simpl;
    [|reflexivity].
  destruct (is_number (own_property props (code_units "confidence"))); simpl;
    [|reflexivity].
  destruct Hcheck as [Hcheck|[Hcheck|Hcheck]]; try discriminate.
  rewrite Hcheck. reflexivity.
Qed.

Lemma landing_read_result_accepted (env : Env) (data : value) (d : jstring)
  (c : double) :
  field_of data "disease" = VStr d -> d <> [] ->
  field_of data "confidence" = VNum c ->
  truthy (field_of data "description") = true ->
  Landing.read_result env data
  = ([Do (Landing.SetResult (Some {|
        Landing.disease := trim (replace_plus underscore [space] d);
        Landing.confidence := mul c (Finite 100);
        Landing.description := field_of data "description" |}))],
     inr tt).
Proof.
  intros Hd Hne Hc Ht. unfold Landing.read_result.
  rewrite !property_field_of.
  destruct data; try discriminate.
  simpl in *. rewrite Hd, Hc. simpl. rewrite Ht. simpl.
  destruct d; [congruence|]. reflexivity.
Qed.

Lemma landing_read_result_not_string (env : Env) (data : value) (c : double) :
  truthy (field_of data "disease") = true ->
  (forall s, field_of data "disease" <> VStr s) ->
  field_of data "confidence" = VNum c ->
  truthy (field_of data "description") = true ->
  Landing.read_result env data = ([], inl (TypeError (not_a_function env))).
Proof.
  intros Ht Hs Hc Hdesc. unfold Landing.read_result.
  rewrite !property_field_of.
  destruct data; try discriminate.
  simpl in *. rewrite Ht, Hc. simpl. rewrite Hdesc. simpl.
  destruct (own_property props (code_units "disease")); simpl in *;
    try discriminate; try reflexivity.
  exfalso. eapply Hs. reflexivity.
Qed.

(** *** The setter calls of one run *)

Lemma analyzer_check_status_cases (response : Response) :
  (ok response = true /\ Analyzer.check_status response = ([], inr tt)) \/
  (ok response = false /\
   exists message, Analyzer.check_status response = ([], inl (Error message))).
Proof.
  destruct (ok response) eqn:Hok.
  - left. split; [reflexivity|]. unfold Analyzer.check_status. now rewrite Hok.
  - right. split; [reflexivity|].
    destruct (analyzer_check_status_not_ok response Hok) as (m & Hm & _).
    now exists m.
Qed.

Lemma landing_check_status_cases (response : Response) :
  (ok response = true /\ Landing.check_status response = ([], inr tt)) \/
  (ok response = false /\
   exists message, Landing.check_status response = ([], inl (Error message))).
Proof.
  destruct (ok response) eqn:Hok.
  - left. split; [reflexivity|]. unfold Landing.check_status. now rewrite Hok.
  - right. split; [reflexivity|].
    destruct (landing_check_status_not_ok response Hok) as (m & Hm & _).
    now exists m.
Qed.

Lemma analyzer_on_error_sets (err : thrown) :
  exists message,
    Analyzer.on_error err = ([Do (Analyzer.SetError (Some message))], inr tt).
Proof.
  unfold Analyzer.on_error.
  destruct err as [m|m|]; simpl; try (eexists; reflexivity).
  destruct (String.eqb m "Failed to fetch"); eexists; reflexivity.
Qed.

Lemma landing_on_error_sets (err : thrown) :
  exists message,
    Landing.on_error err
    = ([Do (Landing.SetError (Some message)); Do (Landing.SetCurrentView Landing.home)],
       inr tt).
Proof.
  unfold Landing.on_error.
  destruct err as [m|m|]; simpl; try (eexists; reflexivity).
  destruct (String.eqb m "Failed to fetch"); eexists; reflexivity.
Qed.

Lemma analyzer_read_result_cases (env : Env) (data : value) :
  (exists t, Analyzer.read_result env data = ([], inl t)) \/
  (exists r, Analyzer.read_result env data
             = ([Do (Analyzer.SetResult (Some r))], inr tt)).
Proof.
  destruct data as [| |b|n|s|items|props];
    try (left; eexists; reflexivity).
  destruct (truthy_string (field_of (VObj props) "disease"))
    as [(d & Hd & Hne) | [[Ht Hs] | Hf]].
  - destruct (field_of (VObj props) "confidence") as [| |b|c|s|items|props'] eqn:Hc;
      try (left; eexists; apply analyzer_read_result_rejected;
           [discriminate | discriminate | right; rewrite Hc; reflexivity]).
    right. eexists. eapply analyzer_read_result_accepted; eassumption.
  - destruct (field_of (VObj props) "confidence") as [| |b|c|s|items|props'] eqn:Hc;
      try (left; eexists; apply analyzer_read_result_rejected;
           [discriminate | discriminate | right; rewrite Hc; reflexivity]).
    left. eexists. eapply analyzer_read_result_not_string; eassumption.
  - left. eexists. apply analyzer_read_result_rejected;
      [discriminate | discriminate | left; assumption].
Qed.

Lemma landing_read_result_cases (env : Env) (data : value) :
  (exists t, Landing.read_result env data = ([], inl t)) \/
  (exists r, Landing.read_result env data
             = ([Do (Landing.SetResult (Some r))], inr tt)).
Proof.
  destruct data as [| |b|n|s|items|props];
    try (left; eexists; reflexivity).
  destruct (truthy (field_of (VObj props) "description")) eqn:Hdesc;
    [|left; eexists; apply landing_read_result_rejected;
      [discriminate | discriminate | right; right; assumption]].
  destruct (truthy_string (field_of (VObj props) "disease"))
    as [(d & Hd & Hne) | [[Ht Hs] | Hf]].
  - destruct (field_of (VObj props) "confidence") as [| |b|c|s|items|props'] eqn:Hc;
      try (left; eexists; apply landing_read_result_rejected;
           [discriminate | discriminate | right; left; rewrite Hc; reflexivity]).
    right. eexists. eapply landing_read_result_accepted; eassumption.
  - destruct (field_of (VObj props) "confidence") as [| |b|c|s|items|props'] eqn:Hc;
      try (left; eexists; apply landing_read_result_rejected;
           [discriminate | discriminate | right; left; rewrite Hc; reflexivity]).
    left. eexists. eapply landing_read_result_not_string; eassumption.
  - left. eexists. apply landing_read_result_rejected;
      [discriminate | discriminate | left; assumption].
Qed.

(** Every run of [analyzeImage] returns, and makes five setter calls: the
    three at entry, one that sets the result or the error, and the one of
    the [finally] block. *)
Lemma analyzer_analyze_actions (env : Env) (imageBlob : Blob) :
  snd (Analyzer.analyzeImage env imageBlob) = inr tt /\
  exists outcome,
    ((exists message, outcome = Analyzer.SetError (Some message)) \/
     (exists r, outcome = Analyzer.SetResult (Some r))) /\
    actions (commands (Analyzer.analyzeImage env imageBlob))
    = [Analyzer.SetIsAnalyzing true; Analyzer.SetError None;
       Analyzer.SetResult None; outcome; Analyzer.SetIsAnalyzing false].
Proof.
  unfold Analyzer.analyzeImage. simpl.
  destruct (fetch env (Analyzer.predict_request imageBlob)) as [t|response]; simpl.
  { destruct (analyzer_on_error_sets t) as (m & ->); simpl.
    split; [reflexivity|]. eexists. split; [left; eexists; reflexivity | reflexivity]. }
  destruct (analyzer_check_status_cases response)
    as [[_ ->] | [_ (m & ->)]]; simpl.
  2:{ split; [reflexivity|].
      eexists. split; [left; eexists; reflexivity | reflexivity]. }
  destruct (json response) as [t|data]; simpl.
  { destruct (analyzer_on_error_sets t) as (m & ->); simpl.
    split; [reflexivity|]. eexists. split; [left; eexists; reflexivity | reflexivity]. }
  destruct (analyzer_read_result_cases env data) as [(t & ->) | (r & ->)]; simpl.
  - destruct (analyzer_on_error_sets t) as (m & ->); simpl.
    split; [reflexivity|]. eexists. split; [left; eexists; reflexivity | reflexivity].
  - split; [reflexivity|].
    eexists. split; [right; eexists; reflexivity | reflexivity].
Qed.

(** Every run of [analyzeImageWithAPI] returns; it makes the four setter
    calls at entry, then sets the result, or sets the error and goes back to
    the home view, and last the call of the [finally] block. *)
Lemma landing_analyze_actions (env : Env) (file : File) :
  snd (Landing.analyzeImageWithAPI env file) = inr tt /\
  exists outcome,
    ((exists message,
        outcome = [Landing.SetError (Some message);
                   Landing.SetCurrentView Landing.home]) \/
     (exists r, outcome = [Landing.SetResult (Some r)])) /\
    actions (commands (Landing.analyzeImageWithAPI env file))
    = [Landing.SetIsAnalyzing true; Landing.SetResult None;
       Landing.SetError None; Landing.SetCurrentView Landing.analysis]
      ++ outcome ++ [Landing.SetIsAnalyzing false].
Proof.
  unfold Landing.analyzeImageWithAPI. simpl.
  destruct (Landing.resizeAndCompressImage env file) as [t|compressedBlob]; simpl.
  { destruct (landing_on_error_sets t) as (m & ->); simpl.
    split; [reflexivity|]. eexists. split; [left; eexists; reflexivity | reflexivity]. }
  destruct (fetch env (Landing.predict_request compressedBlob)) as [t|response]; simpl.
  { destruct (landing_on_error_sets t) as (m & ->); simpl.
    split; [reflexivity|]. eexists. split; [left; eexists; reflexivity | reflexivity]. }
  destruct (landing_check_status_cases response)
    as [[_ ->] | [_ (m & ->)]]; simpl.
  2:{ split; [reflexivity|].
      eexists. split; [left; eexists; reflexivity | reflexivity]. }
  destruct (json response) as [t|data]; simpl.
  { destruct (landing_on_error_sets t) as (m & ->); simpl.
    split; [reflexivity|]. eexists. split; [left; eexists; reflexivity | reflexivity]. }
  destruct (landing_read_result_cases env data) as [(t & ->) | (r & ->)]; simpl.
  - destruct (landing_on_error_sets t) as (m & ->); simpl.
    split; [reflexivity|]. eexists. split; [left; eexists; reflexivity | reflexivity].
  - split; [reflexivity|].
    eexists. split; [right; eexists; reflexivity | reflexivity].
Qed.

(** The script of a run whose request is answered with an OK response and a
    body that parses. *)
Lemma analyzer_script_ok (env : Env) (imageBlob : Blob) (response : Response)
  (data : value) :
  fetch env (Analyzer.predict_request imageBlob) = inr response ->
  ok response = true ->
  json response = inr data ->
  commands (Analyzer.analyzeImage env imageBlob) =
    [Do (Analyzer.SetIsAnalyzing true); Do (Analyzer.SetError None);
     Do (Analyzer.SetResult None);
     Await (AwaitFetch (Analyzer.predict_request imageBlob)); Await AwaitJson]
    ++ commands (try_catch (Analyzer.read_result env data) Analyzer.on_error)
    ++ [Do (Analyzer.SetIsAnalyzing false)].
Proof.
  intros Hfetch Hok Hjson. unfold Analyzer.analyzeImage. simpl.
  rewrite Hfetch. simpl.
  unfold Analyzer.check_status. rewrite Hok. simpl. rewrite Hjson. simpl.
  destruct (Analyzer.read_result env data) as [cs [t|[]]]; simpl.
  - destruct (Analyzer.on_error t) as [cs' r]. simpl.
    rewrite <- !app_assoc. reflexivity.
  - reflexivity.
Qed.

Lemma landing_script_ok (env : Env) (file : File) (compressedBlob : Blob)
  (response : Response) (data : value) :
  Landing.resizeAndCompressImage env file = inr compressedBlob ->
  fetch env (Landing.predict_request compressedBlob) = inr response ->
  ok response = true ->
  json response = inr data ->
  commands (Landing.analyzeImageWithAPI env file) =
    [Do (Landing.SetIsAnalyzing true); Do (Landing.SetResult None);
     Do (Landing.SetError None); Do (Landing.SetCurrentView Landing.analysis);
     Await (AwaitResize file);
     Await (AwaitFetch (Landing.predict_request compressedBlob)); Await AwaitJson]
    ++ commands (try_catch (Landing.read_result env data) Landing.on_error)
    ++ [Do (Landing.SetIsAnalyzing false)].
Proof.
  intros Hresize Hfetch Hok Hjson. unfold Landing.analyzeImageWithAPI. simpl.
  rewrite Hresize. simpl. rewrite Hfetch. simpl.
  unfold Landing.check_status. rewrite Hok. simpl. rewrite Hjson. simpl.
  destruct (Landing.read_result env data) as [cs [t|[]]]; simpl.
  - destruct (Landing.on_error t) as [cs' r]. simpl.
    rewrite <- !app_assoc. reflexivity.
  - reflexivity.
Qed.

(** The state after such a run, by what [read_result] did. *)
Lemma analyzer_exec_accepted (env : Env) (imageBlob : Blob) (response : Response)
  (data : value) (r : Analyzer.AnalysisResult) (st : Analyzer.State) :
  fetch env (Analyzer.predict_request imageBlob) = inr response ->
  ok response = true ->
  json response = inr data ->
  Analyzer.read_result env data = ([Do (Analyzer.SetResult (Some r))], inr tt) ->
  Analyzer.exec (Analyzer.analyzeImage env imageBlob) st
  = Analyzer.run [Analyzer.SetIsAnalyzing true; Analyzer.SetError None;
                  Analyzer.SetResult None; Analyzer.SetResult (Some r);
                  Analyzer.SetIsAnalyzing false] st.
Proof.
  intros Hfetch Hok Hjson Hread. unfold Analyzer.exec.
  rewrite (analyzer_script_ok env imageBlob Hfetch Hok Hjson), Hread.
  reflexivity.
Qed.

Lemma analyzer_exec_thrown (env : Env) (imageBlob : Blob) (response : Response)
  (data : value) (t : thrown) (st : Analyzer.State) :
  fetch env (Analyzer.predict_request imageBlob) = inr response ->
  ok response = true ->
  json response = inr data ->
  Analyzer.read_result env data = ([], inl t) ->
  exists message,
    Analyzer.on_error t = ([Do (Analyzer.SetError (Some message))], inr tt) /\
    Analyzer.exec (Analyzer.analyzeImage env imageBlob) st
    = Analyzer.run [Analyzer.SetIsAnalyzing true; Analyzer.SetError None;
                    Analyzer.SetResult None; Analyzer.SetError (Some message);
                    Analyzer.SetIsAnalyzing false] st.
Proof.
  intros Hfetch Hok Hjson Hread. unfold Analyzer.exec.
  rewrite (analyzer_script_ok env imageBlob Hfetch Hok Hjson), Hread.
  destruct (analyzer_on_error_sets t) as (m & Hm).
  exists m. split; [assumption|]. simpl. rewrite Hm. reflexivity.
Qed.

Lemma landing_exec_accepted (env : Env) (file : File) (compressedBlob : Blob)
  (response : Response) (data : value) (r : Landing.AnalysisResult)
  (st : Landing.State) :
  Landing.resizeAndCompressImage env file = inr compressedBlob ->
  fetch env (Landing.predict_request compressedBlob) = inr response ->
  ok response = true ->
  json response = inr data ->
  Landing.read_result env data = ([Do (Landing.SetResult (Some r))], inr tt) ->
  Landing.exec (Landing.analyzeImageWithAPI env file) st
  = Landing.run [Landing.SetIsAnalyzing true; Landing.SetResult None;
                 Landing.SetError None; Landing.SetCurrentView Landing.analysis;
                 Landing.SetResult (Some r); Landing.SetIsAnalyzing false] st.
Proof.
  intros Hresize Hfetch Hok Hjson Hread. unfold Landing.exec.
  rewrite (landing_script_ok env file Hresize Hfetch Hok Hjson), Hread.
  reflexivity.
Qed.

Lemma landing_exec_thrown (env : Env) (file : File) (compressedBlob : Blob)
  (response : Response) (data : value) (t : thrown) (st : Landing.State) :
  Landing.resizeAndCompressImage env file = inr compressedBlob ->
  fetch env (Landing.predict_request compressedBlob) = inr response ->
  ok response = true ->
  json response = inr data ->
  Landing.read_result env data = ([], inl t) ->
  exists message,
    Landing.on_error t
    = ([Do (Landing.SetError (Some message)); Do (Landing.SetCurrentView Landing.home)],
       inr tt) /\
    Landing.exec (Landing.analyzeImageWithAPI env file) st
    = Landing.run [Landing.SetIsAnalyzing true; Landing.SetResult None;
                   Landing.SetError None; Landing.SetCurrentView Landing.analysis;
                   Landing.SetError (Some message);
                   Landing.SetCurrentView Landing.home;
                   Landing.SetIsAnalyzing false] st.
Proof.
  intros Hresize Hfetch Hok Hjson Hread. unfold Landing.exec.
  rewrite (landing_script_ok env file Hresize Hfetch Hok Hjson), Hread.
  destruct (landing_on_error_sets t) as (m & Hm).
  exists m. split; [assumption|]. simpl. rewrite Hm. reflexivity.
Qed.

(** *** Which bodies are accepted *)

Lemma analyzer_read_result_decides (env : Env) (data : value) :
  (analyzer_accepts data /\
   exists r, Analyzer.read_result env data
             = ([Do (Analyzer.SetResult (Some r))], inr tt)) \/
  (~ analyzer_accepts data /\
   exists t, Analyzer.read_result env data = ([], inl t)).
Proof.
  unfold analyzer_accepts.
  destruct data as [| |b|n|s|items|props];
    try (right; split;
         [intros (d & c & Hd & _); discriminate | eexists; reflexivity]).
  destruct (truthy_string (field_of (VObj props) "disease"))
    as [(d & Hd & Hne) | [[Ht Hs] | Hf]].
  - destruct (field_of (VObj props) "confidence") as [| |b|c|s|items|props'] eqn:Hc;
      try (right; split;
           [intros (d' & c' & _ & _ & Hc'); discriminate
           |eexists; apply analyzer_read_result_rejected;
            [discriminate | discriminate | right; rewrite Hc; reflexivity]]).
    left. split; [exists d, c; auto|].
    eexists. eapply analyzer_read_result_accepted; eassumption.
  - right. split; [intros (d' & c' & Hd' & _); now apply (Hs d')|].
    destruct (field_of (VObj props) "confidence") as [| |b|c|s|items|props'] eqn:Hc;
      try (eexists; apply analyzer_read_result_rejected;
           [discriminate | discriminate | right; rewrite Hc; reflexivity]).
    eexists. eapply analyzer_read_result_not_string; eassumption.
  - right. split.
    + intros (d' & c' & Hd' & Hne & _). rewrite Hd' in Hf.
      destruct d'; [congruence | discriminate].
    + eexists. apply analyzer_read_result_rejected;
        [discriminate | discriminate | left; assumption].
Qed.

Lemma landing_read_result_decides (env : Env) (data : value) :
  (landing_accepts data /\
   exists r, Landing.read_result env data
             = ([Do (Landing.SetResult (Some r))], inr tt)) \/
  (~ landing_accepts data /\
   exists t, Landing.read_result env data = ([], inl t)).
Proof.
  unfold landing_accepts.
  destruct data as [| |b|n|s|items|props];
    try (right; split;
         [intros (d & c & Hd & _); discriminate | eexists; reflexivity]).
  destruct (truthy (field_of (VObj props) "description")) eqn:Hdesc;
    [|right; split;
      [intros (d & c & _ & _ & _ & Ht); congruence
      |eexists; apply landing_read_result_rejected;
       [discriminate | discriminate | right; right; assumption]]].
  destruct (truthy_string (field_of (VObj props) "disease"))
    as [(d & Hd & Hne) | [[Ht Hs] | Hf]].
  - destruct (field_of (VObj props) "confidence") as [| |b|c|s|items|props'] eqn:Hc;
      try (right; split;
           [intros (d' & c' & _ & _ & Hc' & _); discriminate
           |eexists; apply landing_read_result_rejected;
            [discriminate | discriminate | right; left; rewrite Hc; reflexivity]]).
    left. split; [exists d, c; auto|].
    eexists. eapply landing_read_result_accepted; eassumption.
  - right. split; [intros (d' & c' & Hd' & _); now apply (Hs d')|].
    destruct (field_of (VObj props) "confidence") as [| |b|c|s|items|props'] eqn:Hc;
      try (eexists; apply landing_read_result_rejected;
           [discriminate | discriminate | right; left; rewrite Hc; reflexivity]).
    eexists. eapply landing_read_result_not_string; eassumption.
  - right. split.
    + intros (d' & c' & Hd' & Hne & _). rewrite Hd' in Hf.
      destruct d'; [congruence | discriminate].
    + eexists. apply landing_read_result_rejected;
        [discriminate | discriminate | left; assumption].
Qed.

(** C5 (as the code has it).  For an OK response whose body parses to
    [data], the analyzer widget sets a result exactly when [data.disease] is
    a non-empty string and [data.confidence] is a number; the landing page
    sets one exactly when, in addition, [data.description] is truthy.  When
    the test of the code fails ([data.disease] falsy or [data.confidence]
    not a number, and on the landing page also [data.description] falsy),
    the error is "Invalid response format from API" and no result is set. *)
Theorem body_acceptance (env : Env) (response : Response) (data : value) :
  ok response = true ->
  json response = inr data ->
  (forall imageBlob st,
     fetch env (Analyzer.predict_request imageBlob) = inr response ->
     let st' := Analyzer.exec (Analyzer.analyzeImage env imageBlob) st in
     (Analyzer.result st' <> None <-> analyzer_accepts data) /\
     (data <> VNull -> data <> VUndefined ->
      truthy (field_of data "disease") = false \/
      is_number (field_of data "confidence") = false ->
      Analyzer.result st' = None /\
      Analyzer.error st' = Some "Invalid response format from API"%string)) /\
  (forall file compressedBlob st,
     Landing.resizeAndCompressImage env file = inr compressedBlob ->
     fetch env (Landing.predict_request compressedBlob) = inr response ->
     let st' := Landing.exec (Landing.analyzeImageWithAPI env file) st in
     (Landing.result st' <> None <-> landing_accepts data) /\
     (data <> VNull -> data <> VUndefined ->
      truthy (field_of data "disease") = false \/
      is_number (field_of data "confidence") = false \/
      truthy (field_of data "description") = false ->
      Landing.result st' = None /\
      Landing.error st' = Some "Invalid response format from API"%string)).
Proof.
  intros Hok Hjson. split.
  - intros imageBlob st Hfetch st'. split.
    + destruct (analyzer_read_result_decides env data)
        as [[Hacc (r & Hread)] | [Hrej (t & Hread)]].
      * subst st'.
        rewrite (analyzer_exec_accepted env imageBlob st Hfetch Hok Hjson Hread).
        simpl. split; [intros _; exact Hacc | intros _; discriminate].
      * destruct (analyzer_exec_thrown env imageBlob st Hfetch Hok Hjson Hread)
          as (m & _ & Hexec).
        subst st'. rewrite Hexec. simpl. split; [congruence | tauto].
    + intros Hn Hu Hcheck.
      pose proof (analyzer_read_result_rejected env Hn Hu Hcheck) as Hread.
      destruct (analyzer_exec_thrown env imageBlob st Hfetch Hok Hjson Hread)
        as (m & Hm & Hexec).
      subst st'. rewrite Hexec. simpl.
      rewrite analyzer_on_error_Error in Hm. injection Hm as <-.
      split; reflexivity.
  - intros file compressedBlob st Hresize Hfetch st'. split.
    + destruct (landing_read_result_decides env data)
        as [[Hacc (r & Hread)] | [Hrej (t & Hread)]].
      * subst st'.
        rewrite (landing_exec_accepted env file st Hresize Hfetch Hok Hjson Hread).
        simpl. split; [intros _; exact Hacc | intros _; discriminate].
      * destruct (landing_exec_thrown env file st Hresize Hfetch Hok Hjson Hread)
          as (m & _ & Hexec).
        subst st'. rewrite Hexec. simpl. split; [congruence | tauto].
    + intros Hn Hu Hcheck.
      pose proof (landing_read_result_rejected env Hn Hu Hcheck) as Hread.
      destruct (landing_exec_thrown env file st Hresize Hfetch Hok Hjson Hread)
        as (m & Hm & Hexec).
      subst st'. rewrite Hexec. simpl.
      rewrite landing_on_error_Error in Hm. injection Hm as <-.
      split; reflexivity.
Qed.

Lemma body_acceptance_witness :
  Analyzer.result
    (Analyzer.exec
       (Analyzer.analyzeImage (Samples.browser 1024 768 200 Samples.prediction)
          (FileBlob Samples.leaf))
       Analyzer.initial) <> None /\
  Landing.result
    (Landing.exec
       (Landing.analyzeImageWithAPI
          (Samples.browser 1024 768 200 Samples.described_prediction) Samples.leaf)
       Landing.initial) <> None.
Proof.
  split.
  - apply (@body_acceptance (Samples.browser 1024 768 200 Samples.prediction)
             (Samples.respond 200 Samples.prediction) Samples.prediction
             eq_refl eq_refl).
    + reflexivity.
    + exists (code_units "Apple___Apple_scab"), (Finite (3 # 4)).
      repeat split; discriminate.
  - refine (proj2 (proj1
      (proj2 (@body_acceptance
                (Samples.browser 1024 768 200 Samples.described_prediction)
                (Samples.respond 200 Samples.described_prediction)
                Samples.described_prediction eq_refl eq_refl)
         Samples.leaf _ Landing.initial eq_refl eq_refl)) _).
    exists (code_units "Apple___Apple_scab"), (Finite (3 # 4)).
    repeat split; discriminate.
Defined.

(** C5 as stated fails: a body with a string [disease] and a number
    [confidence] and no [description] is accepted by the analyzer widget and
    rejected by the landing page; and the analyzer widget rejects a body
    whose [disease] is the empty string. *)
Lemma acceptance_differs :
  field_of Samples.prediction "disease" = VStr (code_units "Apple___Apple_scab") /\
  field_of Samples.prediction "confidence" = VNum (Finite (3 # 4)) /\
  Analyzer.result
    (Analyzer.exec
       (Analyzer.analyzeImage (Samples.browser 1024 768 200 Samples.prediction)
          (FileBlob Samples.leaf))
       Analyzer.initial) <> None /\
  (let st' :=
     Landing.exec
       (Landing.analyzeImageWithAPI (Samples.browser 1024 768 200 Samples.prediction)
          Samples.leaf)
       Landing.initial in
   Landing.result st' = None /\
   Landing.error st' = Some "Invalid response format from API"%string) /\
  (let unnamed :=
     VObj [ (code_units "disease", VStr []);
            (code_units "confidence", VNum (Finite (1 # 2))) ] in
   let st' :=
     Analyzer.exec
       (Analyzer.analyzeImage (Samples.browser 1024 768 200 unnamed)
          (FileBlob Samples.leaf))
       Analyzer.initial in
   Analyzer.result st' = None /\
   Analyzer.error st' = Some "Invalid response format from API"%string).
Proof.
  repeat split; try reflexivity. discriminate.
Qed.

(** ** The label: [replace(/_+/g, " ")] and [trim()] *)

Lemma runs_head (x : N) (s : jstring) :
  exists r rest, runs (x :: s) = (x :: r) :: rest.
Proof.
  simpl. destruct (runs s) as [|[|y r] rest].
  - now exists [], [].
  - now exists [], rest.
  - destruct (Bool.eqb (is_underscore x) (is_underscore y)).
    + now exists (y :: r), rest.
    + now exists [], ((y :: r) :: rest).
Qed.

(** The runs are a cut of the string. *)
Lemma runs_concat (s : jstring) : List.concat (runs s) = s.
Proof.
  induction s as [|x s IH]; [reflexivity|].
  simpl. destruct (runs s) as [|[|y r] rest]; simpl in *.
  - now subst.
  - now rewrite IH.
  - destruct (Bool.eqb (is_underscore x) (is_underscore y)); simpl;
      now rewrite IH.
Qed.

(** Each run is not empty and is all underscores or free of them. *)
Lemma runs_uniform (s : jstring) :
  Forall (fun r => exists x r', r = x :: r' /\
                   Forall (fun c => is_underscore c = is_underscore x) r)
         (runs s).
Proof.
  induction s as [|x s IH]; [constructor|].
  simpl. destruct (runs s) as [|[|y r] rest].
  - constructor; [|constructor]. exists x, []. split; [reflexivity|].
    constructor; [reflexivity | constructor].
  - inversion IH as [|? ? Hhd Htl]; subst.
    destruct Hhd as (? & ? & Habs & _). discriminate.
  - inversion IH as [|? ? Hhd Htl]; subst.
    destruct (Bool.eqb (is_underscore x) (is_underscore y)) eqn:E.
    + apply Bool.eqb_prop in E. constructor; [|assumption].
      exists x, (y :: r). split; [reflexivity|].
      constructor; [reflexivity|].
      destruct Hhd as (y' & r' & Heq & Hall). injection Heq as <- <-.
      rewrite E. exact Hall.
    + constructor; [|constructor; assumption].
      exists x, []. split; [reflexivity|]. constructor; [reflexivity | constructor].
Qed.

Lemma runs_not_empty (s : jstring) (rest : list jstring) : runs s <> [] :: rest.
Proof.
  destruct s as [|x s]; [discriminate|].
  destruct (runs_head x s) as (r & rest' & ->). discriminate.
Qed.

Lemma runs_alternate (s : jstring) : alternate (runs s).
Proof.
  induction s as [|x s IH]; [exact I|].
  simpl. destruct (runs s) as [|[|y r] rest] eqn:E.
  - exact I.
  - now apply runs_not_empty in E.
  - destruct (Bool.eqb (is_underscore x) (is_underscore y)) eqn:Ek.
    + apply Bool.eqb_prop in Ek.
      destruct rest as [|[|z r'] rest']; try exact I.
      simpl in IH. simpl. rewrite Ek. exact IH.
    + simpl. split; [|exact IH].
      intro Heq. rewrite Heq in Ek. now rewrite Bool.eqb_reflx in Ek.
Qed.

(** One step of the scan. *)
Lemma replace_plus_cons (c : N) (r : jstring) (x : N) (s : jstring) :
  replace_plus c r (x :: s) =
    if N.eqb x c
    then r ++ replace_plus c r (skipn (match_plus c s) s)
    else x :: replace_plus c r s.
Proof.
  simp replace_plus. simpl.
  destruct (N.eqb x c); reflexivity.
Qed.

Lemma runs_cons (x : N) (s : jstring) :
  runs (x :: s) =
    match runs s with
    | (y :: r) :: rest =>
        if Bool.eqb (is_underscore x) (is_underscore y)
        then (x :: y :: r) :: rest
        else [x] :: (y :: r) :: rest
    | [] :: rest => [x] :: rest
    | [] => [[x]]
    end.
Proof. reflexivity. Qed.

(** What a further code unit in front does to the replaced string. *)
Lemma replace_runs_cons (x : N) (s : jstring) :
  replace_runs (x :: s) =
    match s with
    | [] => replace_run [x]
    | y :: _ =>
        if Bool.eqb (is_underscore x) (is_underscore y)
        then if is_underscore x then replace_runs s else x :: replace_runs s
        else replace_run [x] ++ replace_runs s
    end.
Proof.
  unfold replace_runs. destruct s as [|y s].
  { simpl. destruct (is_underscore x); reflexivity. }
  destruct (runs_head y s) as (r & rest & Hr).
  rewrite (runs_cons x (y :: s)), Hr.
  destruct (is_underscore x) eqn:Hx, (is_underscore y) eqn:Hy;
    simpl; rewrite ?Hx, ?Hy; reflexivity.
Qed.

Lemma replace_runs_other (x : N) (s : jstring) :
  is_underscore x = false ->
  replace_runs (x :: s) = x :: replace_runs s.
Proof.
  intros Hx. rewrite replace_runs_cons.
  destruct s as [|y s]; simpl; rewrite Hx; [reflexivity|].
  destruct (is_underscore y); reflexivity.
Qed.

Lemma replace_runs_underscore (s : jstring) (x : N) :
  is_underscore x = true ->
  replace_runs (x :: s) = space :: replace_runs (skipn (match_plus underscore s) s).
Proof.
  revert x. induction s as [|y s IH]; intros x Hx.
  - rewrite replace_runs_cons. simpl. now rewrite Hx.
  - rewrite replace_runs_cons, Hx.
    simpl match_plus. fold (is_underscore y).
    destruct (is_underscore y) eqn:Hy; simpl.
    + now apply IH.
    + now rewrite Hx.
Qed.

(** The scan of the code replaces the maximal runs of underscores. *)
Lemma replace_plus_runs (s : jstring) :
  replace_plus underscore [space] s = replace_runs s.
Proof.
  remember (List.length s) as n eqn:Hn.
  revert s Hn. induction n as [n IH] using lt_wf_ind. intros s Hn.
  destruct s as [|x s]; [reflexivity|].
  rewrite replace_plus_cons. fold (is_underscore x).
  destruct (is_underscore x) eqn:Hx.
  - rewrite (replace_runs_underscore s x Hx). simpl. f_equal.
    apply (IH (List.length (skipn (match_plus underscore s) s))); [|reflexivity].
    subst n. simpl. rewrite length_skipn. lia.
  - rewrite (replace_runs_other x s Hx). f_equal.
    apply (IH (List.length s)); [subst n; simpl; lia | reflexivity].
Qed.

(** No underscore is left, and a string without underscores is not changed. *)
Lemma replace_plus_no_underscore (s : jstring) :
  ~ In underscore (replace_plus underscore [space] s).
Proof.
  remember (List.length s) as n eqn:Hn.
  revert s Hn. induction n as [n IH] using lt_wf_ind. intros s Hn.
  destruct s as [|x s]; [simp replace_plus; auto|].
  rewrite replace_plus_cons.
  destruct (N.eqb x underscore) eqn:Hx.
  - simpl. intros [Habs|Hin]; [discriminate|].
    revert Hin.
    apply (IH (List.length (skipn (match_plus underscore s) s))); [|reflexivity].
    subst n. simpl. rewrite length_skipn. lia.
  - simpl. intros [Habs|Hin].
    + subst x. now rewrite N.eqb_refl in Hx.
    + revert Hin. apply (IH (List.length s)); [subst n; simpl; lia | reflexivity].
Qed.

Lemma replace_plus_unchanged (s : jstring) :
  ~ In underscore s -> replace_plus underscore [space] s = s.
Proof.
  induction s as [|x s IH]; intros Hs; [reflexivity|].
  rewrite replace_plus_cons.
  destruct (N.eqb x underscore) eqn:Hx.
  - apply N.eqb_eq in Hx. exfalso. apply Hs. now left.
  - f_equal. apply IH. intro Hin. apply Hs. now right.
Qed.

Lemma trimStart_white_app (pre rest : jstring) :
  white pre -> trimStart (pre ++ rest) = trimStart rest.
Proof.
  induction 1 as [|c pre Hc _ IH]; [reflexivity|].
  simpl. now rewrite Hc.
Qed.

Lemma trimStart_clean (t : jstring) : starts_clean t -> trimStart t = t.
Proof.
  destruct t as [|c t]; [reflexivity|]. simpl. now intros ->.
Qed.

Lemma trimStart_split (s : jstring) :
  exists pre, s = pre ++ trimStart s /\ white pre /\ starts_clean (trimStart s).
Proof.
  induction s as [|c s (pre & Hs & Hpre & Hclean)].
  - exists []. repeat split. constructor.
  - simpl. destruct (is_white_space c) eqn:Hc.
    + exists (c :: pre). split; [simpl; now f_equal|].
      split; [now constructor | assumption].
    + exists []. split; [reflexivity|]. split; [constructor | exact Hc].
Qed.

Lemma white_rev (s : jstring) : white s -> white (rev s).
Proof. apply Forall_rev. Qed.

Lemma trimEnd_split (t : jstring) :
  exists suf, t = trimEnd t ++ suf /\ white suf /\ starts_clean (rev (trimEnd t)).
Proof.
  unfold trimEnd.
  destruct (trimStart_split (rev t)) as (pre & Hs & Hpre & Hclean).
  exists (rev pre). split; [|split].
  - rewrite <- rev_app_distr, <- Hs. symmetry. apply rev_involutive.
  - now apply white_rev.
  - now rewrite rev_involutive.
Qed.

(** [trim] takes off a prefix and a suffix of white space and leaves none at
    either end; it is the only string that does. *)
Lemma trim_trimmed (s : jstring) : trimmed_of s (trim s).
Proof.
  unfold trimmed_of, trim.
  destruct (trimStart_split s) as (pre & Hs & Hpre & Hclean).
  destruct (trimEnd_split (trimStart s)) as (suf & Ht & Hsuf & Hend).
  exists pre, suf. split; [|split; [|split; [|split]]]; try assumption.
  - rewrite <- Ht. exact Hs.
  - destruct (trimEnd (trimStart s)) as [|c t] eqn:E; [exact I|].
    rewrite Ht in Hclean. exact Hclean.
Qed.

Lemma trimmed_unique (s t : jstring) : trimmed_of s t -> t = trim s.
Proof.
  intros (pre & suf & -> & Hpre & Hsuf & Hstart & Hend).
  unfold trim, trimEnd. rewrite trimStart_white_app by assumption.
  destruct t as [|c t].
  - simpl. clear Hstart Hend.
    assert (Hw : trimStart suf = []).
    { clear Hpre. induction Hsuf as [|c suf Hc _ IH]; [reflexivity|].
      simpl. now rewrite Hc. }
    now rewrite Hw.
  - rewrite (trimStart_clean ((c :: t) ++ suf)) by exact Hstart.
    rewrite rev_app_distr, trimStart_white_app by now apply white_rev.
    rewrite (trimStart_clean (rev (c :: t))) by exact Hend.
    symmetry. apply rev_involutive.
Qed.

(** The product with [100] of a finite double is the real product, rounded;
    an infinite confidence stays what it is. *)
Lemma mul_100 (c : double) :
  match c with
  | Finite q => mul c (Finite 100) = round64 (q * 100)
  | Infinite _ | NaN => mul c (Finite 100) = c
  end.
Proof. destruct c as [q|[|]|]; reflexivity. Qed.

(** C6, amended.  When a response is accepted, the disease of the result
    is the disease string of the body with every maximal run of underscores
    replaced by one space and then trimmed of leading and trailing white
    space.  The confidence of the result is the product of the confidence
    of the body and 100 as doubles multiply: for a finite confidence [q] it
    is the real number [q * 100] rounded to a double.  When finite it is a
    double nearest to [q * 100], within a relative error of [2 ^ -53] of it
    (or within [2 ^ -1075]); it is infinite only when [q * 100] is
    [2 ^ 1024 - 2 ^ 970] or more.  An infinite confidence stays what it
    is. *)
Theorem rendered_result (env : Env) (response : Response) (data : value)
  (d : jstring) (c : double) :
  ok response = true ->
  json response = inr data ->
  field_of data "disease" = VStr d -> d <> [] ->
  field_of data "confidence" = VNum c ->
  (forall imageBlob st,
     fetch env (Analyzer.predict_request imageBlob) = inr response ->
     exists r,
       Analyzer.result (Analyzer.exec (Analyzer.analyzeImage env imageBlob) st) = Some r /\
       trimmed_of (replace_runs d) (Analyzer.disease r) /\
       Analyzer.disease r = trim (replace_runs d) /\
       Analyzer.confidence r = mul c (Finite 100) /\
       match c with
       | Finite q => Analyzer.confidence r = round64 (q * 100) /\
                     rounded (q * 100) (Analyzer.confidence r)
       | Infinite _ | NaN => Analyzer.confidence r = c
       end) /\
  (forall file compressedBlob st,
     Landing.resizeAndCompressImage env file = inr compressedBlob ->
     fetch env (Landing.predict_request compressedBlob) = inr response ->
     truthy (field_of data "description") = true ->
     exists r,
       Landing.result (Landing.exec (Landing.analyzeImageWithAPI env file) st) = Some r /\
       trimmed_of (replace_runs d) (Landing.disease r) /\
       Landing.disease r = trim (replace_runs d) /\
       Landing.confidence r = mul c (Finite 100) /\
       match c with
       | Finite q => Landing.confidence r = round64 (q * 100) /\
                     rounded (q * 100) (Landing.confidence r)
       | Infinite _ | NaN => Landing.confidence r = c
       end).
Proof.
  intros Hok Hjson Hd Hne Hc.
  assert (Hmul : match c with
                 | Finite q => mul c (Finite 100) = round64 (q * 100) /\
                               rounded (q * 100) (mul c (Finite 100))
                 | Infinite _ | NaN => mul c (Finite 100) = c
                 end).
  { pose proof (mul_100 c) as H. destruct c as [q| |]; try exact H.
    split; [exact H|]. rewrite H. apply round64_rounded. }
  split.
  - intros imageBlob st Hfetch.
    pose proof (analyzer_read_result_accepted env data Hd Hne Hc) as Hread.
    rewrite (analyzer_exec_accepted env imageBlob st Hfetch Hok Hjson Hread).
    eexists. split; [reflexivity|]. cbn [Analyzer.disease Analyzer.confidence].
    rewrite replace_plus_runs.
    split; [apply trim_trimmed|]. split; [reflexivity|].
    split; [reflexivity | exact Hmul].
  - intros file compressedBlob st Hresize Hfetch Hdesc.
    pose proof (landing_read_result_accepted env data Hd Hne Hc Hdesc) as Hread.
    rewrite (landing_exec_accepted env file st Hresize Hfetch Hok Hjson Hread).
    eexists. split; [reflexivity|]. cbn [Landing.disease Landing.confidence].
    rewrite replace_plus_runs.
    split; [apply trim_trimmed|]. split; [reflexivity|].
    split; [reflexivity | exact Hmul].
Qed.

Lemma rendered_result_witness :
  exists r,
    Analyzer.result
      (Analyzer.exec
         (Analyzer.analyzeImage (Samples.browser 1024 768 200 Samples.prediction)
            (FileBlob Samples.leaf))
         Analyzer.initial) = Some r /\
    Analyzer.disease r = code_units "Apple Apple scab" /\
    Analyzer.confidence r = Finite 75.
Proof.
  destruct (@rendered_result (Samples.browser 1024 768 200 Samples.prediction)
              (Samples.respond 200 Samples.prediction) Samples.prediction
              (code_units "Apple___Apple_scab") (Finite (3 # 4))
              eq_refl eq_refl eq_refl ltac:(discriminate) eq_refl) as [HA _].
  destruct (HA (FileBlob Samples.leaf) Analyzer.initial eq_refl)
    as (r & Hr & _ & Hd & Hc & _).
  exists r. split; [exact Hr|]. split; [rewrite Hd; reflexivity|].
  rewrite Hc. reflexivity.
Defined.

(** C6 as stated fails: the confidence of the result is not always the
    confidence of the body times 100.  For the body whose confidence is the
    double written [0.57], the result holds [57 - 2 ^ -47], the double
    written [56.99999999999999], which is neither 57 nor the real product;
    and for the double [2 ^ 1020] the result holds infinity. *)
Lemma confidence_is_rounded :
  round64 (57 # 100) = Finite Cases.fifty_seven_hundredths /\
  (let c := Cases.fifty_seven_hundredths in
   exists r,
     Analyzer.result
       (Analyzer.exec
          (Analyzer.analyzeImage
             (Samples.browser 1024 768 200 (Cases.scored (Finite c)))
             (FileBlob Samples.leaf))
          Analyzer.initial) = Some r /\
     Analyzer.confidence r = Finite (57 - 2 ^ (-47)) /\
     ~ 57 - 2 ^ (-47) == c * 100 /\
     ~ 57 - 2 ^ (-47) == 57) /\
  (exists r,
     Analyzer.result
       (Analyzer.exec
          (Analyzer.analyzeImage
             (Samples.browser 1024 768 200 (Cases.scored (Finite (2 ^ 1020))))
             (FileBlob Samples.leaf))
          Analyzer.initial) = Some r /\
     round64 (2 ^ 1020) = Finite (2 ^ 1020) /\
     Analyzer.confidence r = Infinite false).
Proof.
  split; [vm_compute; reflexivity|]. split.
  - eexists. split; [vm_compute; reflexivity|].
    split; [vm_compute; reflexivity|].
    split; vm_compute; discriminate.
  - eexists. split; [vm_compute; reflexivity|].
    split; vm_compute; reflexivity.
Qed.

Example label_with_outer_underscores :
  trim (replace_plus underscore [space] (code_units "__Tomato__Late_blight_"))
  = code_units "Tomato Late blight".
Proof. reflexivity. Qed.

(** ** The request *)

Lemma requests_app {action : Type} (cs cs' : list (cmd action)) :
  requests (cs ++ cs') = requests cs ++ requests cs'.
Proof.
  induction cs as [|c cs IH]; [reflexivity|].
  destruct c as [a|p]; simpl; [assumption|].
  destruct p; simpl; rewrite ?IH; reflexivity.
Qed.

Lemma actions_app {action : Type} (cs cs' : list (cmd action)) :
  actions (cs ++ cs') = actions cs ++ actions cs'.
Proof.
  induction cs as [|c cs IH]; [reflexivity|].
  destruct c as [a|p]; simpl; rewrite ?IH; reflexivity.
Qed.

(** [analyzeImage] sends one request, whatever happens next. *)
Lemma analyzer_analyze_requests (env : Env) (imageBlob : Blob) :
  requests (commands (Analyzer.analyzeImage env imageBlob))
  = [Analyzer.predict_request imageBlob].
Proof.
  unfold Analyzer.analyzeImage. simpl.
  destruct (fetch env (Analyzer.predict_request imageBlob)) as [t|response]; simpl.
  { destruct (analyzer_on_error_sets t) as (m & ->). reflexivity. }
  destruct (analyzer_check_status_cases response)
    as [[_ ->] | [_ (m & ->)]]; simpl; [|reflexivity].
  destruct (json response) as [t|data]; simpl.
  { destruct (analyzer_on_error_sets t) as (m & ->). reflexivity. }
  destruct (analyzer_read_result_cases env data) as [(t & ->) | (r & ->)]; simpl.
  - destruct (analyzer_on_error_sets t) as (m & ->). reflexivity.
  - reflexivity.
Qed.

(** [analyzeImageWithAPI] sends one request when the resize resolves, and
    none when it rejects. *)
Lemma landing_analyze_requests (env : Env) (file : File) :
  requests (commands (Landing.analyzeImageWithAPI env file))
  = match Landing.resizeAndCompressImage env file with
    | inr compressedBlob => [Landing.predict_request compressedBlob]
    | inl _ => []
    end.
Proof.
  unfold Landing.analyzeImageWithAPI. simpl.
  destruct (Landing.resizeAndCompressImage env file) as [t|compressedBlob]; simpl.
  { destruct (landing_on_error_sets t) as (m & ->). reflexivity. }
  destruct (fetch env (Landing.predict_request compressedBlob)) as [t|response]; simpl.
  { destruct (landing_on_error_sets t) as (m & ->). reflexivity. }
  destruct (landing_check_status_cases response)
    as [[_ ->] | [_ (m & ->)]]; simpl; [|reflexivity].
  destruct (json response) as [t|data]; simpl.
  { destruct (landing_on_error_sets t) as (m & ->). reflexivity. }
  destruct (landing_read_result_cases env data) as [(t & ->) | (r & ->)]; simpl.
  - destruct (landing_on_error_sets t) as (m & ->). reflexivity.
  - reflexivity.
Qed.

(** The script of [processFile] for a file that passes validation. *)
Lemma analyzer_processFile_resized (env : Env) (file : File) (resizedBlob : Blob) :
  Analyzer.validateFile file = ([], inr true) ->
  Analyzer.resizeImage env file 512 = inr resizedBlob ->
  commands (Analyzer.processFile env file) =
    [Do (Analyzer.SetError None); Do (Analyzer.SetSelectedFile (Some file));
     Do (Analyzer.SetPreviewUrl (Some (ObjectUrl (FileBlob file))));
     Await (AwaitResize file);
     Do (Analyzer.SetResizedImageUrl (Some (ObjectUrl resizedBlob)))]
    ++ commands (Analyzer.analyzeImage env resizedBlob).
Proof.
  intros Hvalid Hresize. unfold Analyzer.processFile.
  rewrite Hvalid. simpl. rewrite Hresize. simpl.
  destruct (analyzer_analyze_actions env resizedBlob) as [Hret _].
  destruct (Analyzer.analyzeImage env resizedBlob) as [cs [t|[]]];
    [discriminate | reflexivity].
Qed.

Lemma analyzer_processFile_not_resized (env : Env) (file : File) (t : thrown) :
  Analyzer.validateFile file = ([], inr true) ->
  Analyzer.resizeImage env file 512 = inl t ->
  exists message,
    commands (Analyzer.processFile env file) =
      [Do (Analyzer.SetError None); Do (Analyzer.SetSelectedFile (Some file));
       Do (Analyzer.SetPreviewUrl (Some (ObjectUrl (FileBlob file))));
       Await (AwaitResize file);
       Do (Analyzer.SetError (Some message))].
Proof.
  intros Hvalid Hresize. unfold Analyzer.processFile.
  rewrite Hvalid. simpl. rewrite Hresize. simpl.
  eexists. reflexivity.
Qed.

Lemma analyzer_processFile_invalid (env : Env) (file : File) :
  snd (Analyzer.validateFile file) <> inr true ->
  exists message,
    commands (Analyzer.processFile env file) =
      [Do (Analyzer.SetError None); Do (Analyzer.SetError (Some message))].
Proof.
  intros Hinvalid. unfold Analyzer.processFile.
  rewrite analyzer_validateFile_cases in *.
  destruct (existsb _ _); [destruct (size file >? 10485760)%Z|]; simpl in *;
    try congruence; eexists; reflexivity.
Qed.

Lemma validateFile_true (file : File) :
  snd (Analyzer.validateFile file) = inr true ->
  Analyzer.validateFile file = ([], inr true).
Proof.
  rewrite analyzer_validateFile_cases.
  destruct (existsb _ _); [destruct (size file >? 10485760)%Z|]; simpl;
    congruence.
Qed.

Lemma validateImage_true (file : File) :
  snd (Landing.validateImage file) = inr true ->
  Landing.validateImage file = ([], inr true).
Proof.
  rewrite landing_validateImage_cases.
  destruct (existsb _ _); [destruct (size file >? 10485760)%Z|]; simpl;
    congruence.
Qed.

(** C7 (as the code has it).  A run of the analyze operation sends one
    request: a POST whose form data holds one entry, the blob under the
    field name "file" with the file name "image.jpg".  The blob is the one
    the resize step produced from the upload, never the uploaded file.  The
    analyzer widget posts to https://grove-ai-5.onrender.com/predict and the
    landing page to https://grove-ai-6.onrender.com/predict. *)
Theorem upload_request (env : Env) (file : File) :
  (forall imageBlob,
     requests (commands (Analyzer.analyzeImage env imageBlob)) =
       [ {| url := "https://grove-ai-5.onrender.com/predict";
            method := "POST";
            body := [ {| field := "file"; content := imageBlob;
                         filename := "image.jpg" |} ] |} ]) /\
  (forall resizedBlob,
     snd (Analyzer.validateFile file) = inr true ->
     Analyzer.resizeImage env file 512 = inr resizedBlob ->
     requests (commands (Analyzer.processFile env file)) =
       [ {| url := "https://grove-ai-5.onrender.com/predict";
            method := "POST";
            body := [ {| field := "file"; content := resizedBlob;
                         filename := "image.jpg" |} ] |} ] /\
     forall f, resizedBlob <> FileBlob f) /\
  (forall compressedBlob,
     Landing.resizeAndCompressImage env file = inr compressedBlob ->
     requests (commands (Landing.analyzeImageWithAPI env file)) =
       [ {| url := "https://grove-ai-6.onrender.com/predict";
            method := "POST";
            body := [ {| field := "file"; content := compressedBlob;
                         filename := "image.jpg" |} ] |} ] /\
     forall f, compressedBlob <> FileBlob f).
Proof.
  split; [|split].
  - intros imageBlob. apply analyzer_analyze_requests.
  - intros resizedBlob Hvalid Hresize.
    rewrite (analyzer_processFile_resized env file
               (validateFile_true file Hvalid) Hresize).
    rewrite requests_app, analyzer_analyze_requests. split; [reflexivity|].
    apply analyzer_resize_resolved in Hresize as (w & h & _ & ->).
    discriminate.
  - intros compressedBlob Hresize.
    rewrite landing_analyze_requests, Hresize. split; [reflexivity|].
    apply landing_resize_resolved in Hresize as (w & h & _ & ->).
    discriminate.
Qed.

Lemma upload_request_witness :
  exists resizedBlob,
    requests (commands (Analyzer.processFile
                          (Samples.browser 1024 768 200 Samples.prediction)
                          Samples.leaf)) =
      [ {| url := "https://grove-ai-5.onrender.com/predict";
           method := "POST";
           body := [ {| field := "file"; content := resizedBlob;
                        filename := "image.jpg" |} ] |} ] /\
    resizedBlob <> FileBlob Samples.leaf.
Proof.
  eexists.
  destruct (proj1 (proj2 (@upload_request
                            (Samples.browser 1024 768 200 Samples.prediction)
                            Samples.leaf)) _ eq_refl eq_refl) as [Hreq Hblob].
  split; [exact Hreq | apply Hblob].
Defined.

(** C7 as stated fails: the two components post to different hosts. *)
Lemma endpoints_differ :
  let env := Samples.browser 1024 768 200 Samples.prediction in
  map url (requests (commands (Analyzer.processFile env Samples.leaf)))
    = ["https://grove-ai-5.onrender.com/predict"%string] /\
  map url (requests (commands (Landing.analyzeImageWithAPI env Samples.leaf)))
    = ["https://grove-ai-6.onrender.com/predict"%string] /\
  map url (requests (commands (Analyzer.processFile env Samples.leaf)))
    <> map url (requests (commands (Landing.analyzeImageWithAPI env Samples.leaf))).
Proof.
  split; [reflexivity|]. split; [reflexivity|]. discriminate.
Qed.

(** ** The flags of a run *)

(** The whole script of a run of [analyzeImage]: the setter calls at entry,
    the request, possibly the read of the body, the outcome, the reset of
    the flag. *)
Lemma analyzer_analyze_commands (env : Env) (imageBlob : Blob) :
  exists awaits outcome,
    commands (Analyzer.analyzeImage env imageBlob) =
      [Do (Analyzer.SetIsAnalyzing true); Do (Analyzer.SetError None);
       Do (Analyzer.SetResult None);
       Await (AwaitFetch (Analyzer.predict_request imageBlob))]
      ++ awaits ++ [Do outcome; Do (Analyzer.SetIsAnalyzing false)] /\
    (awaits = [] \/ awaits = [Await AwaitJson]) /\
    ((exists message, outcome = Analyzer.SetError (Some message)) \/
     (exists r, outcome = Analyzer.SetResult (Some r))).
Proof.
  unfold Analyzer.analyzeImage. simpl.
  destruct (fetch env (Analyzer.predict_request imageBlob)) as [t|response]; simpl.
  { destruct (analyzer_on_error_sets t) as (m & ->); simpl.
    exists [], (Analyzer.SetError (Some m)). script_shape. }
  destruct (analyzer_check_status_cases response)
    as [[_ ->] | [_ (m & ->)]]; simpl.
  2:{ exists [], (Analyzer.SetError (Some m)). script_shape. }
  destruct (json response) as [t|data]; simpl.
  { destruct (analyzer_on_error_sets t) as (m & ->); simpl.
    exists [Await AwaitJson], (Analyzer.SetError (Some m)). script_shape. }
  destruct (analyzer_read_result_cases env data) as [(t & ->) | (r & ->)]; simpl.
  - destruct (analyzer_on_error_sets t) as (m & ->); simpl.
    exists [Await AwaitJson], (Analyzer.SetError (Some m)). script_shape.
  - exists [Await AwaitJson], (Analyzer.SetResult (Some r)). script_shape.
Qed.

Lemma landing_analyze_commands (env : Env) (file : File) :
  exists awaits outcome,
    commands (Landing.analyzeImageWithAPI env file) =
      [Do (Landing.SetIsAnalyzing true); Do (Landing.SetResult None);
       Do (Landing.SetError None); Do (Landing.SetCurrentView Landing.analysis);
       Await (AwaitResize file)]
      ++ awaits ++ outcome ++ [Do (Landing.SetIsAnalyzing false)] /\
    actions awaits = [] /\
    ((exists message,
        outcome = [Do (Landing.SetError (Some message));
                   Do (Landing.SetCurrentView Landing.home)]) \/
     (exists r, outcome = [Do (Landing.SetResult (Some r))])).
Proof.
  unfold Landing.analyzeImageWithAPI. simpl.
  destruct (Landing.resizeAndCompressImage env file) as [t|compressedBlob]; simpl.
  { destruct (landing_on_error_sets t) as (m & ->); simpl.
    exists []. exists [Do (Landing.SetError (Some m)); Do (Landing.SetCurrentView Landing.home)].
    script_shape. }
  destruct (fetch env (Landing.predict_request compressedBlob)) as [t|response]; simpl.
  { destruct (landing_on_error_sets t) as (m & ->); simpl.
    exists [Await (AwaitFetch (Landing.predict_request compressedBlob))].
    exists [Do (Landing.SetError (Some m)); Do (Landing.SetCurrentView Landing.home)].
    script_shape. }
  destruct (landing_check_status_cases response)
    as [[_ ->] | [_ (m & ->)]]; simpl.
  2:{ exists [Await (AwaitFetch (Landing.predict_request compressedBlob))].
      exists [Do (Landing.SetError (Some m)); Do (Landing.SetCurrentView Landing.home)].
    script_shape. }
  destruct (json response) as [t|data]; simpl.
  { destruct (landing_on_error_sets t) as (m & ->); simpl.
    exists [Await (AwaitFetch (Landing.predict_request compressedBlob)); Await AwaitJson].
    exists [Do (Landing.SetError (Some m)); Do (Landing.SetCurrentView Landing.home)].
    script_shape. }
  destruct (landing_read_result_cases env data) as [(t & ->) | (r & ->)]; simpl.
  - destruct (landing_on_error_sets t) as (m & ->); simpl.
    exists [Await (AwaitFetch (Landing.predict_request compressedBlob)); Await AwaitJson].
    exists [Do (Landing.SetError (Some m)); Do (Landing.SetCurrentView Landing.home)].
    script_shape.
  - exists [Await (AwaitFetch (Landing.predict_request compressedBlob)); Await AwaitJson].
    exists [Do (Landing.SetResult (Some r))]. script_shape.
Qed.

Lemma landing_run_app (acts acts' : list Landing.action) (st : Landing.State) :
  Landing.run (acts ++ acts') st = Landing.run acts' (Landing.run acts st).
Proof. apply fold_left_app. Qed.

(** C8.  A run of the analyze operation returns on every path (it never
    throws).  Its first setter call is [setIsAnalyzing(true)], so the flag
    is true when the run first yields; its last setter call is
    [setIsAnalyzing(false)], so the flag is false in the state the run
    leaves, whatever the environment answered. *)
Theorem analyzing_flag (env : Env) :
  (forall imageBlob st,
     let script := Analyzer.analyzeImage env imageBlob in
     snd script = inr tt /\
     (exists rest, actions (commands script) = Analyzer.SetIsAnalyzing true :: rest) /\
     Analyzer.isAnalyzing (Analyzer.run (fst (until_await (commands script))) st) = true /\
     (exists front, actions (commands script) = front ++ [Analyzer.SetIsAnalyzing false]) /\
     Analyzer.isAnalyzing (Analyzer.exec script st) = false) /\
  (forall file st,
     let script := Landing.analyzeImageWithAPI env file in
     snd script = inr tt /\
     (exists rest, actions (commands script) = Landing.SetIsAnalyzing true :: rest) /\
     Landing.isAnalyzing (Landing.run (fst (until_await (commands script))) st) = true /\
     (exists front, actions (commands script) = front ++ [Landing.SetIsAnalyzing false]) /\
     Landing.isAnalyzing (Landing.exec script st) = false).
Proof.
  split.
  - intros imageBlob st script. subst script.
    destruct (analyzer_analyze_actions env imageBlob) as [Hret (outcome & _ & Hacts)].
    destruct (analyzer_analyze_commands env imageBlob) as (awaits & o & Hcmds & _ & _).
    split; [exact Hret|].
    split; [rewrite Hacts; eexists; reflexivity|].
    split; [rewrite Hcmds; reflexivity|].
    split.
    + rewrite Hacts.
      exists [Analyzer.SetIsAnalyzing true; Analyzer.SetError None;
              Analyzer.SetResult None; outcome].
      reflexivity.
    + unfold Analyzer.exec. rewrite Hacts. reflexivity.
  - intros file st script. subst script.
    destruct (landing_analyze_actions env file) as [Hret (outcome & _ & Hacts)].
    destruct (landing_analyze_commands env file) as (awaits & o & Hcmds & _ & _).
    split; [exact Hret|].
    split; [rewrite Hacts; eexists; reflexivity|].
    split; [rewrite Hcmds; reflexivity|].
    split.
    + rewrite Hacts.
      exists ([Landing.SetIsAnalyzing true; Landing.SetResult None;
               Landing.SetError None; Landing.SetCurrentView Landing.analysis]
              ++ outcome).
      now rewrite <- app_assoc.
    + unfold Landing.exec. rewrite Hacts.
      rewrite !landing_run_app. reflexivity.
Qed.

(** ** Dropped files *)

Lemma prefix_append (p s : string) :
  prefix p s = true <-> exists rest, s = (p ++ rest)%string.
Proof.
  revert s. induction p as [|c p IH]; intros s; simpl.
  - split; [intros _; now exists s | intros _; destruct s; reflexivity].
  - destruct s as [|c' s]; [split; [discriminate | intros (rest & Habs); discriminate]|].
    simpl. destruct (Ascii.ascii_dec c c') as [->|Hne].
    + rewrite IH. split; intros (rest & Hrest); exists rest.
      * now rewrite Hrest.
      * now injection Hrest.
    + split; [discriminate|]. intros (rest & Hrest). injection Hrest as Hc _.
      congruence.
Qed.

(** C10.  Of the dropped files only the first one counts.  When its MIME
    type starts with "image/", the analyzer widget clears the drag flag and
    runs [processFile] on it, and the landing page runs [handleDragDrop] on
    it.  When it does not, the analyzer widget only clears the drag flag and
    the landing page does nothing: nothing is processed and no error is
    set. *)
Theorem drop_first_file (env : Env) (file : File) (others : list File) :
  let image := exists rest, type file = ("image/" ++ rest)%string in
  Analyzer.handleDrop env (file :: others) = Analyzer.handleDrop env [file] /\
  (image ->
   Analyzer.handleDrop env (file :: others)
   = (Do (Analyzer.SetIsDragActive false) :: commands (Analyzer.processFile env file),
      snd (Analyzer.processFile env file))) /\
  (~ image ->
   Analyzer.handleDrop env (file :: others)
   = ([Do (Analyzer.SetIsDragActive false)], inr tt)) /\
  Landing.onDrop env (file :: others) = Landing.onDrop env [file] /\
  (image ->
   Landing.onDrop env (file :: others) = Landing.handleDragDrop env file) /\
  (~ image -> Landing.onDrop env (file :: others) = ([], inr tt)).
Proof.
  intros image.
  assert (Hyes : prefix "image/" (type file) = true <-> image)
    by apply prefix_append.
  clearbody image.
  unfold Analyzer.handleDrop, Landing.onDrop.
  destruct (prefix "image/" (type file)).
  - assert (Himage : image) by now apply Hyes.
    repeat split; try tauto.
    intros _. simpl.
    destruct (Analyzer.processFile env file) as [cs r]. reflexivity.
  - assert (Hnot : ~ image) by (rewrite <- Hyes; discriminate).
    repeat split; tauto.
Qed.

Lemma drop_first_file_witness :
  Analyzer.handleDrop (Samples.browser 1024 768 200 Samples.prediction)
    [Samples.notes; Samples.leaf]
  = ([Do (Analyzer.SetIsDragActive false)], inr tt) /\
  Landing.onDrop (Samples.browser 1024 768 200 Samples.prediction)
    [Samples.notes; Samples.leaf]
  = ([], inr tt) /\
  Landing.onDrop (Samples.browser 1024 768 200 Samples.prediction)
    [Samples.leaf; Samples.notes]
  = Landing.handleDragDrop (Samples.browser 1024 768 200 Samples.prediction)
      Samples.leaf.
Proof.
  assert (Hnotes : ~ exists rest, type Samples.notes = ("image/" ++ rest)%string)
    by (intros (rest & Habs); discriminate).
  split; [|split].
  - apply (drop_first_file (Samples.browser 1024 768 200 Samples.prediction)
             Samples.notes [Samples.leaf]). exact Hnotes.
  - apply (drop_first_file (Samples.browser 1024 768 200 Samples.prediction)
             Samples.notes [Samples.leaf]). exact Hnotes.
  - apply (drop_first_file (Samples.browser 1024 768 200 Samples.prediction)
             Samples.leaf [Samples.notes]). now exists "jpeg"%string.
Defined.

(** ** Result and error *)

Lemma firstn_middle {A : Type} (before after : list A) (x : A) :
  firstn (List.length before) (before ++ x :: after) = before.
Proof. induction before as [|y before IH]; simpl; [reflexivity | now rewrite IH]. Qed.

Lemma skipn_middle {A : Type} (before after : list A) (x : A) :
  skipn (S (List.length before)) (before ++ x :: after) = after.
Proof. induction before as [|y before IH]; simpl; [reflexivity | exact IH]. Qed.

Lemma analyzer_start_reachable (e : Analyzer.event) (c : Analyzer.config) :
  Analyzer.async_reachable c ->
  Analyzer.enabled (fst c) e = true ->
  Analyzer.async_reachable (Analyzer.start e c).
Proof.
  intros Hc He. destruct c as [st waiting].
  eapply Analyzer.async_reachable_step; [exact Hc|].
  apply Analyzer.async_start. exact He.
Qed.

Lemma analyzer_resume_reachable (position : nat) (c : Analyzer.config) :
  Analyzer.async_reachable c ->
  Analyzer.async_reachable (Analyzer.resume position c).
Proof.
  intros Hc. destruct c as [st waiting]. unfold Analyzer.resume. cbn [fst snd].
  destruct (nth_error waiting position) as [script|] eqn:E; [|exact Hc].
  eapply Analyzer.async_reachable_step; [exact Hc|].
  apply nth_error_split in E as (before & after & -> & <-).
  rewrite firstn_middle, skipn_middle.
  apply Analyzer.async_resume.
Qed.

Lemma landing_start_reachable (e : Landing.event) (c : Landing.config) :
  Landing.async_reachable c ->
  Landing.enabled (fst c) e = true ->
  Landing.async_reachable (Landing.start e c).
Proof.
  intros Hc He. destruct c as [st waiting].
  eapply Landing.async_reachable_step; [exact Hc|].
  apply Landing.async_start. exact He.
Qed.

Lemma landing_resume_reachable (position : nat) (c : Landing.config) :
  Landing.async_reachable c ->
  Landing.async_reachable (Landing.resume position c).
Proof.
  intros Hc. destruct c as [st waiting]. unfold Landing.resume. cbn [fst snd].
  destruct (nth_error waiting position) as [script|] eqn:E; [|exact Hc].
  eapply Landing.async_reachable_step; [exact Hc|].
  apply nth_error_split in E as (before & after & -> & <-).
  rewrite firstn_middle, skipn_middle.
  apply Landing.async_resume.
Qed.

(** C9 as stated fails.  In the analyzer widget: a file is chosen and its
    request leaves, "Upload Another Image" is clicked, a GIF is dropped and
    refused, and then the answer to the first request arrives; the state
    holds a result and an error.  On the landing page: a file is chosen,
    "Back to Home" is clicked, the answer arrives, and a GIF is dropped and
    refused. *)
Lemma late_answer_sets_both :
  (Analyzer.async_reachable Samples.late_answer /\
   Analyzer.result (fst Samples.late_answer) <> None /\
   Analyzer.error (fst Samples.late_answer) <> None) /\
  (Landing.async_reachable Samples.late_answer_landing /\
   Landing.result (fst Samples.late_answer_landing) <> None /\
   Landing.error (fst Samples.late_answer_landing) <> None).
Proof.
  split; (split; [|split; discriminate]).
  - unfold Samples.late_answer.
    repeat first
      [ apply analyzer_resume_reachable
      | apply analyzer_start_reachable; [|reflexivity]
      | apply Analyzer.async_reachable_initial ].
  - unfold Samples.late_answer_landing.
    repeat first
      [ apply landing_resume_reachable
      | apply landing_start_reachable; [|reflexivity]
      | apply Landing.async_reachable_initial ].
Qed.

(** The step that breaks it, seen alone: file processing clears the error
    and does not touch the result, so a refused file adds an error to a
    state that holds a result. *)
Example refused_file_keeps_result (r : Analyzer.AnalysisResult) :
  let st := Analyzer.apply (Analyzer.SetResult (Some r)) Analyzer.initial in
  let st' := Analyzer.exec
               (Analyzer.processFile
                  (Samples.browser 1024 768 200 Samples.prediction) Samples.animation)
               st in
  Analyzer.result st' = Some r /\
  Analyzer.error st' = Some "Please upload a valid image file (JPEG, PNG, or WebP)"%string.
Proof. split; reflexivity. Qed.

(** The setter calls of [processFile], by how far it gets. *)
Lemma analyzer_processFile_actions (env : Env) (file : File) :
  (exists message,
     actions (commands (Analyzer.processFile env file))
     = [Analyzer.SetError None; Analyzer.SetError (Some message)]) \/
  (exists message,
     actions (commands (Analyzer.processFile env file))
     = [Analyzer.SetError None; Analyzer.SetSelectedFile (Some file);
        Analyzer.SetPreviewUrl (Some (ObjectUrl (FileBlob file)));
        Analyzer.SetError (Some message)]) \/
  (exists resizedBlob outcome,
     actions (commands (Analyzer.processFile env file))
     = [Analyzer.SetError None; Analyzer.SetSelectedFile (Some file);
        Analyzer.SetPreviewUrl (Some (ObjectUrl (FileBlob file)));
        Analyzer.SetResizedImageUrl (Some (ObjectUrl resizedBlob));
        Analyzer.SetIsAnalyzing true; Analyzer.SetError None;
        Analyzer.SetResult None; outcome; Analyzer.SetIsAnalyzing false] /\
     ((exists message, outcome = Analyzer.SetError (Some message)) \/
      (exists r, outcome = Analyzer.SetResult (Some r)))).
Proof.
  destruct (snd (Analyzer.validateFile file)) as [t|[|]] eqn:Hvalid.
  - left. destruct (analyzer_processFile_invalid env file) as (m & ->);
      [congruence | eexists; reflexivity].
  - apply validateFile_true in Hvalid.
    destruct (Analyzer.resizeImage env file 512) as [t|resizedBlob] eqn:Hresize.
    + right; left.
      destruct (analyzer_processFile_not_resized env file Hvalid Hresize) as (m & ->).
      eexists; reflexivity.
    + right; right.
      rewrite (analyzer_processFile_resized env file Hvalid Hresize).
      rewrite actions_app.
      destruct (analyzer_analyze_actions env resizedBlob) as [_ (outcome & Ho & ->)].
      exists resizedBlob, outcome. split; [reflexivity | exact Ho].
  - left. destruct (analyzer_processFile_invalid env file) as (m & ->);
      [congruence | eexists; reflexivity].
Qed.

Lemma analyzer_processFile_invariant (env : Env) (file : File) (st : Analyzer.State) :
  Analyzer.result st = None ->
  analyzer_invariant (Analyzer.exec (Analyzer.processFile env file) st).
Proof.
  intros Hres. unfold analyzer_invariant, Analyzer.exec.
  destruct (analyzer_processFile_actions env file)
    as [(m & ->) | [(m & ->) | (b & outcome & -> & [(m & ->) | (r & ->)])]];
    simpl; auto.
  right. split; [reflexivity | discriminate].
Qed.

Lemma analyzer_step_invariant (st st' : Analyzer.State) :
  analyzer_invariant st -> Analyzer.step st st' -> analyzer_invariant st'.
Proof.
  intros Hinv Hstep. destruct Hstep as [st e Hen].
  assert (Hupload : Analyzer.selectedFile st = None -> Analyzer.result st = None).
  { intros Hsel. destruct Hinv as [Hres | [_ Hsome]]; [exact Hres | contradiction]. }
  destruct e as [env files|types|x y l r t b| |env files| |]; simpl in Hen.
  - (* handleFileChange *)
    destruct (Analyzer.selectedFile st) eqn:Hsel; [discriminate|].
    destruct files as [|file files]; [exact Hinv|].
    apply analyzer_processFile_invariant. auto.
  - (* handleDragEnter *)
    unfold Analyzer.exec. simpl. unfold Analyzer.handleDragEnter.
    destruct (Analyzer.includes types "Files"); exact Hinv.
  - (* handleDragLeave *)
    unfold Analyzer.exec. simpl. unfold Analyzer.handleDragLeave.
    destruct (_ || _); exact Hinv.
  - (* handleDragOver *)
    exact Hinv.
  - (* handleDrop *)
    destruct (Analyzer.selectedFile st) eqn:Hsel; [discriminate|].
    unfold Analyzer.exec. simpl. unfold Analyzer.handleDrop.
    destruct files as [|file files]; [exact Hinv|].
    destruct (prefix "image/" (type file)); [|exact Hinv].
    simpl.
    destruct (Analyzer.processFile env file) as [cs res] eqn:Hp. simpl.
    change (analyzer_invariant
              (Analyzer.run (actions cs)
                 (Analyzer.apply (Analyzer.SetIsDragActive false) st))).
    replace cs with (commands (Analyzer.processFile env file))
      by (rewrite Hp; reflexivity).
    apply analyzer_processFile_invariant. simpl. auto.
  - (* the close button of the error card *)
    unfold analyzer_invariant, Analyzer.exec. simpl.
    destruct Hinv as [Hres | [_ Hsome]]; auto.
  - (* reset *)
    left. reflexivity.
Qed.

Lemma analyzer_reachable_invariant (st : Analyzer.State) :
  Analyzer.reachable st -> analyzer_invariant st.
Proof.
  induction 1 as [|st st' _ IH Hstep].
  - left. reflexivity.
  - exact (analyzer_step_invariant IH Hstep).
Qed.

Lemma landing_analyze_invariant (env : Env) (file : File) (st : Landing.State) :
  landing_invariant (Landing.exec (Landing.analyzeImageWithAPI env file) st).
Proof.
  unfold landing_invariant, Landing.exec.
  destruct (landing_analyze_actions env file)
    as [_ (outcome & [(m & ->) | (r & ->)] & ->)]; simpl; auto.
Qed.

Lemma landing_read_then_analyze_invariant (env : Env) (file : File)
  (st : Landing.State) :
  Landing.result st = None ->
  landing_invariant (Landing.exec (Landing.read_then_analyze env file) st).
Proof.
  intros Hres. unfold Landing.exec, Landing.read_then_analyze. simpl.
  destruct (reader_loads env file); simpl; [|left; exact Hres].
  destruct (Landing.analyzeImageWithAPI env file) as [cs res] eqn:Ha. simpl.
  replace cs with (commands (Landing.analyzeImageWithAPI env file))
    by (rewrite Ha; reflexivity).
  apply landing_analyze_invariant.
Qed.

Lemma landing_handleDragDrop_invariant (env : Env) (file : File)
  (st : Landing.State) :
  Landing.result st = None ->
  landing_invariant (Landing.exec (Landing.handleDragDrop env file) st).
Proof.
  intros Hres. unfold Landing.exec, Landing.handleDragDrop.
  rewrite landing_validateImage_cases.
  destruct (existsb _ _); [destruct (size file >? 10485760)%Z|]; simpl;
    try (left; exact Hres).
  destruct (Landing.read_then_analyze env file) as [cs res] eqn:Hr. simpl.
  change (landing_invariant
            (Landing.run (actions cs) (Landing.apply (Landing.SetError None) st))).
  replace cs with (commands (Landing.read_then_analyze env file))
    by (rewrite Hr; reflexivity).
  apply landing_read_then_analyze_invariant. exact Hres.
Qed.

Lemma landing_handleImageUpload_invariant (env : Env) (files : list File)
  (st : Landing.State) :
  Landing.result st = None ->
  landing_invariant (Landing.exec (Landing.handleImageUpload env files) st).
Proof.
  intros Hres. destruct files as [|file files]; [left; exact Hres|].
  exact (landing_handleDragDrop_invariant env file st Hres).
Qed.

Lemma landing_handleDemoImage_invariant (env : Env) (imageName imageSrc : string)
  (st : Landing.State) :
  Landing.result st = None ->
  landing_invariant
    (Landing.exec (Landing.handleDemoImage env imageName imageSrc) st).
Proof.
  intros Hres. unfold Landing.exec, Landing.handleDemoImage. simpl.
  destruct (fetch env _) as [t|response]; simpl; [left; exact Hres|].
  destruct (blob response) as [t|blob_size]; simpl; [left; exact Hres|].
  match goal with
  | |- context [Landing.analyzeImageWithAPI env ?f] => set (file := f)
  end.
  destruct (landing_analyze_actions env file) as [Hret _].
  destruct (Landing.analyzeImageWithAPI env file) as [cs res] eqn:Ha.
  simpl in Hret. subst res. simpl.
  match goal with
  | |- landing_invariant (Landing.run (actions cs) ?s) =>
      replace cs with (commands (Landing.analyzeImageWithAPI env file))
        by (rewrite Ha; reflexivity);
      apply (landing_analyze_invariant env file s)
  end.
Qed.

Lemma landing_step_invariant (st st' : Landing.State) :
  landing_invariant st -> Landing.step st st' -> landing_invariant st'.
Proof.
  intros Hinv Hstep. destruct Hstep as [st e Hen].
  assert (Hhome : Landing.currentView st = Landing.home -> Landing.result st = None).
  { intros Hview. destruct Hinv as [Hres | [_ Hana]]; [exact Hres | congruence]. }
  unfold Landing.enabled in Hen.
  destruct e as [env files|env files|env index| | |index|];
    destruct (Landing.currentView st) eqn:Hview; try discriminate;
    try specialize (Hhome eq_refl).
  - now apply landing_handleImageUpload_invariant.
  - simpl. unfold Landing.onDrop.
    destruct files as [|file files]; [left; exact Hhome|].
    destruct (prefix "image/" (type file)); [|left; exact Hhome].
    now apply landing_handleDragDrop_invariant.
  - simpl. destruct (nth_error Landing.demoImages index) as [[src name]|];
      [|left; exact Hhome].
    now apply landing_handleDemoImage_invariant.
  - left. exact Hhome.
  - left. exact Hhome.
  - left. exact Hhome.
  - left. reflexivity.
Qed.

Lemma landing_reachable_invariant (st : Landing.State) :
  Landing.reachable st -> landing_invariant st.
Proof.
  induction 1 as [|st st' _ IH Hstep].
  - left. reflexivity.
  - exact (landing_step_invariant IH Hstep).
Qed.

(** What file processing does to result and error, by how far it gets. *)
Lemma analyzer_processFile_result_error (env : Env) (file : File)
  (st : Analyzer.State) :
  let st' := Analyzer.exec (Analyzer.processFile env file) st in
  (exists rest,
     actions (commands (Analyzer.processFile env file))
     = Analyzer.SetError None :: rest) /\
  (snd (Analyzer.validateFile file) <> inr true \/
   (exists t, Analyzer.resizeImage env file 512 = inl t) ->
   Analyzer.result st' = Analyzer.result st /\ Analyzer.error st' <> None) /\
  (snd (Analyzer.validateFile file) = inr true ->
   (exists resizedBlob, Analyzer.resizeImage env file 512 = inr resizedBlob) ->
   (Analyzer.result st' = None /\ Analyzer.error st' <> None) \/
   (Analyzer.result st' <> None /\ Analyzer.error st' = None)).
Proof.
  intros st'. subst st'. unfold Analyzer.exec.
  destruct (snd (Analyzer.validateFile file)) as [t|[|]] eqn:Hvalid.
  - destruct (analyzer_processFile_invalid env file) as (m & ->); [congruence|].
    simpl. split; [eexists; reflexivity|].
    split; [intros _; split; [reflexivity | discriminate] | discriminate].
  - apply validateFile_true in Hvalid.
    destruct (Analyzer.resizeImage env file 512) as [t|resizedBlob] eqn:Hresize.
    + destruct (analyzer_processFile_not_resized env file Hvalid Hresize) as (m & ->).
      simpl. split; [eexists; reflexivity|].
      split; [intros _; split; [reflexivity | discriminate]|].
      intros _ (b & Hb). discriminate Hb.
    + rewrite (analyzer_processFile_resized env file Hvalid Hresize).
      rewrite actions_app.
      destruct (analyzer_analyze_actions env resizedBlob) as [_ (outcome & Ho & ->)].
      split; [eexists; reflexivity|]. split.
      * intros [H | (t & Ht)]; [congruence | discriminate Ht].
      * intros _ _. destruct Ho as [(m & ->) | (r & ->)]; simpl.
        -- left. split; [reflexivity | discriminate].
        -- right. split; [discriminate | reflexivity].
  - destruct (analyzer_processFile_invalid env file) as (m & ->); [congruence|].
    simpl. split; [eexists; reflexivity|].
    split; [intros _; split; [reflexivity | discriminate] | discriminate].
Qed.

Lemma landing_handleDragDrop_result_error (env : Env) (file : File)
  (st : Landing.State) :
  let st' := Landing.exec (Landing.handleDragDrop env file) st in
  (exists rest,
     actions (commands (Landing.handleDragDrop env file))
     = Landing.SetError None :: rest) /\
  (snd (Landing.validateImage file) <> inr true ->
   Landing.result st' = Landing.result st /\ Landing.error st' <> None) /\
  (snd (Landing.validateImage file) = inr true ->
   reader_loads env file = false ->
   Landing.result st' = Landing.result st /\ Landing.error st' = None) /\
  (snd (Landing.validateImage file) = inr true ->
   reader_loads env file = true ->
   (Landing.result st' = None /\ Landing.error st' <> None) \/
   (Landing.result st' <> None /\ Landing.error st' = None)).
Proof.
  intros st'. subst st'. unfold Landing.exec, Landing.handleDragDrop.
  rewrite landing_validateImage_cases.
  destruct (existsb _ _); [destruct (size file >? 10485760)%Z|]; simpl.
  - split; [eexists; reflexivity|].
    split; [intros _; split; [reflexivity | discriminate]|].
    split; discriminate.
  - unfold Landing.read_then_analyze. simpl.
    destruct (reader_loads env file) eqn:Hloads; simpl.
    + destruct (landing_analyze_actions env file) as [_ (outcome & Ho & Hacts)].
      destruct (Landing.analyzeImageWithAPI env file) as [cs res].
      simpl in Hacts. simpl. rewrite Hacts.
      split; [eexists; reflexivity|].
      split; [congruence|]. split; [discriminate|].
      intros _ _. destruct Ho as [(m & ->) | (r & ->)]; simpl.
      * left. split; [reflexivity | discriminate].
      * right. split; [discriminate | reflexivity].
    + split; [eexists; reflexivity|].
      split; [congruence|].
      split; [intros _ _; split; reflexivity | discriminate].
  - split; [eexists; reflexivity|].
    split; [intros _; split; [reflexivity | discriminate]|].
    split; discriminate.
Qed.

(** C9 (as the code has it).  A run of the analyze operation clears result
    and error at entry and ends with exactly one of them set, whatever state
    it started in.  The close button of the error card clears the error and
    leaves the result, and the two resets clear both.  File processing
    ([processFile], [handleDragDrop], [handleImageUpload]) clears the error
    with its first setter call; when it refuses the file, or when the resize
    of the analyzer widget fails, it sets an error and leaves the result as
    it was; when the reader of the landing page never loads the file it
    leaves the result as it was and the error cleared; otherwise it goes
    through a run of the analyze operation and ends with exactly one of
    the two set.  So, as long as every handler runs to its end before the
    next event is handled, no state the components reach holds a result and
    an error together. *)
Theorem result_error_exclusive :
  (* one run of the analyze operation *)
  (forall env imageBlob st,
     let script := Analyzer.analyzeImage env imageBlob in
     let entered := Analyzer.run (fst (until_await (commands script))) st in
     let st' := Analyzer.exec script st in
     (Analyzer.result entered = None /\ Analyzer.error entered = None) /\
     ((Analyzer.result st' = None /\ Analyzer.error st' <> None) \/
      (Analyzer.result st' <> None /\ Analyzer.error st' = None))) /\
  (forall env file st,
     let script := Landing.analyzeImageWithAPI env file in
     let entered := Landing.run (fst (until_await (commands script))) st in
     let st' := Landing.exec script st in
     (Landing.result entered = None /\ Landing.error entered = None) /\
     ((Landing.result st' = None /\ Landing.error st' <> None) \/
      (Landing.result st' <> None /\ Landing.error st' = None))) /\
  (* dismissal and reset *)
  (forall st,
     Analyzer.error (Analyzer.exec Analyzer.dismissError st) = None /\
     Analyzer.result (Analyzer.exec Analyzer.dismissError st) = Analyzer.result st) /\
  (forall st,
     Analyzer.error (Analyzer.exec Analyzer.reset st) = None /\
     Analyzer.result (Analyzer.exec Analyzer.reset st) = None) /\
  (forall st,
     Landing.error (Landing.exec Landing.resetAnalysis st) = None /\
     Landing.result (Landing.exec Landing.resetAnalysis st) = None) /\
  (* file processing in the analyzer widget *)
  (forall env file st,
     let st' := Analyzer.exec (Analyzer.processFile env file) st in
     (exists rest,
        actions (commands (Analyzer.processFile env file))
        = Analyzer.SetError None :: rest) /\
     (snd (Analyzer.validateFile file) <> inr true \/
      (exists t, Analyzer.resizeImage env file 512 = inl t) ->
      Analyzer.result st' = Analyzer.result st /\ Analyzer.error st' <> None) /\
     (snd (Analyzer.validateFile file) = inr true ->
      (exists resizedBlob, Analyzer.resizeImage env file 512 = inr resizedBlob) ->
      (Analyzer.result st' = None /\ Analyzer.error st' <> None) \/
      (Analyzer.result st' <> None /\ Analyzer.error st' = None))) /\
  (* file processing on the landing page: a dropped and a chosen file *)
  (forall env file others st,
     let st' := Landing.exec (Landing.handleDragDrop env file) st in
     Landing.handleImageUpload env (file :: others) = Landing.handleDragDrop env file /\
     (exists rest,
        actions (commands (Landing.handleDragDrop env file))
        = Landing.SetError None :: rest) /\
     (snd (Landing.validateImage file) <> inr true ->
      Landing.result st' = Landing.result st /\ Landing.error st' <> None) /\
     (snd (Landing.validateImage file) = inr true ->
      reader_loads env file = false ->
      Landing.result st' = Landing.result st /\ Landing.error st' = None) /\
     (snd (Landing.validateImage file) = inr true ->
      reader_loads env file = true ->
      (Landing.result st' = None /\ Landing.error st' <> None) \/
      (Landing.result st' <> None /\ Landing.error st' = None))) /\
  (* the states reached when handlers do not overlap *)
  (forall st, Analyzer.reachable st ->
     Analyzer.result st = None \/ Analyzer.error st = None) /\
  (forall st, Landing.reachable st ->
     Landing.result st = None \/ Landing.error st = None).
Proof.
  split; [|split; [|split; [|split; [|split; [|split; [|split; [|split]]]]]]].
  - intros env imageBlob st script entered st'. subst script entered st'.
    destruct (analyzer_analyze_commands env imageBlob)
      as (awaits & outcome & Hcmds & _ & _).
    destruct (analyzer_analyze_actions env imageBlob)
      as [_ (o & Ho & Hacts)].
    split; [rewrite Hcmds; split; reflexivity|].
    unfold Analyzer.exec. rewrite Hacts.
    destruct Ho as [(m & ->) | (r & ->)]; simpl.
    + left. split; [reflexivity | discriminate].
    + right. split; [discriminate | reflexivity].
  - intros env file st script entered st'. subst script entered st'.
    destruct (landing_analyze_commands env file)
      as (awaits & outcome & Hcmds & _ & _).
    destruct (landing_analyze_actions env file)
      as [_ (o & Ho & Hacts)].
    split; [rewrite Hcmds; split; reflexivity|].
    unfold Landing.exec. rewrite Hacts.
    destruct Ho as [(m & ->) | (r & ->)]; simpl.
    + left. split; [reflexivity | discriminate].
    + right. split; [discriminate | reflexivity].
  - intros st. split; reflexivity.
  - intros st. split; reflexivity.
  - intros st. split; reflexivity.
  - intros env file st. exact (analyzer_processFile_result_error env file st).
  - intros env file others st. split; [reflexivity|].
    exact (landing_handleDragDrop_result_error env file st).
  - intros st Hreach.
    destruct (analyzer_reachable_invariant Hreach) as [Hres | [Herr _]]; auto.
  - intros st Hreach.
    destruct (landing_reachable_invariant Hreach) as [Hres | [Herr _]]; auto.
Qed.

Lemma result_error_exclusive_witness :
  let st :=
    Analyzer.exec
      (Analyzer.handler
         (Analyzer.FileChange (Samples.browser 1024 768 200 Samples.prediction)
            [Samples.leaf]))
      Analyzer.initial in
  Analyzer.reachable st /\ Analyzer.result st <> None /\
  (Analyzer.result st = None \/ Analyzer.error st = None).
Proof.
  intros st.
  assert (Hreach : Analyzer.reachable st).
  { subst st. eapply Analyzer.reachable_step; [apply Analyzer.reachable_initial|].
    apply Analyzer.step_event. reflexivity. }
  split; [exact Hreach|]. split; [discriminate|].
  exact (proj1 (proj2 (proj2 (proj2 (proj2 (proj2 (proj2 (proj2
           result_error_exclusive)))))))
           st Hreach).
Defined.

(** * Further properties of the code *)

(** ** What the catch block shows *)

Lemma analyzer_on_error_message (t : thrown) :
  Analyzer.on_error t =
    ([Do (Analyzer.SetError (Some
        match t with
        | TypeError m =>
            if String.eqb m "Failed to fetch" then Analyzer.connect_error else m
        | Error m => m
        | NotAnError =>
            "Analysis failed. Please try again with a different image."%string
        end))], inr tt).
Proof.
  destruct t as [m|m|]; try reflexivity.
  unfold Analyzer.on_error. simpl.
  destruct (String.eqb m "Failed to fetch"); reflexivity.
Qed.

Lemma landing_on_error_message (t : thrown) :
  Landing.on_error t =
    ([Do (Landing.SetError (Some
        match t with
        | TypeError m =>
            if String.eqb m "Failed to fetch" then Landing.connect_error else m
        | Error m => m
        | NotAnError =>
            "Analysis failed. Please try again with a different image."%string
        end));
      Do (Landing.SetCurrentView Landing.home)], inr tt).
Proof.
  destruct t as [m|m|]; try reflexivity.
  unfold Landing.on_error. simpl.
  destruct (String.eqb m "Failed to fetch"); reflexivity.
Qed.

(** The setter calls of a run whose request or whose body read rejects. *)
Lemma analyzer_actions_rejected (env : Env) (imageBlob : Blob) (t : thrown) :
  fetch env (Analyzer.predict_request imageBlob) = inl t \/
  (exists response,
     fetch env (Analyzer.predict_request imageBlob) = inr response /\
     ok response = true /\ json response = inl t) ->
  actions (commands (Analyzer.analyzeImage env imageBlob)) =
    [Analyzer.SetIsAnalyzing true; Analyzer.SetError None; Analyzer.SetResult None]
    ++ actions (commands (Analyzer.on_error t))
    ++ [Analyzer.SetIsAnalyzing false].
Proof.
  intros [Hfetch | (response & Hfetch & Hok & Hjson)];
    unfold Analyzer.analyzeImage; simpl; rewrite Hfetch; simpl.
  - rewrite analyzer_on_error_message. reflexivity.
  - unfold Analyzer.check_status. rewrite Hok. simpl. rewrite Hjson. simpl.
    rewrite analyzer_on_error_message. reflexivity.
Qed.

Lemma landing_actions_rejected (env : Env) (file : File) (compressedBlob : Blob)
  (t : thrown) :
  Landing.resizeAndCompressImage env file = inr compressedBlob ->
  fetch env (Landing.predict_request compressedBlob) = inl t \/
  (exists response,
     fetch env (Landing.predict_request compressedBlob) = inr response /\
     ok response = true /\ json response = inl t) ->
  actions (commands (Landing.analyzeImageWithAPI env file)) =
    [Landing.SetIsAnalyzing true; Landing.SetResult None; Landing.SetError None;
     Landing.SetCurrentView Landing.analysis]
    ++ actions (commands (Landing.on_error t))
    ++ [Landing.SetIsAnalyzing false].
Proof.
  intros Hresize [Hfetch | (response & Hfetch & Hok & Hjson)];
    unfold Landing.analyzeImageWithAPI; simpl; rewrite Hresize; simpl;
    rewrite Hfetch; simpl.
  - rewrite landing_on_error_message. reflexivity.
  - unfold Landing.check_status. rewrite Hok. simpl. rewrite Hjson. simpl.
    rewrite landing_on_error_message. reflexivity.
Qed.

(** X1.  When the request rejects, or the body of an OK response cannot be
    read, with the thrown value [t], the run sets no result and leaves the
    flag off; the error is the connection message when [t] is a TypeError
    whose message is "Failed to fetch", the message of [t] when [t] is any
    other Error, and the generic message when [t] is not an Error.  The
    landing page also goes back to the home view. *)
Theorem rejection_messages (env : Env) (t : thrown) :
  let connection :=
    "Unable to connect to the analysis service. Please check your internet connection and try again."%string in
  let generic := "Analysis failed. Please try again with a different image."%string in
  (forall imageBlob st,
     fetch env (Analyzer.predict_request imageBlob) = inl t \/
     (exists response,
        fetch env (Analyzer.predict_request imageBlob) = inr response /\
        ok response = true /\ json response = inl t) ->
     let st' := Analyzer.exec (Analyzer.analyzeImage env imageBlob) st in
     Analyzer.result st' = None /\ Analyzer.isAnalyzing st' = false /\
     (t = TypeError "Failed to fetch" -> Analyzer.error st' = Some connection) /\
     (forall m, t = TypeError m -> m <> "Failed to fetch"%string ->
                Analyzer.error st' = Some m) /\
     (forall m, t = Error m -> Analyzer.error st' = Some m) /\
     (t = NotAnError -> Analyzer.error st' = Some generic)) /\
  (forall file compressedBlob st,
     Landing.resizeAndCompressImage env file = inr compressedBlob ->
     fetch env (Landing.predict_request compressedBlob) = inl t \/
     (exists response,
        fetch env (Landing.predict_request compressedBlob) = inr response /\
        ok response = true /\ json response = inl t) ->
     let st' := Landing.exec (Landing.analyzeImageWithAPI env file) st in
     Landing.result st' = None /\ Landing.isAnalyzing st' = false /\
     Landing.currentView st' = Landing.home /\
     (t = TypeError "Failed to fetch" -> Landing.error st' = Some connection) /\
     (forall m, t = TypeError m -> m <> "Failed to fetch"%string ->
                Landing.error st' = Some m) /\
     (forall m, t = Error m -> Landing.error st' = Some m) /\
     (t = NotAnError -> Landing.error st' = Some generic)).
Proof.
  intros connection generic. split.
  - intros imageBlob st Hrej st'. subst st'. unfold Analyzer.exec.
    rewrite (analyzer_actions_rejected env imageBlob Hrej),
      analyzer_on_error_message.
    simpl. split; [reflexivity|]. split; [reflexivity|].
    repeat split.
    + intros ->. reflexivity.
    + intros m -> Hm. apply String.eqb_neq in Hm. now rewrite Hm.
    + intros m ->. reflexivity.
    + intros ->. reflexivity.
  - intros file compressedBlob st Hresize Hrej st'. subst st'. unfold Landing.exec.
    rewrite (landing_actions_rejected env file Hresize Hrej),
      landing_on_error_message.
    simpl. split; [reflexivity|]. split; [reflexivity|]. split; [reflexivity|].
    repeat split.
    + intros ->. reflexivity.
    + intros m -> Hm. apply String.eqb_neq in Hm. now rewrite Hm.
    + intros m ->. reflexivity.
    + intros ->. reflexivity.
Qed.

Lemma rejection_messages_witness :
  Analyzer.error
    (Analyzer.exec
       (Analyzer.analyzeImage (Samples.offline 1024 768) (FileBlob Samples.leaf))
       Analyzer.initial)
  = Some "Unable to connect to the analysis service. Please check your internet connection and try again."%string /\
  Landing.error
    (Landing.exec (Landing.analyzeImageWithAPI Cases.garbled Samples.leaf)
       Landing.initial)
  = Some "Unexpected token < in JSON at position 0"%string.
Proof.
  split.
  - refine (proj1 (proj2 (proj2
      (proj1 (@rejection_messages (Samples.offline 1024 768)
                (TypeError "Failed to fetch"))
         (FileBlob Samples.leaf) Analyzer.initial (or_introl eq_refl)))) eq_refl).
  - refine (proj1 (proj2 (proj2 (proj2 (proj2 (proj2
      (proj2 (@rejection_messages Cases.garbled
                (Error "Unexpected token < in JSON at position 0"))
         Samples.leaf _ Landing.initial eq_refl
         (or_intror (ex_intro _ _ (conj eq_refl (conj eq_refl eq_refl)))))))))) _ eq_refl).
Defined.

(** ** When the resize rejects *)

Lemma analyzer_processFile_rejected (env : Env) (file : File) (message : string) :
  Analyzer.validateFile file = ([], inr true) ->
  Analyzer.resizeImage env file 512 = inl (Error message) ->
  commands (Analyzer.processFile env file) =
    [Do (Analyzer.SetError None); Do (Analyzer.SetSelectedFile (Some file));
     Do (Analyzer.SetPreviewUrl (Some (ObjectUrl (FileBlob file))));
     Await (AwaitResize file);
     Do (Analyzer.SetError (Some message))].
Proof.
  intros Hvalid Hresize. unfold Analyzer.processFile.
  rewrite Hvalid. simpl. rewrite Hresize. reflexivity.
Qed.

Lemma landing_analyze_rejected (env : Env) (file : File) (message : string) :
  Landing.resizeAndCompressImage env file = inl (Error message) ->
  commands (Landing.analyzeImageWithAPI env file) =
    [Do (Landing.SetIsAnalyzing true); Do (Landing.SetResult None);
     Do (Landing.SetError None); Do (Landing.SetCurrentView Landing.analysis);
     Await (AwaitResize file);
     Do (Landing.SetError (Some message));
     Do (Landing.SetCurrentView Landing.home);
     Do (Landing.SetIsAnalyzing false)].
Proof.
  intros Hresize. unfold Landing.analyzeImageWithAPI. simpl.
  rewrite Hresize. reflexivity.
Qed.

(** X2.  In the analyzer widget, a file that passes validation and whose
    resize rejects is kept selected with its preview, and the error is the
    message of the rejection: "Could not get canvas context" without a 2d
    context, "Failed to load image" when the image does not decode, "Failed
    to create blob from canvas" when the canvas hands over no blob.  No
    request is sent, and the analyzing flag, the result and the resized
    preview are left as they were. *)
Theorem analyzer_resize_failure (env : Env) (file : File) (st : Analyzer.State) :
  snd (Analyzer.validateFile file) = inr true ->
  let st' := Analyzer.exec (Analyzer.processFile env file) st in
  let failed_with message :=
    Analyzer.error st' = Some message /\
    Analyzer.selectedFile st' = Some file /\
    Analyzer.previewUrl st' = Some (ObjectUrl (FileBlob file)) /\
    Analyzer.resizedImageUrl st' = Analyzer.resizedImageUrl st /\
    Analyzer.isAnalyzing st' = Analyzer.isAnalyzing st /\
    Analyzer.result st' = Analyzer.result st /\
    requests (commands (Analyzer.processFile env file)) = [] in
  (getContext env = false -> failed_with "Could not get canvas context"%string) /\
  (getContext env = true -> decode env file = None ->
   failed_with "Failed to load image"%string) /\
  (forall w h,
     getContext env = true -> decode env file = Some (w, h) ->
     toBlob env (fst (Analyzer.resizeImage_dimensions w h 512))
       (snd (Analyzer.resizeImage_dimensions w h 512)) = false ->
     failed_with "Failed to create blob from canvas"%string).
Proof.
  intros Hvalid st' failed_with. apply validateFile_true in Hvalid.
  assert (Hfail : forall message,
             Analyzer.resizeImage env file 512 = inl (Error message) ->
             failed_with message).
  { intros message Hresize. subst failed_with st'. unfold Analyzer.exec.
    rewrite (analyzer_processFile_rejected env file Hvalid Hresize).
    simpl. repeat split; reflexivity. }
  split; [|split].
  - intros Hctx. apply Hfail. unfold Analyzer.resizeImage. now rewrite Hctx.
  - intros Hctx Hdec. apply Hfail. unfold Analyzer.resizeImage.
    now rewrite Hctx, Hdec.
  - intros w h Hctx Hdec Hblob. apply Hfail. unfold Analyzer.resizeImage.
    rewrite Hctx, Hdec. simpl.
    destruct (Analyzer.resizeImage_dimensions w h 512) as [w' h'].
    simpl in Hblob. now rewrite Hblob.
Qed.

Lemma analyzer_resize_failure_witness :
  let st' := Analyzer.exec (Analyzer.processFile Cases.undecodable Samples.leaf)
               Analyzer.initial in
  Analyzer.error st' = Some "Failed to load image"%string /\
  Analyzer.selectedFile st' = Some Samples.leaf /\
  requests (commands (Analyzer.processFile Cases.undecodable Samples.leaf)) = [].
Proof.
  destruct (proj1 (proj2 (@analyzer_resize_failure Cases.undecodable Samples.leaf
                            Analyzer.initial eq_refl)) eq_refl eq_refl)
    as (He & Hs & _ & _ & _ & _ & Hr).
  repeat split; assumption.
Defined.

(** X3.  On the landing page the resize runs inside the analyze operation: a
    resize that rejects ends the run on the home view with the message of
    the rejection as the error ("Failed to create compressed image" when the
    canvas hands over no blob), no result, the flag off and no request
    sent. *)
Theorem landing_resize_failure (env : Env) (file : File) (st : Landing.State) :
  let st' := Landing.exec (Landing.analyzeImageWithAPI env file) st in
  let failed_with message :=
    Landing.error st' = Some message /\
    Landing.result st' = None /\
    Landing.currentView st' = Landing.home /\
    Landing.isAnalyzing st' = false /\
    requests (commands (Landing.analyzeImageWithAPI env file)) = [] in
  (getContext env = false -> failed_with "Could not get canvas context"%string) /\
  (getContext env = true -> decode env file = None ->
   failed_with "Failed to load image"%string) /\
  (forall w h,
     getContext env = true -> decode env file = Some (w, h) ->
     toBlob env (fst (Landing.resizeAndCompressImage_dimensions w h))
       (snd (Landing.resizeAndCompressImage_dimensions w h)) = false ->
     failed_with "Failed to create compressed image"%string).
Proof.
  intros st' failed_with.
  assert (Hfail : forall message,
             Landing.resizeAndCompressImage env file = inl (Error message) ->
             failed_with message).
  { intros message Hresize. subst failed_with st'. unfold Landing.exec.
    rewrite (landing_analyze_rejected env file Hresize).
    simpl. repeat split; reflexivity. }
  split; [|split].
  - intros Hctx. apply Hfail. unfold Landing.resizeAndCompressImage.
    now rewrite Hctx.
  - intros Hctx Hdec. apply Hfail. unfold Landing.resizeAndCompressImage.
    now rewrite Hctx, Hdec.
  - intros w h Hctx Hdec Hblob. apply Hfail. unfold Landing.resizeAndCompressImage.
    rewrite Hctx, Hdec. simpl.
    destruct (Landing.resizeAndCompressImage_dimensions w h) as [w' h'].
    simpl in Hblob. now rewrite Hblob.
Qed.

Lemma landing_resize_failure_witness :
  let st' := Landing.exec (Landing.analyzeImageWithAPI Cases.no_blob Samples.leaf)
               Landing.initial in
  Landing.error st' = Some "Failed to create compressed image"%string /\
  Landing.currentView st' = Landing.home /\
  requests (commands (Landing.analyzeImageWithAPI Cases.no_blob Samples.leaf)) = [].
Proof.
  destruct (proj2 (proj2 (@landing_resize_failure Cases.no_blob Samples.leaf
                            Landing.initial)) 1024%Z 768%Z eq_refl eq_refl eq_refl)
    as (He & _ & Hv & _ & Hr).
  repeat split; assumption.
Defined.

(** ** Files that are refused, chosen or dropped *)

Lemma listed_type_is_image (t : string) :
  In t accepted_types -> prefix "image/" t = true.
Proof.
  unfold accepted_types. simpl.
  intros [<- | [<- | [<- | [<- | []]]]]; reflexivity.
Qed.

Lemma analyzer_valid_is_image (file : File) :
  snd (Analyzer.validateFile file) = inr true ->
  prefix "image/" (type file) = true.
Proof.
  rewrite analyzer_validateFile_cases.
  destruct (existsb _ _) eqn:E; [|discriminate].
  intros _. apply listed_type_is_image. now apply existsb_eqb_In.
Qed.

Lemma landing_valid_is_image (file : File) :
  snd (Landing.validateImage file) = inr true ->
  prefix "image/" (type file) = true.
Proof.
  rewrite landing_validateImage_cases.
  destruct (existsb _ _) eqn:E; [|discriminate].
  intros _. apply listed_type_is_image. now apply existsb_eqb_In.
Qed.

Lemma not_image_not_listed (file : File) :
  prefix "image/" (type file) = false ->
  existsb (String.eqb (type file)) accepted_types = false.
Proof.
  intros Hp. apply existsb_eqb_not_In. intros Hin.
  apply listed_type_is_image in Hin. congruence.
Qed.

(** X4.  A file that validation refuses changes nothing but the error: the
    handler clears the error, sets the message of the refusal and stops.
    It selects no file, awaits nothing and sends no request.  This is so
    for [processFile] of the analyzer widget and for [handleDragDrop] and
    [handleImageUpload] of the landing page. *)
Theorem refused_file_only_sets_error (env : Env) (file : File) (others : list File) :
  let type_message := "Please upload a valid image file (JPEG, PNG, or WebP)"%string in
  let size_message :=
    "Image file is too large. Please upload an image smaller than 10MB"%string in
  (snd (Analyzer.validateFile file) = inr false ->
   exists message,
     (message = type_message \/ message = size_message) /\
     Analyzer.processFile env file
     = ([Do (Analyzer.SetError None); Do (Analyzer.SetError (Some message))], inr tt)) /\
  (snd (Landing.validateImage file) = inr false ->
   exists message,
     (message = type_message \/ message = size_message) /\
     Landing.handleDragDrop env file
     = ([Do (Landing.SetError None); Do (Landing.SetError (Some message))], inr tt) /\
     Landing.handleImageUpload env (file :: others)
     = ([Do (Landing.SetError None); Do (Landing.SetError (Some message))], inr tt)).
Proof.
  intros type_message size_message. split.
  - unfold Analyzer.processFile. rewrite analyzer_validateFile_cases.
    destruct (existsb _ _); [destruct (size file >? 10485760)%Z|]; simpl;
      try discriminate; intros _; eexists; (split; [|reflexivity]); auto.
  - unfold Landing.handleImageUpload, Landing.handleDragDrop.
    rewrite landing_validateImage_cases.
    destruct (existsb _ _); [destruct (size file >? 10485760)%Z|]; simpl;
      try discriminate; intros _; eexists;
      (split; [|split; reflexivity]); auto.
Qed.

Lemma refused_file_only_sets_error_witness :
  exists message,
    Analyzer.processFile (Samples.browser 1024 768 200 Samples.prediction)
      Samples.animation
    = ([Do (Analyzer.SetError None); Do (Analyzer.SetError (Some message))], inr tt).
Proof.
  destruct (proj1 (@refused_file_only_sets_error
                     (Samples.browser 1024 768 200 Samples.prediction)
                     Samples.animation []) eq_refl) as (message & _ & Hscript).
  exists message. exact Hscript.
Defined.

(** X5.  The file input has no filter of its own: a chosen file whose type
    does not start with "image/" is refused with the type message, in both
    components, where the same file dropped is ignored.  Of the chosen
    files only the first counts, and an empty choice does nothing. *)
Theorem chosen_file_is_validated (env : Env) (file : File) (others : list File) :
  let type_message := "Please upload a valid image file (JPEG, PNG, or WebP)"%string in
  Analyzer.handleFileChange env [] = ([], inr tt) /\
  Landing.handleImageUpload env [] = ([], inr tt) /\
  Analyzer.handleFileChange env (file :: others) = Analyzer.handleFileChange env [file] /\
  Landing.handleImageUpload env (file :: others) = Landing.handleImageUpload env [file] /\
  ((~ exists rest, type file = ("image/" ++ rest)%string) ->
   Analyzer.handleFileChange env (file :: others)
   = ([Do (Analyzer.SetError None); Do (Analyzer.SetError (Some type_message))],
      inr tt) /\
   Landing.handleImageUpload env (file :: others)
   = ([Do (Landing.SetError None); Do (Landing.SetError (Some type_message))],
      inr tt) /\
   actions (commands (Analyzer.handleDrop env (file :: others)))
   = [Analyzer.SetIsDragActive false] /\
   commands (Landing.onDrop env (file :: others)) = []).
Proof.
  intros type_message.
  split; [reflexivity|]. split; [reflexivity|].
  split; [reflexivity|]. split; [reflexivity|].
  intros Hnot.
  assert (Hp : prefix "image/" (type file) = false).
  { destruct (prefix "image/" (type file)) eqn:E; [|reflexivity].
    apply prefix_append in E. contradiction. }
  pose proof (not_image_not_listed file Hp) as Hl.
  unfold Analyzer.handleFileChange, Analyzer.processFile,
    Landing.handleImageUpload, Analyzer.handleDrop, Landing.onDrop.
  rewrite analyzer_validateFile_cases, landing_validateImage_cases, Hl, Hp.
  repeat split; reflexivity.
Qed.

Lemma chosen_file_is_validated_witness :
  Analyzer.handleFileChange (Samples.browser 1024 768 200 Samples.prediction)
    [Samples.notes]
  = ([Do (Analyzer.SetError None);
      Do (Analyzer.SetError
            (Some "Please upload a valid image file (JPEG, PNG, or WebP)"%string))],
     inr tt).
Proof.
  refine (proj1 (proj2 (proj2 (proj2 (proj2
    (@chosen_file_is_validated (Samples.browser 1024 768 200 Samples.prediction)
       Samples.notes [])))) _)).
  intros (rest & Habs). discriminate.
Defined.

(** X6.  The filter of the drop handlers never stops a file that validation
    accepts: such a file, dropped, is processed.  A dropped file whose type
    starts with "image/" without being listed passes the filter and is
    refused with the type message. *)
Theorem dropped_file_is_validated (env : Env) (file : File) (others : list File) :
  let type_message := "Please upload a valid image file (JPEG, PNG, or WebP)"%string in
  let listed :=
    In (type file) ["image/jpeg"; "image/jpg"; "image/png"; "image/webp"]%string in
  (snd (Analyzer.validateFile file) = inr true ->
   commands (Analyzer.handleDrop env (file :: others))
   = Do (Analyzer.SetIsDragActive false) :: commands (Analyzer.processFile env file)) /\
  (snd (Landing.validateImage file) = inr true ->
   Landing.onDrop env (file :: others) = Landing.handleDragDrop env file) /\
  ((exists rest, type file = ("image/" ++ rest)%string) -> ~ listed ->
   Analyzer.handleDrop env (file :: others)
   = ([Do (Analyzer.SetIsDragActive false); Do (Analyzer.SetError None);
       Do (Analyzer.SetError (Some type_message))], inr tt) /\
   Landing.onDrop env (file :: others)
   = ([Do (Landing.SetError None); Do (Landing.SetError (Some type_message))],
      inr tt)).
Proof.
  intros type_message listed. split; [|split].
  - intros Hvalid. unfold Analyzer.handleDrop.
    rewrite (analyzer_valid_is_image file Hvalid). simpl.
    destruct (Analyzer.processFile env file). reflexivity.
  - intros Hvalid. unfold Landing.onDrop.
    now rewrite (landing_valid_is_image file Hvalid).
  - intros Himage Hnot.
    apply prefix_append in Himage.
    assert (Hl : existsb (String.eqb (type file)) accepted_types = false)
      by (apply existsb_eqb_not_In; exact Hnot).
    unfold Analyzer.handleDrop, Analyzer.processFile, Landing.onDrop,
      Landing.handleDragDrop.
    rewrite analyzer_validateFile_cases, landing_validateImage_cases, Hl, Himage.
    split; reflexivity.
Qed.

Lemma dropped_file_is_validated_witness :
  Landing.onDrop (Samples.browser 1024 768 200 Samples.prediction)
    [Samples.leaf; Samples.notes]
  = Landing.handleDragDrop (Samples.browser 1024 768 200 Samples.prediction)
      Samples.leaf /\
  Landing.onDrop (Samples.browser 1024 768 200 Samples.prediction)
    [Samples.animation]
  = ([Do (Landing.SetError None);
      Do (Landing.SetError
            (Some "Please upload a valid image file (JPEG, PNG, or WebP)"%string))],
     inr tt).
Proof.
  split.
  - exact (proj1 (proj2 (@dropped_file_is_validated
                           (Samples.browser 1024 768 200 Samples.prediction)
                           Samples.leaf [Samples.notes])) eq_refl).
  - refine (proj2 (proj2 (proj2 (@dropped_file_is_validated
                           (Samples.browser 1024 768 200 Samples.prediction)
                           Samples.animation [])) _ _)).
    + now exists "gif"%string.
    + simpl. intros [H|[H|[H|[H|[]]]]]; discriminate.
Defined.

(** ** The demo images of the landing page *)

(** X7.  [handleDemoImage] clears the error, shows the demo image and sets
    the demo flag, then fetches the image.  When the fetch or the read of
    its blob rejects, the error is the demo message, and the analyzing
    flag, the result and the view are not touched.  When both resolve, the
    run goes on with [analyzeImageWithAPI] on a file named after the demo,
    of type image/jpeg and of the size of the blob: neither the status of
    the response nor [validateImage] is consulted. *)
Theorem demo_image (env : Env) (imageName imageSrc : string) :
  let request := {| url := imageSrc; method := "GET"; body := [] |} in
  (forall t,
     fetch env request = inl t \/
     (exists response, fetch env request = inr response /\ blob response = inl t) ->
     actions (commands (Landing.handleDemoImage env imageName imageSrc))
     = [Landing.SetError None; Landing.SetUploadedImage (Some (Src imageSrc));
        Landing.SetIsDemoMode true;
        Landing.SetError
          (Some "Demo analysis failed. Please try uploading your own image."%string)] /\
     requests (commands (Landing.handleDemoImage env imageName imageSrc))
     = [request]) /\
  (forall response bytes,
     fetch env request = inr response -> blob response = inr bytes ->
     commands (Landing.handleDemoImage env imageName imageSrc)
     = [Do (Landing.SetError None);
        Do (Landing.SetUploadedImage (Some (Src imageSrc)));
        Do (Landing.SetIsDemoMode true);
        Await (AwaitFetch request); Await AwaitBlob]
       ++ commands (Landing.analyzeImageWithAPI env
                      {| name := (imageName ++ ".jpg")%string;
                         type := "image/jpeg"; size := bytes |})).
Proof.
  intros request. split.
  - intros t [Hfetch | (response & Hfetch & Hblob)];
      unfold Landing.handleDemoImage; simpl; fold request; rewrite Hfetch; simpl.
    + split; reflexivity.
    + rewrite Hblob. simpl. split; reflexivity.
  - intros response bytes Hfetch Hblob.
    unfold Landing.handleDemoImage. simpl. fold request.
    rewrite Hfetch. simpl. rewrite Hblob. simpl.
    set (file := {| name := (imageName ++ ".jpg")%string;
                    type := "image/jpeg"; size := bytes |}).
    destruct (landing_analyze_actions env file) as [Hret _].
    destruct (Landing.analyzeImageWithAPI env file) as [cs [t|[]]];
      [discriminate | reflexivity].
Qed.

Lemma demo_image_witness :
  actions (commands (Landing.handleDemoImage Cases.no_demo
                       "Crop Leaf Sample" "/images/potato-early-blight.jpg"))
  = [Landing.SetError None;
     Landing.SetUploadedImage (Some (Src "/images/potato-early-blight.jpg"));
     Landing.SetIsDemoMode true;
     Landing.SetError
       (Some "Demo analysis failed. Please try uploading your own image."%string)] /\
  Landing.result
    (Landing.exec
       (Landing.handleDemoImage (Cases.demo_server (11 * 1024 * 1024))
          "Crop Leaf Sample" "/images/potato-early-blight.jpg")
       Landing.initial) <> None.
Proof.
  split.
  - exact (proj1 (proj1 (@demo_image Cases.no_demo "Crop Leaf Sample"
                           "/images/potato-early-blight.jpg")
                    (TypeError "Failed to fetch") (or_introl eq_refl))).
  - unfold Landing.exec.
    rewrite (proj2 (@demo_image (Cases.demo_server (11 * 1024 * 1024))
                      "Crop Leaf Sample" "/images/potato-early-blight.jpg")
               _ (11 * 1024 * 1024)%Z eq_refl eq_refl).
    discriminate.
Defined.

(** ** Reset, drag flag, menu and questions *)

Lemma analyzer_processFile_keeps_drag (env : Env) (file : File) (st : Analyzer.State) :
  Analyzer.isDragActive (Analyzer.exec (Analyzer.processFile env file) st)
  = Analyzer.isDragActive st.
Proof.
  unfold Analyzer.exec.
  destruct (analyzer_processFile_actions env file)
    as [(m & ->) | [(m & ->) | (b & outcome & -> & [(m & ->) | (r & ->)])]];
    reflexivity.
Qed.

Lemma landing_analyze_keeps_page (env : Env) (file : File) (st : Landing.State) :
  let st' := Landing.exec (Landing.analyzeImageWithAPI env file) st in
  Landing.uploadedImage st' = Landing.uploadedImage st /\
  Landing.isDemoMode st' = Landing.isDemoMode st /\
  Landing.expandedFaq st' = Landing.expandedFaq st /\
  Landing.mobileMenuOpen st' = Landing.mobileMenuOpen st /\
  Landing.isAnalyzing st' = false.
Proof.
  unfold Landing.exec.
  destruct (landing_analyze_actions env file)
    as [_ (outcome & [(m & ->) | (r & ->)] & ->)]; repeat split; reflexivity.
Qed.

(** X8.  "Upload Another Image" after any run of [processFile] puts the
    analyzer widget back in its initial state, the drag flag apart, which
    no step of the upload touches.  "Back to Home" after any run of
    [analyzeImageWithAPI] puts the landing page back on the home view with
    no image, no result, no error and the demo flag off, and leaves the
    menu and the open question as they were. *)
Theorem reset_after_run (env : Env) (file : File) :
  (forall st,
     Analyzer.exec Analyzer.reset (Analyzer.exec (Analyzer.processFile env file) st)
     = Analyzer.apply (Analyzer.SetIsDragActive (Analyzer.isDragActive st))
         Analyzer.initial) /\
  (forall st,
     Landing.exec Landing.resetAnalysis
       (Landing.exec (Landing.analyzeImageWithAPI env file) st)
     = {| Landing.uploadedImage := None; Landing.isAnalyzing := false;
          Landing.result := None; Landing.isDemoMode := false;
          Landing.expandedFaq := Landing.expandedFaq st;
          Landing.mobileMenuOpen := Landing.mobileMenuOpen st;
          Landing.currentView := Landing.home; Landing.error := None |}).
Proof.
  split; intros st.
  - pose proof (analyzer_processFile_keeps_drag env file st) as Hdrag.
    destruct (Analyzer.exec (Analyzer.processFile env file) st) as [f p r a res e d].
    simpl in Hdrag. subst d. reflexivity.
  - destruct (landing_analyze_keeps_page env file st) as (_ & _ & Hf & Hm & Ha).
    destruct (Landing.exec (Landing.analyzeImageWithAPI env file) st)
      as [u a res d f m v e].
    simpl in *. subst. reflexivity.
Qed.

Lemma lt_true (a b : Q) : lt a b = true <-> a < b.
Proof. exact (gt_true b a). Qed.

Lemma ge_true (a b : Q) : ge a b = true <-> b <= a.
Proof. unfold ge. apply Qle_bool_iff. Qed.

(** X9.  The drag flag is off after every drop, whatever was dropped and
    whatever the upload then did.  Entering sets it when the drag carries
    "Files" and leaves the state alone otherwise.  Leaving clears it when
    the pointer is outside the area, whose left and top edges count as
    inside and whose right and bottom edges as outside, and leaves the
    state alone when the pointer is inside. *)
Theorem drag_flag (st : Analyzer.State) :
  (forall env files,
     Analyzer.isDragActive (Analyzer.exec (Analyzer.handleDrop env files) st) = false) /\
  (forall types,
     (In "Files"%string types ->
      Analyzer.exec (Analyzer.handleDragEnter types) st
      = Analyzer.apply (Analyzer.SetIsDragActive true) st) /\
     (~ In "Files"%string types ->
      Analyzer.exec (Analyzer.handleDragEnter types) st = st)) /\
  (forall x y left right top bottom,
     (left <= x /\ x < right /\ top <= y /\ y < bottom ->
      Analyzer.exec (Analyzer.handleDragLeave x y left right top bottom) st = st) /\
     (x < left \/ right <= x \/ y < top \/ bottom <= y ->
      Analyzer.exec (Analyzer.handleDragLeave x y left right top bottom) st
      = Analyzer.apply (Analyzer.SetIsDragActive false) st)).
Proof.
  split; [|split].
  - intros env files. unfold Analyzer.exec, Analyzer.handleDrop.
    destruct files as [|file files]; [reflexivity|].
    destruct (prefix "image/" (type file)); [|reflexivity].
    simpl.
    destruct (Analyzer.processFile env file) as [cs res] eqn:Hp. simpl.
    change (Analyzer.isDragActive
              (Analyzer.run (actions cs)
                 (Analyzer.apply (Analyzer.SetIsDragActive false) st)) = false).
    replace cs with (commands (Analyzer.processFile env file))
      by (rewrite Hp; reflexivity).
    apply (analyzer_processFile_keeps_drag env file
             (Analyzer.apply (Analyzer.SetIsDragActive false) st)).
  - intros types. unfold Analyzer.exec, Analyzer.handleDragEnter, Analyzer.includes.
    split; intros Hin.
    + apply existsb_eqb_In in Hin. now rewrite Hin.
    + apply existsb_eqb_not_In in Hin. now rewrite Hin.
  - intros x y left right top bottom.
    unfold Analyzer.exec, Analyzer.handleDragLeave.
    split.
    + intros (H1 & H2 & H3 & H4).
      assert (E : lt x left || ge x right || lt y top || ge y bottom = false).
      { rewrite !orb_false_iff. repeat split.
        - destruct (lt x left) eqn:E; [apply lt_true in E; lra | reflexivity].
        - destruct (ge x right) eqn:E; [apply ge_true in E; lra | reflexivity].
        - destruct (lt y top) eqn:E; [apply lt_true in E; lra | reflexivity].
        - destruct (ge y bottom) eqn:E; [apply ge_true in E; lra | reflexivity]. }
      now rewrite E.
    + intros Hout.
      assert (E : lt x left || ge x right || lt y top || ge y bottom = true).
      { rewrite !orb_true_iff.
        destruct Hout as [H|[H|[H|H]]].
        - left; left; left. now apply lt_true.
        - left; left; right. now apply ge_true.
        - left; right. now apply lt_true.
        - right. now apply ge_true. }
      now rewrite E.
Qed.

Lemma drag_flag_witness :
  Analyzer.exec (Analyzer.handleDragLeave 10 10 10 200 10 100) Analyzer.initial
  = Analyzer.initial /\
  Analyzer.exec (Analyzer.handleDragLeave 200 10 10 200 10 100)
    (Analyzer.apply (Analyzer.SetIsDragActive true) Analyzer.initial)
  = Analyzer.initial /\
  Analyzer.isDragActive
    (Analyzer.exec (Analyzer.handleDragEnter ["text/plain"; "Files"]%string)
       Analyzer.initial) = true.
Proof.
  split; [|split].
  - apply (proj1 (proj2 (proj2 (drag_flag Analyzer.initial)) 10 10 10 200 10 100)).
    repeat split; lra.
  - apply (proj2 (proj2 (proj2 (drag_flag
             (Analyzer.apply (Analyzer.SetIsDragActive true) Analyzer.initial)))
             200 10 10 200 10 100)).
    right; left. lra.
  - rewrite (proj1 (proj1 (proj2 (drag_flag Analyzer.initial))
                      ["text/plain"; "Files"]%string)); [reflexivity|].
    simpl. tauto.
Defined.

(** X10.  Clicking a question opens it and closes whichever was open;
    clicking the open question closes it.  Two clicks on the same question
    leave it open when it was open and leave every answer closed when it
    was not, also when another question was open.  The menu button flips the
    menu, two clicks leave it as it was, and a menu link closes it.  None of
    them touches the image, the result, the error, the view or the
    analyzing flag. *)
Theorem menu_and_questions (st : Landing.State) (index : nat) :
  (Landing.expandedFaq st = Some index ->
   Landing.expandedFaq (landing_fire (Landing.ToggleFaq index) st) = None) /\
  (Landing.expandedFaq st <> Some index ->
   Landing.expandedFaq (landing_fire (Landing.ToggleFaq index) st) = Some index) /\
  (Landing.expandedFaq st = Some index ->
   Landing.expandedFaq
     (landing_fire (Landing.ToggleFaq index)
        (landing_fire (Landing.ToggleFaq index) st)) = Some index) /\
  (Landing.expandedFaq st <> Some index ->
   Landing.expandedFaq
     (landing_fire (Landing.ToggleFaq index)
        (landing_fire (Landing.ToggleFaq index) st)) = None) /\
  Landing.mobileMenuOpen (landing_fire Landing.ToggleMobileMenu st)
    = negb (Landing.mobileMenuOpen st) /\
  landing_fire Landing.ToggleMobileMenu (landing_fire Landing.ToggleMobileMenu st) = st /\
  Landing.mobileMenuOpen (landing_fire Landing.CloseMobileMenu st) = false /\
  (forall e,
     e = Landing.ToggleFaq index \/ e = Landing.ToggleMobileMenu \/
     e = Landing.CloseMobileMenu ->
     let st' := landing_fire e st in
     Landing.uploadedImage st' = Landing.uploadedImage st /\
     Landing.result st' = Landing.result st /\
     Landing.error st' = Landing.error st /\
     Landing.currentView st' = Landing.currentView st /\
     Landing.isAnalyzing st' = Landing.isAnalyzing st).
Proof.
  unfold landing_fire, Landing.exec. simpl.
  split; [|split; [|split; [|split; [|split; [|split; [|split]]]]]].
  - intros ->. now rewrite Nat.eqb_refl.
  - intros Hne. destruct (Landing.expandedFaq st) as [open|]; [|reflexivity].
    destruct (Nat.eqb open index) eqn:E; [|reflexivity].
    apply Nat.eqb_eq in E. congruence.
  - intros ->. now rewrite Nat.eqb_refl.
  - intros Hne. destruct (Landing.expandedFaq st) as [open|]; simpl.
    + destruct (Nat.eqb open index) eqn:E; simpl.
      * apply Nat.eqb_eq in E. congruence.
      * now rewrite Nat.eqb_refl.
    + now rewrite Nat.eqb_refl.
  - reflexivity.
  - destruct st as [u a res d f m v e]. simpl. now rewrite negb_involutive.
  - reflexivity.
  - intros e [-> | [-> | ->]]; simpl; repeat split; reflexivity.
Qed.

Lemma menu_and_questions_witness :
  Landing.expandedFaq
    (landing_fire (Landing.ToggleFaq 2)
       (landing_fire (Landing.ToggleFaq 1) Landing.initial)) = Some 2%nat /\
  Landing.expandedFaq
    (landing_fire (Landing.ToggleFaq 2)
       (landing_fire (Landing.ToggleFaq 2) Landing.initial)) = None.
Proof.
  split.
  - apply (proj1 (proj2 (menu_and_questions
                           (landing_fire (Landing.ToggleFaq 1) Landing.initial) 2))).
    discriminate.
  - apply (proj2 (proj2 (proj2 (menu_and_questions Landing.initial 2)))).
    discriminate.
Defined.

(** ** What the landing page shows around a run *)

(** X11.  Take a run of [analyzeImageWithAPI] from any state, with no
    setter call of another handler in between.  When the run reaches its
    first [await] the page shows the spinner of the analysis screen.  Once
    the run is over the page shows the results of the analysis screen,
    exactly when a result was set; otherwise an error message was set and
    the page is the home page, with the error card exactly when that message
    is not the empty string. *)
Theorem screen_after_run (env : Env) (file : File) (st : Landing.State) :
  let script := Landing.analyzeImageWithAPI env file in
  let st' := Landing.exec script st in
  Render.landing_screen (Landing.run (fst (until_await (commands script))) st)
    = Render.AnalysisSpinner /\
  (Render.landing_screen st' = Render.AnalysisResults /\ Landing.result st' <> None \/
   exists m, Landing.error st' = Some m /\ Landing.result st' = None /\
             Render.landing_screen st'
             = Render.HomePage (negb (String.eqb m EmptyString))) /\
  (Render.landing_screen st' = Render.AnalysisResults <-> Landing.result st' <> None).
Proof.
  intros script st'. subst script st'.
  destruct (landing_analyze_commands env file) as (awaits & o & Hcmds & _ & _).
  split; [rewrite Hcmds; reflexivity|].
  unfold Landing.exec.
  destruct (landing_analyze_actions env file)
    as [_ (outcome & [(m & ->) | (r & ->)] & ->)]; simpl.
  - split.
    + right. exists m. repeat split. unfold Render.landing_screen. simpl.
      destruct m; reflexivity.
    + unfold Render.landing_screen. simpl. split; [discriminate | congruence].
  - split; [left; split; [reflexivity | discriminate]|].
    unfold Render.landing_screen. simpl. split; [discriminate | reflexivity].
Qed.

(** The message can be empty: when [fetch] rejects with an [Error] without
    a message, the home page comes back without an error card. *)
Example run_without_error_card :
  let env := Cases.silent in
  let st' := Landing.exec (Landing.analyzeImageWithAPI env Samples.leaf) Landing.initial in
  Landing.error st' = Some EmptyString /\
  Render.landing_screen st' = Render.HomePage false.
Proof. split; reflexivity. Qed.

(** ** Bodies that are not what the code expects *)

(** X12.  A body that is null, or whose [disease] is truthy without being a
    string while the rest of the test passes, is not answered with the
    invalid-format message: the property read or the call of [replace]
    throws a TypeError and the error shown is the message of the engine.
    No result is set. *)
Theorem odd_bodies (env : Env) (response : Response) (data : value) :
  ok response = true ->
  json response = inr data ->
  read_null env <> "Failed to fetch"%string ->
  not_a_function env <> "Failed to fetch"%string ->
  (forall imageBlob st,
     fetch env (Analyzer.predict_request imageBlob) = inr response ->
     let st' := Analyzer.exec (Analyzer.analyzeImage env imageBlob) st in
     (data = VNull ->
      Analyzer.result st' = None /\ Analyzer.error st' = Some (read_null env)) /\
     (forall c,
        truthy (field_of data "disease") = true ->
        (forall s, field_of data "disease" <> VStr s) ->
        field_of data "confidence" = VNum c ->
        Analyzer.result st' = None /\
        Analyzer.error st' = Some (not_a_function env))) /\
  (forall file compressedBlob st,
     Landing.resizeAndCompressImage env file = inr compressedBlob ->
     fetch env (Landing.predict_request compressedBlob) = inr response ->
     let st' := Landing.exec (Landing.analyzeImageWithAPI env file) st in
     (data = VNull ->
      Landing.result st' = None /\ Landing.error st' = Some (read_null env)) /\
     (forall c,
        truthy (field_of data "disease") = true ->
        (forall s, field_of data "disease" <> VStr s) ->
        field_of data "confidence" = VNum c ->
        truthy (field_of data "description") = true ->
        Landing.result st' = None /\
        Landing.error st' = Some (not_a_function env))).
Proof.
  intros Hok Hjson Hnull Hfun.
  apply String.eqb_neq in Hnull, Hfun.
  split.
  - intros imageBlob st Hfetch st'.
    assert (Hthrown : forall message,
               String.eqb message "Failed to fetch" = false ->
               Analyzer.read_result env data = ([], inl (TypeError message)) ->
               Analyzer.result st' = None /\ Analyzer.error st' = Some message).
    { intros message Hm Hread.
      destruct (analyzer_exec_thrown env imageBlob st Hfetch Hok Hjson Hread)
        as (m & Hon & Hexec).
      rewrite analyzer_on_error_message, Hm in Hon. injection Hon as <-.
      subst st'. rewrite Hexec. split; reflexivity. }
    split.
    + intros ->. apply Hthrown; [exact Hnull | reflexivity].
    + intros c Ht Hs Hc. apply Hthrown; [exact Hfun|].
      eapply analyzer_read_result_not_string; eassumption.
  - intros file compressedBlob st Hresize Hfetch st'.
    assert (Hthrown : forall message,
               String.eqb message "Failed to fetch" = false ->
               Landing.read_result env data = ([], inl (TypeError message)) ->
               Landing.result st' = None /\ Landing.error st' = Some message).
    { intros message Hm Hread.
      destruct (landing_exec_thrown env file st Hresize Hfetch Hok Hjson Hread)
        as (m & Hon & Hexec).
      rewrite landing_on_error_message, Hm in Hon. injection Hon as <-.
      subst st'. rewrite Hexec. split; reflexivity. }
    split.
    + intros ->. apply Hthrown; [exact Hnull | reflexivity].
    + intros c Ht Hs Hc Hdesc. apply Hthrown; [exact Hfun|].
      eapply landing_read_result_not_string; eassumption.
Qed.

Lemma odd_bodies_witness :
  Analyzer.error
    (Analyzer.exec
       (Analyzer.analyzeImage (Samples.browser 1024 768 200 Cases.numbered)
          (FileBlob Samples.leaf))
       Analyzer.initial)
  = Some "data.disease.replace is not a function"%string /\
  Analyzer.error
    (Analyzer.exec
       (Analyzer.analyzeImage (Samples.browser 1024 768 200 VNull)
          (FileBlob Samples.leaf))
       Analyzer.initial)
  = Some "Cannot read properties of null"%string.
Proof.
  split.
  - refine (proj2 (proj2
      (proj1 (@odd_bodies (Samples.browser 1024 768 200 Cases.numbered)
                (Samples.respond 200 Cases.numbered) Cases.numbered
                eq_refl eq_refl _ _)
         (FileBlob Samples.leaf) Analyzer.initial eq_refl)
      (Finite (3 # 4)) eq_refl _ eq_refl)); discriminate.
  - refine (proj2 (proj1
      (proj1 (@odd_bodies (Samples.browser 1024 768 200 VNull)
                (Samples.respond 200 VNull) VNull eq_refl eq_refl _ _)
         (FileBlob Samples.leaf) Analyzer.initial eq_refl) eq_refl));
      discriminate.
Defined.

(** ** The fields of the result *)

(** X13.  The description of a result of the analyzer widget is the
    [description] of the body when that is truthy and the empty string
    otherwise; on the landing page, where a result needs a truthy
    [description], it is always the [description] of the body. *)
Theorem result_description (env : Env) (response : Response) (data : value)
  (d : jstring) (c : double) :
  ok response = true ->
  json response = inr data ->
  field_of data "disease" = VStr d -> d <> [] ->
  field_of data "confidence" = VNum c ->
  (forall imageBlob st,
     fetch env (Analyzer.predict_request imageBlob) = inr response ->
     exists r,
       Analyzer.result (Analyzer.exec (Analyzer.analyzeImage env imageBlob) st) = Some r /\
       (truthy (field_of data "description") = true ->
        Analyzer.description r = field_of data "description") /\
       (truthy (field_of data "description") = false ->
        Analyzer.description r = VStr [])) /\
  (forall file compressedBlob st,
     Landing.resizeAndCompressImage env file = inr compressedBlob ->
     fetch env (Landing.predict_request compressedBlob) = inr response ->
     truthy (field_of data "description") = true ->
     exists r,
       Landing.result (Landing.exec (Landing.analyzeImageWithAPI env file) st) = Some r /\
       Landing.description r = field_of data "description").
Proof.
  intros Hok Hjson Hd Hne Hc. split.
  - intros imageBlob st Hfetch.
    pose proof (analyzer_read_result_accepted env data Hd Hne Hc) as Hread.
    rewrite (analyzer_exec_accepted env imageBlob st Hfetch Hok Hjson Hread).
    eexists. split; [reflexivity|]. simpl. unfold Analyzer.or_empty.
    split; intros ->; reflexivity.
  - intros file compressedBlob st Hresize Hfetch Hdesc.
    pose proof (landing_read_result_accepted env data Hd Hne Hc Hdesc) as Hread.
    rewrite (landing_exec_accepted env file st Hresize Hfetch Hok Hjson Hread).
    eexists. split; reflexivity.
Qed.

Lemma result_description_witness :
  exists r,
    Analyzer.result
      (Analyzer.exec
         (Analyzer.analyzeImage (Samples.browser 1024 768 200 Samples.prediction)
            (FileBlob Samples.leaf))
         Analyzer.initial) = Some r /\
    Analyzer.description r = VStr [].
Proof.
  destruct (proj1 (@result_description
                     (Samples.browser 1024 768 200 Samples.prediction)
                     (Samples.respond 200 Samples.prediction) Samples.prediction
                     (code_units "Apple___Apple_scab") (Finite (3 # 4))
                     eq_refl eq_refl eq_refl ltac:(discriminate) eq_refl)
              (FileBlob Samples.leaf) Analyzer.initial eq_refl)
    as (r & Hr & _ & Hempty).
  exists r. split; [exact Hr | apply Hempty; reflexivity].
Defined.

Lemma trim_In (x : N) (s : jstring) : In x (trim s) -> In x s.
Proof.
  destruct (trim_trimmed s) as (pre & suf & Hs & _).
  intros Hin. rewrite Hs. apply in_or_app. right. apply in_or_app. now left.
Qed.

Lemma trim_idempotent (s : jstring) : trim (trim s) = trim s.
Proof.
  symmetry. apply trimmed_unique.
  destruct (trim_trimmed s) as (pre & suf & _ & _ & _ & Hstart & Hend).
  exists [], []. rewrite app_nil_r. repeat split; try assumption; constructor.
Qed.

Lemma trim_length (s : jstring) : (List.length (trim s) <= List.length s)%nat.
Proof.
  destruct (trim_trimmed s) as (pre & suf & Hs & _).
  rewrite Hs at 2. rewrite !length_app. lia.
Qed.

Lemma replace_plus_length (s : jstring) :
  (List.length (replace_plus underscore [space] s) <= List.length s)%nat.
Proof.
  remember (List.length s) as n eqn:Hn.
  revert s Hn. induction n as [n IH] using lt_wf_ind. intros s Hn.
  destruct s as [|x s]; [simp replace_plus; simpl; lia|].
  rewrite replace_plus_cons.
  destruct (N.eqb x underscore).
  - simpl.
    assert (Hskip : (List.length (skipn (match_plus underscore s) s)
                     <= List.length s)%nat) by (rewrite length_skipn; lia).
    pose proof (IH (List.length (skipn (match_plus underscore s) s))
                  ltac:(subst n; simpl; lia) _ eq_refl) as Hrec.
    subst n. simpl. lia.
  - simpl.
    pose proof (IH (List.length s) ltac:(subst n; simpl; lia) _ eq_refl) as Hrec.
    subst n. simpl. lia.
Qed.

(** X14.  The disease of a result holds no underscore and neither starts
    nor ends with white space; it is no longer than the disease string of
    the body; and it is a fixed point of the transformation: replacing and
    trimming it again gives it back. *)
Theorem label_is_normal (env : Env) (response : Response) (data : value)
  (d : jstring) (c : double) :
  ok response = true ->
  json response = inr data ->
  field_of data "disease" = VStr d -> d <> [] ->
  field_of data "confidence" = VNum c ->
  let normal (label : jstring) :=
    ~ In underscore label /\
    starts_clean label /\ starts_clean (rev label) /\
    (List.length label <= List.length d)%nat /\
    trim (replace_plus underscore [space] label) = label in
  (forall imageBlob st,
     fetch env (Analyzer.predict_request imageBlob) = inr response ->
     exists r,
       Analyzer.result (Analyzer.exec (Analyzer.analyzeImage env imageBlob) st) = Some r /\
       normal (Analyzer.disease r)) /\
  (forall file compressedBlob st,
     Landing.resizeAndCompressImage env file = inr compressedBlob ->
     fetch env (Landing.predict_request compressedBlob) = inr response ->
     truthy (field_of data "description") = true ->
     exists r,
       Landing.result (Landing.exec (Landing.analyzeImageWithAPI env file) st) = Some r /\
       normal (Landing.disease r)).
Proof.
  intros Hok Hjson Hd Hne Hc normal.
  assert (Hnormal : normal (trim (replace_plus underscore [space] d))).
  { subst normal. simpl.
    assert (Hno : ~ In underscore (trim (replace_plus underscore [space] d))).
    { intros Hin. apply trim_In in Hin.
      exact (replace_plus_no_underscore d Hin). }
    destruct (trim_trimmed (replace_plus underscore [space] d))
      as (pre & suf & _ & _ & _ & Hstart & Hend).
    split; [exact Hno|]. split; [exact Hstart|]. split; [exact Hend|].
    split.
    - etransitivity; [apply trim_length | apply replace_plus_length].
    - rewrite (replace_plus_unchanged _ Hno). apply trim_idempotent. }
  split.
  - intros imageBlob st Hfetch.
    pose proof (analyzer_read_result_accepted env data Hd Hne Hc) as Hread.
    rewrite (analyzer_exec_accepted env imageBlob st Hfetch Hok Hjson Hread).
    eexists. split; [reflexivity | exact Hnormal].
  - intros file compressedBlob st Hresize Hfetch Hdesc.
    pose proof (landing_read_result_accepted env data Hd Hne Hc Hdesc) as Hread.
    rewrite (landing_exec_accepted env file st Hresize Hfetch Hok Hjson Hread).
    eexists. split; [reflexivity | exact Hnormal].
Qed.

Lemma label_is_normal_witness :
  exists r,
    Analyzer.result
      (Analyzer.exec
         (Analyzer.analyzeImage (Samples.browser 1024 768 200 Samples.prediction)
            (FileBlob Samples.leaf))
         Analyzer.initial) = Some r /\
    ~ In underscore (Analyzer.disease r) /\
    trim (replace_plus underscore [space] (Analyzer.disease r)) = Analyzer.disease r.
Proof.
  destruct (proj1 (@label_is_normal
                     (Samples.browser 1024 768 200 Samples.prediction)
                     (Samples.respond 200 Samples.prediction) Samples.prediction
                     (code_units "Apple___Apple_scab") (Finite (3 # 4))
                     eq_refl eq_refl eq_refl ltac:(discriminate) eq_refl)
              (FileBlob Samples.leaf) Analyzer.initial eq_refl)
    as (r & Hr & Hno & _ & _ & _ & Hfix).
  exists r. split; [exact Hr|]. split; assumption.
Defined.

(** ** The states reached when handlers do not overlap *)

Lemma analyzer_processFile_shape (env : Env) (file : File) (st : Analyzer.State) :
  analyzer_shape st -> Analyzer.selectedFile st = None ->
  analyzer_shape (Analyzer.exec (Analyzer.processFile env file) st).
Proof.
  intros (Han & Hprev & Hnone & Hres) Hsel.
  destruct (Hnone Hsel) as [Hresized Hresult].
  destruct st as [f p rz a res e d]. simpl in *. subst.
  unfold analyzer_shape, Analyzer.exec.
  destruct (analyzer_processFile_actions env file)
    as [(m & ->) | [(m & ->) | (b & outcome & -> & [(m & ->) | (r & ->)])]];
    simpl; repeat split; try reflexivity; try discriminate; try congruence.
Qed.

Lemma analyzer_step_shape (st st' : Analyzer.State) :
  analyzer_shape st -> Analyzer.step st st' -> analyzer_shape st'.
Proof.
  intros Hshape Hstep. destruct Hstep as [st e Hen].
  destruct e as [env files|types|x y l r t b| |env files| |]; simpl in Hen.
  - destruct (Analyzer.selectedFile st) eqn:Hsel; [discriminate|].
    destruct files as [|file files]; [exact Hshape|].
    now apply analyzer_processFile_shape.
  - unfold Analyzer.exec. simpl. unfold Analyzer.handleDragEnter.
    destruct (Analyzer.includes types "Files"); exact Hshape.
  - unfold Analyzer.exec. simpl. unfold Analyzer.handleDragLeave.
    destruct (_ || _); exact Hshape.
  - exact Hshape.
  - destruct (Analyzer.selectedFile st) eqn:Hsel; [discriminate|].
    unfold Analyzer.exec. simpl. unfold Analyzer.handleDrop.
    destruct files as [|file files]; [exact Hshape|].
    destruct (prefix "image/" (type file)); [|exact Hshape].
    simpl.
    destruct (Analyzer.processFile env file) as [cs res] eqn:Hp. simpl.
    change (analyzer_shape
              (Analyzer.run (actions cs)
                 (Analyzer.apply (Analyzer.SetIsDragActive false) st))).
    replace cs with (commands (Analyzer.processFile env file))
      by (rewrite Hp; reflexivity).
    apply analyzer_processFile_shape; [exact Hshape | exact Hsel].
  - destruct Hshape as (Han & Hprev & Hnone & Hres).
    unfold analyzer_shape, Analyzer.exec. simpl.
    repeat split; try assumption; try (now apply Hnone); now apply Hres.
  - unfold analyzer_shape. simpl. repeat split; try reflexivity; congruence.
Qed.

Lemma analyzer_reachable_shape (st : Analyzer.State) :
  Analyzer.reachable st -> analyzer_shape st.
Proof.
  induction 1 as [|st st' _ IH Hstep].
  - unfold analyzer_shape. simpl. repeat split; try reflexivity; congruence.
  - exact (analyzer_step_shape IH Hstep).
Qed.

(** X15.  As long as every handler of the analyzer widget runs to its end
    before the next event: the analyzing flag is off; the preview is
    present exactly when a file is selected, and is the preview of that
    file; there is no resized preview and no result without a selected
    file; and a result is only held together with a resized preview. *)
Theorem analyzer_reachable_states (st : Analyzer.State) :
  Analyzer.reachable st ->
  Analyzer.isAnalyzing st = false /\
  (forall file,
     Analyzer.selectedFile st = Some file <->
     Analyzer.previewUrl st = Some (ObjectUrl (FileBlob file))) /\
  (Analyzer.selectedFile st = None <-> Analyzer.previewUrl st = None) /\
  (Analyzer.selectedFile st = None ->
   Analyzer.resizedImageUrl st = None /\ Analyzer.result st = None) /\
  (Analyzer.result st <> None -> Analyzer.resizedImageUrl st <> None).
Proof.
  intros Hreach.
  destruct (analyzer_reachable_shape Hreach) as (Han & Hprev & Hnone & Hres).
  split; [exact Han|]. split; [|split; [|split]].
  - intros file. rewrite Hprev.
    destruct (Analyzer.selectedFile st) as [f|]; simpl; split;
      intros H; try discriminate; injection H as <-; reflexivity.
  - rewrite Hprev. destruct (Analyzer.selectedFile st); simpl; split;
      intros H; try discriminate; reflexivity.
  - exact Hnone.
  - intros H. now apply Hres.
Qed.

Lemma analyzer_reachable_states_witness :
  let st := analyzer_fire
              (Analyzer.FileChange (Samples.browser 1024 768 200 Samples.prediction)
                 [Samples.leaf])
              Analyzer.initial in
  Analyzer.result st <> None /\ Analyzer.resizedImageUrl st <> None /\
  Analyzer.isAnalyzing st = false.
Proof.
  intros st.
  assert (Hreach : Analyzer.reachable st).
  { eapply Analyzer.reachable_step; [apply Analyzer.reachable_initial|].
    apply (Analyzer.step_event Analyzer.initial
             (Analyzer.FileChange (Samples.browser 1024 768 200 Samples.prediction)
                [Samples.leaf])).
    reflexivity. }
  destruct (analyzer_reachable_states Hreach) as (Han & _ & _ & _ & Hres).
  assert (Hr : Analyzer.result st <> None) by discriminate.
  split; [exact Hr|]. split; [exact (Hres Hr) | exact Han].
Defined.



(** A body whose description is an object is accepted, and the widget
    cannot render the result. *)
Example object_description_breaks_render :
  let st := analyzer_fire
              (Analyzer.FileChange
                 (Samples.browser 1024 768 200 Cases.described_by_object)
                 [Samples.leaf])
              Analyzer.initial in
  Analyzer.reachable st /\ Analyzer.result st <> None /\
  Render.analyzer_page st = None.
Proof.
  intros st. split; [|split; [discriminate | reflexivity]].
  eapply Analyzer.reachable_step; [apply Analyzer.reachable_initial|].
  apply (Analyzer.step_event Analyzer.initial
           (Analyzer.FileChange
              (Samples.browser 1024 768 200 Cases.described_by_object)
              [Samples.leaf])).
  reflexivity.
Qed.

Lemma landing_analyze_shape (env : Env) (file : File) (st : Landing.State) :
  Landing.uploadedImage st <> None ->
  landing_shape (Landing.exec (Landing.analyzeImageWithAPI env file) st).
Proof.
  intros Himg. unfold landing_shape, Landing.exec.
  destruct (landing_analyze_actions env file)
    as [_ (outcome & [(m & ->) | (r & ->)] & ->)]; simpl;
    repeat split; try reflexivity; try discriminate; try congruence;
    try assumption.
Qed.

Lemma landing_read_then_analyze_shape (env : Env) (file : File)
  (st : Landing.State) :
  landing_shape st -> Landing.currentView st = Landing.home ->
  landing_shape (Landing.exec (Landing.read_then_analyze env file) st).
Proof.
  intros Hshape Hhome. unfold Landing.exec, Landing.read_then_analyze. simpl.
  destruct (reader_loads env file); simpl; [|exact Hshape].
  destruct (Landing.analyzeImageWithAPI env file) as [cs res] eqn:Ha. simpl.
  replace cs with (commands (Landing.analyzeImageWithAPI env file))
    by (rewrite Ha; reflexivity).
  apply (landing_analyze_shape env file
           (Landing.apply (Landing.SetUploadedImage (Some (DataUrl file))) st)).
  discriminate.
Qed.

Lemma landing_home_only_error (st : Landing.State) (e : option string) :
  landing_shape st -> Landing.currentView st = Landing.home ->
  landing_shape (Landing.apply (Landing.SetError e) st).
Proof.
  intros (Han & Hview & Hres) Hhome.
  assert (Hnone : Landing.result st = None).
  { destruct (Landing.result st) eqn:E; [|reflexivity].
    assert (Habs : Landing.currentView st = Landing.analysis)
      by (apply Hview; discriminate).
    congruence. }
  unfold landing_shape. simpl. rewrite Hnone.
  repeat split; try assumption; try congruence.
Qed.

Lemma landing_handleDragDrop_shape (env : Env) (file : File) (st : Landing.State) :
  landing_shape st -> Landing.currentView st = Landing.home ->
  landing_shape (Landing.exec (Landing.handleDragDrop env file) st).
Proof.
  intros Hshape Hhome. unfold Landing.exec, Landing.handleDragDrop.
  rewrite landing_validateImage_cases.
  destruct (existsb _ _); [destruct (size file >? 10485760)%Z|]; simpl.
  - apply (landing_home_only_error (Some Landing.size_error)).
    + now apply landing_home_only_error.
    + exact Hhome.
  - destruct (Landing.read_then_analyze env file) as [cs res] eqn:Hr. simpl.
    change (landing_shape
              (Landing.run (actions cs) (Landing.apply (Landing.SetError None) st))).
    replace cs with (commands (Landing.read_then_analyze env file))
      by (rewrite Hr; reflexivity).
    apply landing_read_then_analyze_shape; [|exact Hhome].
    now apply landing_home_only_error.
  - apply (landing_home_only_error (Some Landing.type_error)).
    + now apply landing_home_only_error.
    + exact Hhome.
Qed.

Lemma landing_handleDemoImage_shape (env : Env) (imageName imageSrc : string)
  (st : Landing.State) :
  landing_shape st -> Landing.currentView st = Landing.home ->
  landing_shape (Landing.exec (Landing.handleDemoImage env imageName imageSrc) st).
Proof.
  intros Hshape Hhome.
  assert (Hbase : landing_shape
            (Landing.run [Landing.SetError None;
                          Landing.SetUploadedImage (Some (Src imageSrc));
                          Landing.SetIsDemoMode true] st)).
  { pose proof (landing_home_only_error None Hshape Hhome) as (Han & Hview & Hres).
    unfold landing_shape. simpl in *. repeat split; try assumption;
      try (now apply Hview); try discriminate;
      try (intros H; now apply Hres). }
  assert (Hfail : landing_shape
            (Landing.run [Landing.SetError None;
                          Landing.SetUploadedImage (Some (Src imageSrc));
                          Landing.SetIsDemoMode true;
                          Landing.SetError
                            (Some "Demo analysis failed. Please try uploading your own image."%string)]
               st)).
  { change (landing_shape
              (Landing.apply
                 (Landing.SetError
                    (Some "Demo analysis failed. Please try uploading your own image."%string))
                 (Landing.run [Landing.SetError None;
                               Landing.SetUploadedImage (Some (Src imageSrc));
                               Landing.SetIsDemoMode true] st))).
    apply landing_home_only_error; [exact Hbase | exact Hhome]. }
  unfold Landing.exec, Landing.handleDemoImage. simpl.
  destruct (fetch env _) as [t|response]; simpl; [exact Hfail|].
  destruct (blob response) as [t|blob_size]; simpl; [exact Hfail|].
  match goal with
  | |- context [Landing.analyzeImageWithAPI env ?f] => set (file := f)
  end.
  destruct (landing_analyze_actions env file) as [Hret _].
  destruct (Landing.analyzeImageWithAPI env file) as [cs res] eqn:Ha.
  simpl in Hret. subst res. simpl.
  match goal with
  | |- landing_shape (Landing.run (actions cs) ?s) =>
      replace cs with (commands (Landing.analyzeImageWithAPI env file))
        by (rewrite Ha; reflexivity);
      apply (landing_analyze_shape env file s)
  end.
  discriminate.
Qed.

Lemma landing_step_shape (st st' : Landing.State) :
  landing_shape st -> Landing.step st st' -> landing_shape st'.
Proof.
  intros Hshape Hstep. destruct Hstep as [st e Hen].
  unfold Landing.enabled in Hen.
  destruct e as [env files|env files|env index| | |index|];
    destruct (Landing.currentView st) eqn:Hview; try discriminate.
  - simpl. destruct files as [|file files]; [exact Hshape|].
    now apply (landing_handleDragDrop_shape env file).
  - simpl. unfold Landing.onDrop.
    destruct files as [|file files]; [exact Hshape|].
    destruct (prefix "image/" (type file)); [|exact Hshape].
    now apply landing_handleDragDrop_shape.
  - simpl. destruct (nth_error Landing.demoImages index) as [[src name]|];
      [|exact Hshape].
    now apply landing_handleDemoImage_shape.
  - destruct Hshape as (Han & Hv & Hres). unfold landing_shape, Landing.exec.
    simpl. rewrite Hview in *. repeat split; try assumption; try (now apply Hv);
      match goal with
      | H : Landing.result st <> None |- _ => destruct (Hres H); assumption
      end.
  - destruct Hshape as (Han & Hv & Hres). unfold landing_shape, Landing.exec.
    simpl. rewrite Hview in *. repeat split; try assumption; try (now apply Hv);
      match goal with
      | H : Landing.result st <> None |- _ => destruct (Hres H); assumption
      end.
  - destruct Hshape as (Han & Hv & Hres). unfold landing_shape, Landing.exec.
    simpl. rewrite Hview in *. repeat split; try assumption; try (now apply Hv);
      match goal with
      | H : Landing.result st <> None |- _ => destruct (Hres H); assumption
      end.
  - destruct Hshape as (Han & Hv & Hres). unfold landing_shape, Landing.exec.
    simpl. repeat split; try assumption; try discriminate; congruence.
Qed.

Lemma landing_reachable_shape (st : Landing.State) :
  Landing.reachable st -> landing_shape st.
Proof.
  induction 1 as [|st st' _ IH Hstep].
  - unfold landing_shape. simpl. repeat split; try reflexivity;
      try discriminate; congruence.
  - exact (landing_step_shape IH Hstep).
Qed.

(** X17.  As long as every handler of the landing page runs to its end
    before the next event: the analyzing flag is off; the analysis screen
    is shown exactly when a result is held, and a result is held only with
    an image and without an error.  The page is then the home page, with or
    without the error card, or the results of the analysis screen: never
    the spinner, never an empty analysis screen. *)
Theorem landing_reachable_states (st : Landing.State) :
  Landing.reachable st ->
  Landing.isAnalyzing st = false /\
  (Landing.currentView st = Landing.analysis <-> Landing.result st <> None) /\
  (Landing.result st <> None ->
   Landing.uploadedImage st <> None /\ Landing.error st = None) /\
  In (Render.landing_screen st)
    [Render.HomePage false; Render.HomePage true; Render.AnalysisResults].
Proof.
  intros Hreach.
  pose proof (landing_reachable_shape Hreach) as Hshape.
  destruct Hshape as (Han & Hview & Hres).
  split; [exact Han|]. split; [exact Hview|]. split; [exact Hres|].
  unfold Render.landing_screen. rewrite Han.
  destruct (Landing.currentView st).
  - destruct (Landing.error st) as [[|c m]|]; simpl; tauto.
  - destruct (Landing.result st) as [r|]; simpl; [tauto|].
    exfalso. now apply (proj1 Hview).
Qed.

Lemma landing_reachable_states_witness :
  let st := landing_fire
              (Landing.ImageUpload
                 (Samples.browser 1024 768 200 Samples.described_prediction)
                 [Samples.leaf])
              Landing.initial in
  Landing.currentView st = Landing.analysis /\
  Landing.uploadedImage st <> None /\ Landing.error st = None.
Proof.
  intros st.
  assert (Hreach : Landing.reachable st).
  { eapply Landing.reachable_step; [apply Landing.reachable_initial|].
    apply (Landing.step_event Landing.initial
             (Landing.ImageUpload
                (Samples.browser 1024 768 200 Samples.described_prediction)
                [Samples.leaf])).
    reflexivity. }
  destruct (landing_reachable_states Hreach) as (_ & Hview & Hres & _).
  assert (Hr : Landing.result st <> None) by discriminate.
  split; [now apply Hview | exact (Hres Hr)].
Defined.

(** ** Uploads in flight *)

Lemma analyzer_processFile_first_segment (env : Env) (file : File) :
  Analyzer.validateFile file = ([], inr true) ->
  exists rest,
    commands (Analyzer.processFile env file) =
      [Do (Analyzer.SetError None); Do (Analyzer.SetSelectedFile (Some file));
       Do (Analyzer.SetPreviewUrl (Some (ObjectUrl (FileBlob file))));
       Await (AwaitResize file)] ++ rest.
Proof.
  intros Hvalid.
  destruct (Analyzer.resizeImage env file 512) as [t|resizedBlob] eqn:Hresize.
  - destruct (analyzer_processFile_not_resized env file Hvalid Hresize) as (m & ->).
    eexists. reflexivity.
  - rewrite (analyzer_processFile_resized env file Hvalid Hresize).
    eexists. reflexivity.
Qed.

Lemma landing_upload_segments (env : Env) (file : File) (others : list File) :
  Landing.validateImage file = ([], inr true) ->
  reader_loads env file = true ->
  exists rest,
    commands (Landing.handleImageUpload env (file :: others)) =
      [Do (Landing.SetError None); Await (AwaitReader file);
       Do (Landing.SetUploadedImage (Some (DataUrl file)));
       Do (Landing.SetIsAnalyzing true); Do (Landing.SetResult None);
       Do (Landing.SetError None); Do (Landing.SetCurrentView Landing.analysis);
       Await (AwaitResize file)] ++ rest.
Proof.
  intros Hvalid Hloads.
  unfold Landing.handleImageUpload, Landing.read_then_analyze.
  rewrite Hvalid. simpl. rewrite Hloads. simpl.
  destruct (landing_analyze_commands env file) as (awaits & outcome & Hcmds & _ & _).
  destruct (Landing.analyzeImageWithAPI env file) as [cs res].
  simpl in Hcmds. subst cs. simpl. eexists. reflexivity.
Qed.

(** X18.  In the analyzer widget a file that passes validation is selected
    before the handler first yields: from then on the upload area is gone,
    so that no second file can be chosen or dropped until "Upload Another
    Image" is clicked, which is possible at once.  On the landing page the
    handler only clears the error before it yields to the file reader, so
    the upload area is still there and a second upload can start; the page
    turns to the analysis screen, with the flag on, when the reader is
    done. *)
Theorem upload_in_flight (env : Env) (file : File) :
  (snd (Analyzer.validateFile file) = inr true ->
   forall st waiting,
     let c := Analyzer.start (Analyzer.FileChange env [file]) (st, waiting) in
     Analyzer.selectedFile (fst c) = Some file /\
     Analyzer.isAnalyzing (fst c) = Analyzer.isAnalyzing st /\
     (forall env' files,
        Analyzer.enabled (fst c) (Analyzer.FileChange env' files) = false /\
        Analyzer.enabled (fst c) (Analyzer.Drop env' files) = false) /\
     Analyzer.enabled (fst c) Analyzer.Reset = true) /\
  (snd (Landing.validateImage file) = inr true ->
   forall st waiting,
     Landing.currentView st = Landing.home ->
     let c := Landing.start (Landing.ImageUpload env [file]) (st, waiting) in
     fst c = Landing.apply (Landing.SetError None) st /\
     (forall env' files,
        Landing.enabled (fst c) (Landing.ImageUpload env' files) = true) /\
     (reader_loads env file = true ->
      let c' := Landing.resume 0 c in
      Landing.currentView (fst c') = Landing.analysis /\
      Landing.isAnalyzing (fst c') = true /\
      (forall env' files,
         Landing.enabled (fst c') (Landing.ImageUpload env' files) = false) /\
      Landing.enabled (fst c') Landing.ResetAnalysis = true)).
Proof.
  split.
  - intros Hvalid st waiting c. subst c. apply validateFile_true in Hvalid.
    destruct (analyzer_processFile_first_segment env file Hvalid) as (rest & Hcmds).
    unfold Analyzer.start. simpl fst. simpl Analyzer.handler.
    unfold Analyzer.handleFileChange. rewrite Hcmds. simpl.
    repeat split; reflexivity.
  - intros Hvalid st waiting Hhome c. subst c. apply validateImage_true in Hvalid.
    unfold Landing.start. cbn [fst snd].
    change (Landing.handler st (Landing.ImageUpload env [file]))
      with (Landing.handleImageUpload env [file]).
    destruct (reader_loads env file) eqn:Hloads.
    + destruct (landing_upload_segments env file [] Hvalid Hloads) as (rest & Hcmds).
      rewrite Hcmds. simpl.
      split; [reflexivity|]. split.
      * intros env' files. unfold Landing.enabled. simpl. now rewrite Hhome.
      * intros _. unfold Landing.resume. simpl. repeat split; reflexivity.
    + unfold Landing.handleImageUpload, Landing.read_then_analyze.
      rewrite Hvalid. simpl. rewrite Hloads. simpl.
      split; [reflexivity|]. split; [|discriminate].
      intros env' files. unfold Landing.enabled. simpl. now rewrite Hhome.
Qed.

Lemma upload_in_flight_witness :
  let env := Samples.browser 1024 768 200 Samples.described_prediction in
  Analyzer.enabled
    (fst (Analyzer.start (Analyzer.FileChange env [Samples.leaf])
            (Analyzer.initial, [])))
    (Analyzer.Drop env [Samples.leaf]) = false /\
  Landing.enabled
    (fst (Landing.start (Landing.ImageUpload env [Samples.leaf])
            (Landing.initial, [])))
    (Landing.ImageUpload env [Samples.leaf]) = true.
Proof.
  intros env. split.
  - exact (proj2 (proj1 (proj2 (proj2
      (proj1 (@upload_in_flight env Samples.leaf) eq_refl Analyzer.initial [])))
      env [Samples.leaf])).
  - exact (proj1 (proj2
      (proj2 (@upload_in_flight env Samples.leaf) eq_refl Landing.initial []
         eq_refl)) env [Samples.leaf]).
Defined.

(** ** The resize only shrinks *)

Lemma scaled_down (a b m : Q) : 0 < a -> 0 < b -> m < b -> a * m / b <= a.
Proof.
  intros Ha Hb Hm. apply Qle_shift_div_r; [assumption|]. nra.
Qed.

Lemma scaled_positive (a b m : Q) : 0 < a -> 0 < b -> 0 < m -> 0 < a * m / b.
Proof.
  intros Ha Hb Hm. apply Qlt_shift_div_l; [assumption|]. nra.
Qed.

Lemma analyzer_dimensions_shrink (w h : Z) :
  0 < inject_Z w -> 0 < inject_Z h ->
  let d := Analyzer.resizeImage_dimensions w h 512 in
  0 < fst d /\ 0 < snd d /\ fst d <= inject_Z w /\ snd d <= inject_Z h /\
  (512 < inject_Z w \/ 512 < inject_Z h -> fst d == 512 \/ snd d == 512).
Proof.
  intros HW HH d. subst d. rewrite analyzer_dimensions_cases.
  set (W := inject_Z w) in *. set (H := inject_Z h) in *.
  destruct (gt W H) eqn:E1; [apply gt_true in E1 | apply gt_false in E1].
  - destruct (gt W 512) eqn:E2; [apply gt_true in E2 | apply gt_false in E2]; simpl.
    + split; [lra|]. split; [apply scaled_positive; lra|].
      split; [lra|]. split; [apply scaled_down; lra|].
      intros _. left. reflexivity.
    + repeat split; try lra; intros [Hbig|Hbig]; lra.
  - destruct (gt H 512) eqn:E2; [apply gt_true in E2 | apply gt_false in E2]; simpl.
    + split; [apply scaled_positive; lra|]. split; [lra|].
      split; [apply scaled_down; lra|]. split; [lra|].
      intros _. right. reflexivity.
    + repeat split; try lra; intros [Hbig|Hbig]; lra.
Qed.

Lemma landing_dimensions_shrink (w h : Z) :
  0 < inject_Z w -> 0 < inject_Z h ->
  let d := Landing.resizeAndCompressImage_dimensions w h in
  0 < fst d /\ 0 < snd d /\ fst d <= inject_Z w /\ snd d <= inject_Z h /\
  (512 < inject_Z w -> fst d == 512).
Proof.
  intros HW HH d. subst d. rewrite landing_dimensions_cases.
  set (W := inject_Z w) in *. set (H := inject_Z h) in *.
  destruct (gt W 512) eqn:E2; [apply gt_true in E2 | apply gt_false in E2]; simpl.
  - split; [lra|]. split; [apply scaled_positive; lra|].
    split; [lra|]. split; [apply scaled_down; lra|].
    intros _. reflexivity.
  - repeat split; try lra; intros Hbig; lra.
Qed.

(** X19.  The resize never enlarges.  For a decoded image of positive size,
    the blob of either component is drawn at a positive width and height,
    neither of them above the original's.  When the image is wider or
    taller than 512, the analyzer widget draws it with one side exactly
    512; when it is wider than 512, the landing page draws it exactly 512
    wide. *)
Theorem resize_only_shrinks (env : Env) (file : File) (w h : Z) :
  decode env file = Some (w, h) -> (0 < w)%Z -> (0 < h)%Z ->
  (forall b, Analyzer.resizeImage env file 512 = inr b ->
     exists w' h',
       b = CanvasBlob file w' h' "image/jpeg" Analyzer.jpeg_quality /\
       0 < w' /\ 0 < h' /\ w' <= inject_Z w /\ h' <= inject_Z h /\
       ((512 < w)%Z \/ (512 < h)%Z -> w' == 512 \/ h' == 512)) /\
  (forall b, Landing.resizeAndCompressImage env file = inr b ->
     exists w' h',
       b = CanvasBlob file w' h' "image/jpeg" Landing.jpeg_quality /\
       0 < w' /\ 0 < h' /\ w' <= inject_Z w /\ h' <= inject_Z h /\
       ((512 < w)%Z -> w' == 512)).
Proof.
  intros Hdec Hw Hh.
  assert (HW : 0 < inject_Z w) by (rewrite Zlt_Qlt in Hw; exact Hw).
  assert (HH : 0 < inject_Z h) by (rewrite Zlt_Qlt in Hh; exact Hh).
  split; intros b Hb.
  - apply analyzer_resize_resolved in Hb as (w0 & h0 & Hdec' & ->).
    rewrite Hdec in Hdec'. injection Hdec' as <- <-.
    destruct (@analyzer_dimensions_shrink w h HW HH) as (H1 & H2 & H3 & H4 & H5).
    eexists _, _. split; [reflexivity|].
    repeat (split; [assumption|]).
    intros Hbig. apply H5.
    destruct Hbig as [Hbig|Hbig]; rewrite Zlt_Qlt in Hbig; [left | right]; exact Hbig.
  - apply landing_resize_resolved in Hb as (w0 & h0 & Hdec' & ->).
    rewrite Hdec in Hdec'. injection Hdec' as <- <-.
    destruct (@landing_dimensions_shrink w h HW HH) as (H1 & H2 & H3 & H4 & H5).
    eexists _, _. split; [reflexivity|].
    repeat (split; [assumption|]).
    intros Hbig. apply H5. rewrite Zlt_Qlt in Hbig. exact Hbig.
Qed.

Lemma resize_only_shrinks_witness :
  exists w' h',
    Landing.resizeAndCompressImage
      (Samples.browser 1024 768 200 Samples.prediction) Samples.leaf
    = inr (CanvasBlob Samples.leaf w' h' "image/jpeg" Landing.jpeg_quality) /\
    w' == 512 /\ h' <= 768.
Proof.
  destruct (proj2 (@resize_only_shrinks
                     (Samples.browser 1024 768 200 Samples.prediction)
                     Samples.leaf 1024 768 eq_refl eq_refl eq_refl) _ eq_refl)
    as (w' & h' & Hb & _ & _ & _ & Hh & Hw).
  exists w', h'. rewrite <- Hb. split; [reflexivity|].
  split; [apply Hw; reflexivity | exact Hh].
Defined.

(** ** An upload from end to end *)

Lemma analyzer_resize_resolves_to (env : Env) (file : File) (w h : Z) :
  getContext env = true ->
  decode env file = Some (w, h) ->
  toBlob env (fst (Analyzer.resizeImage_dimensions w h 512))
    (snd (Analyzer.resizeImage_dimensions w h 512)) = true ->
  Analyzer.resizeImage env file 512
  = inr (CanvasBlob file (fst (Analyzer.resizeImage_dimensions w h 512))
           (snd (Analyzer.resizeImage_dimensions w h 512))
           "image/jpeg" Analyzer.jpeg_quality).
Proof.
  intros Hctx Hdec Hblob. unfold Analyzer.resizeImage. rewrite Hctx, Hdec. simpl.
  destruct (Analyzer.resizeImage_dimensions w h 512) as [w' h'].
  simpl in *. now rewrite Hblob.
Qed.

Lemma landing_resize_resolves_to (env : Env) (file : File) (w h : Z) :
  getContext env = true ->
  decode env file = Some (w, h) ->
  toBlob env (fst (Landing.resizeAndCompressImage_dimensions w h))
    (snd (Landing.resizeAndCompressImage_dimensions w h)) = true ->
  Landing.resizeAndCompressImage env file
  = inr (CanvasBlob file (fst (Landing.resizeAndCompressImage_dimensions w h))
           (snd (Landing.resizeAndCompressImage_dimensions w h))
           "image/jpeg" Landing.jpeg_quality).
Proof.
  intros Hctx Hdec Hblob. unfold Landing.resizeAndCompressImage.
  rewrite Hctx, Hdec. simpl.
  destruct (Landing.resizeAndCompressImage_dimensions w h) as [w' h'].
  simpl in *. now rewrite Hblob.
Qed.

(** X20.  The analyzer widget from end to end: when the file passes
    validation, the canvas works, the image decodes, the endpoint answers
    the request for the resized blob with an OK response, and the body has
    a non-empty disease string and a confidence number, then [processFile]
    leaves the file selected with its preview and the preview of the
    resized blob, the flag off, no error, and the result made of the
    transformed label, the product of the confidence and 100 as doubles
    multiply, and the description or the empty string.  The drag flag is as
    it was. *)
Theorem analyzer_upload_succeeds (env : Env) (file : File) (w h : Z)
  (response : Response) (data : value) (d : jstring) (c : double)
  (st : Analyzer.State) :
  let resizedBlob :=
    CanvasBlob file (fst (Analyzer.resizeImage_dimensions w h 512))
      (snd (Analyzer.resizeImage_dimensions w h 512))
      "image/jpeg" Analyzer.jpeg_quality in
  snd (Analyzer.validateFile file) = inr true ->
  getContext env = true ->
  decode env file = Some (w, h) ->
  toBlob env (fst (Analyzer.resizeImage_dimensions w h 512))
    (snd (Analyzer.resizeImage_dimensions w h 512)) = true ->
  fetch env (Analyzer.predict_request resizedBlob) = inr response ->
  ok response = true ->
  json response = inr data ->
  field_of data "disease" = VStr d -> d <> [] ->
  field_of data "confidence" = VNum c ->
  Analyzer.exec (Analyzer.processFile env file) st =
    {| Analyzer.selectedFile := Some file;
       Analyzer.previewUrl := Some (ObjectUrl (FileBlob file));
       Analyzer.resizedImageUrl := Some (ObjectUrl resizedBlob);
       Analyzer.isAnalyzing := false;
       Analyzer.result := Some
         {| Analyzer.disease := trim (replace_plus underscore [space] d);
            Analyzer.confidence := mul c (Finite 100);
            Analyzer.description :=
              if truthy (field_of data "description")
              then field_of data "description" else VStr [] |};
       Analyzer.error := None;
       Analyzer.isDragActive := Analyzer.isDragActive st |}.
Proof.
  intros resizedBlob Hvalid Hctx Hdec Hblob Hfetch Hok Hjson Hd Hne Hc.
  apply validateFile_true in Hvalid.
  pose proof (analyzer_resize_resolves_to env file Hctx Hdec Hblob) as Hresize.
  fold resizedBlob in Hresize.
  pose proof (analyzer_read_result_accepted env data Hd Hne Hc) as Hread.
  unfold Analyzer.exec.
  rewrite (analyzer_processFile_resized env file Hvalid Hresize).
  rewrite (analyzer_script_ok env resizedBlob Hfetch Hok Hjson), Hread.
  reflexivity.
Qed.

Lemma analyzer_upload_succeeds_witness :
  Analyzer.error
    (Analyzer.exec
       (Analyzer.processFile (Samples.browser 1024 768 200 Samples.prediction)
          Samples.leaf)
       Analyzer.initial) = None /\
  Analyzer.selectedFile
    (Analyzer.exec
       (Analyzer.processFile (Samples.browser 1024 768 200 Samples.prediction)
          Samples.leaf)
       Analyzer.initial) = Some Samples.leaf /\
  Analyzer.result
    (Analyzer.exec
       (Analyzer.processFile (Samples.browser 1024 768 200 Samples.prediction)
          Samples.leaf)
       Analyzer.initial)
  = Some {| Analyzer.disease := code_units "Apple Apple scab";
            Analyzer.confidence := Finite 75;
            Analyzer.description := VStr [] |}.
Proof.
  rewrite (@analyzer_upload_succeeds
             (Samples.browser 1024 768 200 Samples.prediction) Samples.leaf
             1024 768 (Samples.respond 200 Samples.prediction) Samples.prediction
             (code_units "Apple___Apple_scab") (Finite (3 # 4)) Analyzer.initial
             eq_refl eq_refl eq_refl eq_refl eq_refl eq_refl eq_refl eq_refl
             ltac:(discriminate) eq_refl).
  repeat split; reflexivity.
Defined.

(** X21.  The landing page from end to end: under the same conditions, with
    a truthy description and a file reader that loads the file,
    [handleImageUpload] leaves the page on the analysis screen with the
    data URL of the file as image, the flag off, no error and the result
    (the transformed label, the product of the confidence and 100 as
    doubles multiply, the description as it came); the demo flag, the menu
    and the open question are as they were.  When
    the reader never loads the file, the handler has only cleared the
    error. *)
Theorem landing_upload_succeeds (env : Env) (file : File) (others : list File)
  (w h : Z) (response : Response) (data : value) (d : jstring) (c : double)
  (st : Landing.State) :
  let compressedBlob :=
    CanvasBlob file (fst (Landing.resizeAndCompressImage_dimensions w h))
      (snd (Landing.resizeAndCompressImage_dimensions w h))
      "image/jpeg" Landing.jpeg_quality in
  snd (Landing.validateImage file) = inr true ->
  (reader_loads env file = false ->
   Landing.exec (Landing.handleImageUpload env (file :: others)) st
   = Landing.apply (Landing.SetError None) st) /\
  (reader_loads env file = true ->
   getContext env = true ->
   decode env file = Some (w, h) ->
   toBlob env (fst (Landing.resizeAndCompressImage_dimensions w h))
     (snd (Landing.resizeAndCompressImage_dimensions w h)) = true ->
   fetch env (Landing.predict_request compressedBlob) = inr response ->
   ok response = true ->
   json response = inr data ->
   field_of data "disease" = VStr d -> d <> [] ->
   field_of data "confidence" = VNum c ->
   truthy (field_of data "description") = true ->
   Landing.exec (Landing.handleImageUpload env (file :: others)) st =
     {| Landing.uploadedImage := Some (DataUrl file);
        Landing.isAnalyzing := false;
        Landing.result := Some
          {| Landing.disease := trim (replace_plus underscore [space] d);
             Landing.confidence := mul c (Finite 100);
             Landing.description := field_of data "description" |};
        Landing.isDemoMode := Landing.isDemoMode st;
        Landing.expandedFaq := Landing.expandedFaq st;
        Landing.mobileMenuOpen := Landing.mobileMenuOpen st;
        Landing.currentView := Landing.analysis;
        Landing.error := None |}).
Proof.
  intros compressedBlob Hvalid. apply validateImage_true in Hvalid.
  split.
  - intros Hloads. unfold Landing.exec, Landing.handleImageUpload,
      Landing.read_then_analyze.
    rewrite Hvalid. simpl. rewrite Hloads. reflexivity.
  - intros Hloads Hctx Hdec Hblob Hfetch Hok Hjson Hd Hne Hc Hdesc.
    pose proof (landing_resize_resolves_to env file Hctx Hdec Hblob) as Hresize.
    fold compressedBlob in Hresize.
    pose proof (landing_read_result_accepted env data Hd Hne Hc Hdesc) as Hread.
    pose proof (landing_script_ok env file Hresize Hfetch Hok Hjson) as Hscript.
    rewrite Hread in Hscript.
    unfold Landing.exec, Landing.handleImageUpload, Landing.read_then_analyze.
    rewrite Hvalid. simpl. rewrite Hloads. simpl.
    destruct (Landing.analyzeImageWithAPI env file) as [cs res].
    simpl in Hscript. subst cs. reflexivity.
Qed.

Lemma landing_upload_succeeds_witness :
  Landing.currentView
    (Landing.exec
       (Landing.handleImageUpload
          (Samples.browser 1024 768 200 Samples.described_prediction)
          [Samples.leaf])
       Landing.initial) = Landing.analysis.
Proof.
  rewrite (proj2 (@landing_upload_succeeds
             (Samples.browser 1024 768 200 Samples.described_prediction)
             Samples.leaf [] 1024 768
             (Samples.respond 200 Samples.described_prediction)
             Samples.described_prediction
             (code_units "Apple___Apple_scab") (Finite (3 # 4)) Landing.initial
             eq_refl)
             eq_refl eq_refl eq_refl eq_refl eq_refl eq_refl eq_refl eq_refl
             ltac:(discriminate) eq_refl eq_refl).
  reflexivity.
Defined.

(** ** The status in the message *)

Lemma to_int_not_nil (n : Z) : Z.to_int n <> Decimal.Pos Decimal.Nil /\
                               Z.to_int n <> Decimal.Neg Decimal.Nil.
Proof.
  destruct n as [|p|p]; simpl; split; try discriminate;
    intros [= H]; exact (DecimalPos.Unsigned.to_uint_nonnil p H).
Qed.

(** The template literal of an integer determines the integer. *)
Lemma to_string_inj (a b : Z) : to_string a = to_string b -> a = b.
Proof.
  unfold to_string. intros H.
  apply DecimalZ.to_int_inj.
  destruct (to_int_not_nil a) as [Ha1 Ha2].
  destruct (to_int_not_nil b) as [Hb1 Hb2].
  pose proof (NilZero.isi (Z.to_int a) Ha1 Ha2) as Ia.
  pose proof (NilZero.isi (Z.to_int b) Hb1 Hb2) as Ib.
  rewrite H in Ia. rewrite Ia in Ib. now injection Ib.
Qed.

(** X22.  For the statuses that have no message of their own (not OK,
    outside [400, 500) and not 500) the error names the status: two runs
    that end with the same error were answered with the same status.  This
    holds within each component. *)
Theorem status_read_from_error (env1 env2 : Env) (r1 r2 : Response) :
  ok r1 = false -> ok r2 = false ->
  ~ (400 <= status r1 < 500)%Z -> status r1 <> 500%Z ->
  ~ (400 <= status r2 < 500)%Z -> status r2 <> 500%Z ->
  (forall blob1 blob2 st1 st2,
     fetch env1 (Analyzer.predict_request blob1) = inr r1 ->
     fetch env2 (Analyzer.predict_request blob2) = inr r2 ->
     Analyzer.error (Analyzer.exec (Analyzer.analyzeImage env1 blob1) st1)
     = Analyzer.error (Analyzer.exec (Analyzer.analyzeImage env2 blob2) st2) ->
     status r1 = status r2) /\
  (forall file1 file2 blob1 blob2 st1 st2,
     Landing.resizeAndCompressImage env1 file1 = inr blob1 ->
     Landing.resizeAndCompressImage env2 file2 = inr blob2 ->
     fetch env1 (Landing.predict_request blob1) = inr r1 ->
     fetch env2 (Landing.predict_request blob2) = inr r2 ->
     Landing.error (Landing.exec (Landing.analyzeImageWithAPI env1 file1) st1)
     = Landing.error (Landing.exec (Landing.analyzeImageWithAPI env2 file2) st2) ->
     status r1 = status r2).
Proof.
  intros Hok1 Hok2 Hout1 H500a Hout2 H500b. split.
  - intros blob1 blob2 st1 st2 Hf1 Hf2.
    destruct (analyzer_check_status_not_ok r1 Hok1) as (m1 & Hc1 & _ & _ & _ & Hm1).
    destruct (analyzer_check_status_not_ok r2 Hok2) as (m2 & Hc2 & _ & _ & _ & Hm2).
    unfold Analyzer.exec.
    rewrite (analyzer_script_not_ok env1 blob1 Hf1 Hc1),
      (analyzer_script_not_ok env2 blob2 Hf2 Hc2).
    simpl. rewrite (Hm1 Hout1 H500a), (Hm2 Hout2 H500b).
    intros [= H]. now apply to_string_inj.
  - intros file1 file2 blob1 blob2 st1 st2 Hr1 Hr2 Hf1 Hf2.
    destruct (landing_check_status_not_ok r1 Hok1) as (m1 & Hc1 & _ & _ & _ & Hm1).
    destruct (landing_check_status_not_ok r2 Hok2) as (m2 & Hc2 & _ & _ & _ & Hm2).
    unfold Landing.exec.
    rewrite (landing_script_not_ok env1 file1 Hr1 Hf1 Hc1),
      (landing_script_not_ok env2 file2 Hr2 Hf2 Hc2).
    simpl. rewrite (Hm1 Hout1 H500a), (Hm2 Hout2 H500b).
    intros [= H]. now apply to_string_inj.
Qed.

Lemma status_read_from_error_witness :
  Analyzer.error
    (Analyzer.exec
       (Analyzer.analyzeImage (Samples.browser 1024 768 502 Samples.prediction)
          (FileBlob Samples.leaf)) Analyzer.initial)
  <> Analyzer.error
       (Analyzer.exec
          (Analyzer.analyzeImage (Samples.browser 1024 768 503 Samples.prediction)
             (FileBlob Samples.leaf)) Analyzer.initial).
Proof.
  intros Heq.
  assert (Hsame : status (Samples.respond 502 Samples.prediction)
                  = status (Samples.respond 503 Samples.prediction)).
  { refine (proj1 (@status_read_from_error
              (Samples.browser 1024 768 502 Samples.prediction)
              (Samples.browser 1024 768 503 Samples.prediction)
              (Samples.respond 502 Samples.prediction)
              (Samples.respond 503 Samples.prediction)
              eq_refl eq_refl _ _ _ _)
              (FileBlob Samples.leaf) (FileBlob Samples.leaf)
              Analyzer.initial Analyzer.initial eq_refl eq_refl Heq);
      simpl; try lia; discriminate. }
  discriminate Hsame.
Defined.

(** ** The two copies of the validation *)

(** X23.  The two components validate alike: [validateFile] and
    [validateImage] return the same verdict for every file and set the same
    message, if any.  On the landing page, choosing a file and dropping it
    run the same steps once the drop filter is passed. *)
Theorem same_validation (file : File) :
  snd (Analyzer.validateFile file) = snd (Landing.validateImage file) /\
  (forall message,
     commands (Analyzer.validateFile file) = [Do (Analyzer.SetError message)] <->
     commands (Landing.validateImage file) = [Do (Landing.SetError message)]) /\
  (commands (Analyzer.validateFile file) = [] <->
   commands (Landing.validateImage file) = []) /\
  (forall env others,
     Landing.handleImageUpload env (file :: others) = Landing.handleDragDrop env file).
Proof.
  rewrite analyzer_validateFile_cases, landing_validateImage_cases.
  destruct (existsb _ _); [destruct (size file >? 10485760)%Z|]; simpl;
    (split; [reflexivity|]);
    (split; [intros message; split; intros [= <-]; reflexivity|]);
    (split; [split; intros H; try discriminate; reflexivity|]);
    reflexivity.
Qed.
